(** * FeedChecker desktop client: the check-orchestration layer

    A shallow embedding of the renderer's orchestration code:
    - [services/api.ts] (class [FeedCheckerAPI]): the HTTP endpoints, the
      server-sent-event strategy [checkFeedWithProgress] and the job poller
      [checkFeedWithPolling];
    - [pages/Home.tsx]: the strategy selection in [handleSubmit], the upload
      progress estimator of [uploadWithProgress] and the hand-off of the
      result to the results page through [sessionStorage].

    The first modules model what the program runs on: JavaScript strings
    and values, exceptions, [fetch] responses (including the rule that a
    body is read once), promises, timers, the event source and the session
    store. Messages of exceptions raised by the runtime are those of V8 and
    Chromium, on which the application runs. What the outside world sends
    (responses, events, parse results, the clock) is input to the model.
    The program follows, then sample inputs, then the properties. *)

From Stdlib Require Import String Ascii ZArith QArith Qcanon Qround List Bool Lia DecimalString.
From stdpp Require Import gmap strings.
Import ListNotations.

#[local] Set Warnings "-register-all".
Local Open Scope string_scope.
Local Open Scope Z_scope.

(** ** JavaScript strings

    A JS string is modelled by the UTF-8 encoding of its text, one [ascii]
    per byte.  The operations below are those the program calls. *)
Module JsString.

Definition isEmpty (s : string) : bool :=
  match s with EmptyString => true | String _ _ => false end.

(** [s.startsWith(p)] *)
Definition startsWith (p s : string) : bool := String.prefix p s.

(** [s.includes(p)] *)
Fixpoint includes (p s : string) : bool :=
  String.prefix p s ||
  match s with
  | EmptyString => false
  | String _ t => includes p t
  end.

Definition byte (c : ascii) : N := N_of_ascii c.

(** [s.toLowerCase()] on the ASCII letters. The program applies it only
    before comparing with the ASCII prefixes [<!doctype] and [<html], whose
    letters no other character lower-cases to. *)
Definition lowerChar (c : ascii) : ascii :=
  let n := byte c in
  if ((65 <=? n) && (n <=? 90))%N then ascii_of_N (n + 32) else c.

Fixpoint toLowerCase (s : string) : string :=
  match s with
  | EmptyString => EmptyString
  | String c t => String (lowerChar c) (toLowerCase t)
  end.

(** ECMAScript WhiteSpace and LineTerminator code points that fit in one
    byte: TAB, LF, VT, FF, CR, SP. *)
Definition ws1 (a : N) : bool :=
  ((a =? 9) || (a =? 10) || (a =? 11) || (a =? 12) || (a =? 13) || (a =? 32))%N.

(** U+00A0 *)
Definition ws2 (a b : N) : bool := ((a =? 194) && (b =? 160))%N.

(** U+1680, U+2000..U+200A, U+2028, U+2029, U+202F, U+205F, U+3000, U+FEFF *)
Definition ws3 (a b c : N) : bool :=
  (((a =? 225) && (b =? 154) && (c =? 128))
   || ((a =? 226) && (b =? 128) &&
       (((128 <=? c) && (c <=? 138)) || (c =? 168) || (c =? 169) || (c =? 175)))
   || ((a =? 226) && (b =? 129) && (c =? 159))
   || ((a =? 227) && (b =? 128) && (c =? 128))
   || ((a =? 239) && (b =? 187) && (c =? 191)))%N.

(** Number of bytes of the white-space code point [l] starts with
    ([0] when it starts with none). *)
Definition wsPrefix (l : list N) : nat :=
  match l with
  | a :: r =>
      if ws1 a then 1%nat
      else match r with
           | b :: r' =>
               if ws2 a b then 2%nat
               else match r' with
                    | c :: _ => if ws3 a b c then 3%nat else 0%nat
                    | [] => 0%nat
                    end
           | [] => 0%nat
           end
  | [] => 0%nat
  end.

(** The same at the end of the text, on the reversed bytes. *)
Definition wsSuffix (l : list N) : nat :=
  match l with
  | a :: r =>
      if ws1 a then 1%nat
      else match r with
           | b :: r' =>
               if ws2 b a then 2%nat
               else match r' with
                    | c :: _ => if ws3 c b a then 3%nat else 0%nat
                    | [] => 0%nat
                    end
           | [] => 0%nat
           end
  | [] => 0%nat
  end.

Fixpoint strip (look : list N -> nat) (fuel : nat) (l : list N) : list N :=
  match fuel with
  | O => l
  | S fuel' =>
      match look l with
      | O => l
      | S k => strip look fuel' (List.skipn (S k) l)
      end
  end.

Definition bytes (s : string) : list N := List.map byte (list_ascii_of_string s).
Definition ofBytes (l : list N) : string := string_of_list_ascii (List.map ascii_of_N l).

Definition trimStartBytes (l : list N) : list N := strip wsPrefix (List.length l) l.
Definition trimEndBytes (l : list N) : list N :=
  List.rev (strip wsSuffix (List.length l) (List.rev l)).

(** [s.trim()] *)
Definition trim (s : string) : string := ofBytes (trimEndBytes (trimStartBytes (bytes s))).

(** The high surrogate of the code point of four bytes that starts with
    the bytes [a], [b], [c], in the three bytes that the generalized UTF-8
    encoding gives a surrogate on its own. *)
Definition highSurrogate (a b c : N) : list N :=
  let hi := (55296 + (N.land a 7 * 256 + N.land b 63 * 4 + N.land c 63 / 16 - 64))%N in
  [237; 128 + N.land (hi / 64) 63; 128 + N.land hi 63]%N.

(** The first [n] UTF-16 code units of a text: a code point of one, two
    or three bytes is one unit, a code point of four bytes is two. *)
Fixpoint takeUnits (n : nat) (l : list N) : list N :=
  match n, l with
  | O, _ => []
  | _, [] => []
  | S n', a :: r =>
      if (240 <=? a)%N then
        match r with
        | b :: c :: d :: r' =>
            match n' with
            | O => highSurrogate a b c
            | S n'' => a :: b :: c :: d :: takeUnits n'' r'
            end
        | _ => a :: takeUnits n' r
        end
      else if (224 <=? a)%N then
        match r with
        | b :: c :: r' => a :: b :: c :: takeUnits n' r'
        | _ => a :: takeUnits n' r
        end
      else if (192 <=? a)%N then
        match r with
        | b :: r' => a :: b :: takeUnits n' r'
        | _ => a :: takeUnits n' r
        end
      else a :: takeUnits n' r
  end.

(** [s.substring(0, n)]: [n] counts UTF-16 code units.  When the cut falls
    between the two units of a code point, the result ends in its high
    surrogate alone. *)
Definition substring0 (n : nat) (s : string) : string := ofBytes (takeUnits n (bytes s)).

(** Decimal rendering of an integer, as in a template literal. *)
Definition ofZ (n : Z) : string := NilZero.string_of_int (Z.to_int n).

(** [a.join(sep)] on strings *)
Fixpoint join (sep : string) (l : list string) : string :=
  match l with
  | [] => EmptyString
  | [x] => x
  | x :: r => x +:+ sep +:+ join sep r
  end.

End JsString.


(** ** JavaScript values and exceptions *)
Module JS.

(** The values JSON carries, and [undefined].  Numbers are the integers
    (the protocol's counters, sizes, identifiers and status codes). *)
Inductive Value : Type :=
| Undefined
| Null
| Bool (b : bool)
| Num (n : Z)
| Str (s : string)
| Arr (items : list Value)
| Obj (props : list (string * Value)).

(** ToBoolean *)
Definition truthy (v : Value) : bool :=
  match v with
  | Undefined | Null => false
  | Bool b => b
  | Num n => negb (n =? 0)
  | Str s => negb (JsString.isEmpty s)
  | Arr _ | Obj _ => true
  end.

(** [a || b] *)
Definition or (a b : Value) : Value := if truthy a then a else b.

(** [v === "s"] for a string literal [s] *)
Definition isStr (s : string) (v : Value) : bool :=
  match v with
  | Str t => String.eqb t s
  | _ => false
  end.

(** [typeof v === 'object'] *)
Definition typeofObject (v : Value) : bool :=
  match v with
  | Null | Arr _ | Obj _ => true
  | _ => false
  end.

(** [typeof v === 'string'] *)
Definition typeofString (v : Value) : bool :=
  match v with Str _ => true | _ => false end.

Fixpoint assoc (k : string) (ps : list (string * Value)) : Value :=
  match ps with
  | [] => Undefined
  | (k', v) :: r => if String.eqb k k' then v else assoc k r
  end.

(** ToString *)
Fixpoint toString (v : Value) : string :=
  match v with
  | Undefined => "undefined"
  | Null => "null"
  | Bool true => "true"
  | Bool false => "false"
  | Num n => JsString.ofZ n
  | Str s => s
  | Arr items =>
      JsString.join ","
        ((fix each (l : list Value) : list string :=
            match l with
            | [] => []
            | x :: r =>
                match x with
                | Undefined | Null => EmptyString
                | _ => toString x
                end :: each r
            end) items)
  | Obj _ => "[object Object]"
  end.

(** *** JSON.stringify *)

Definition dquote : string := String (ascii_of_N 34) EmptyString.
Definition backslash : string := String (ascii_of_N 92) EmptyString.

Definition hexDigit (n : N) : string :=
  String (ascii_of_N (if (n <? 10)%N then 48 + n else 87 + n)) EmptyString.

(** QuoteJSONString on one byte: the two-character escapes, [\u00xx] for
    the other control characters, the byte itself otherwise. *)
Definition escapeChar (c : ascii) : string :=
  let n := JsString.byte c in
  if (n =? 34)%N then backslash +:+ dquote
  else if (n =? 92)%N then backslash +:+ backslash
  else if (n =? 8)%N then backslash +:+ "b"
  else if (n =? 9)%N then backslash +:+ "t"
  else if (n =? 10)%N then backslash +:+ "n"
  else if (n =? 12)%N then backslash +:+ "f"
  else if (n =? 13)%N then backslash +:+ "r"
  else if (n <? 32)%N then backslash +:+ "u00" +:+ hexDigit (n / 16) +:+ hexDigit (n mod 16)
  else String c EmptyString.

Fixpoint escape (s : string) : string :=
  match s with
  | EmptyString => EmptyString
  | String c t => escapeChar c +:+ escape t
  end.

Definition quote (s : string) : string := dquote +:+ escape s +:+ dquote.

(** [None] stands for the [undefined] that [JSON.stringify(undefined)]
    returns; such properties are left out of objects and become [null] in
    arrays. *)
Fixpoint stringifyOpt (v : Value) : option string :=
  match v with
  | Undefined => None
  | Null => Some "null"
  | Bool true => Some "true"
  | Bool false => Some "false"
  | Num n => Some (JsString.ofZ n)
  | Str s => Some (quote s)
  | Arr items =>
      Some ("[" +:+
            JsString.join ","
              ((fix each (l : list Value) : list string :=
                  match l with
                  | [] => []
                  | x :: r =>
                      match stringifyOpt x with
                      | Some t => t
                      | None => "null"
                      end :: each r
                  end) items)
            +:+ "]")
  | Obj props =>
      Some ("{" +:+
            JsString.join ","
              ((fix each (l : list (string * Value)) : list string :=
                  match l with
                  | [] => []
                  | (k, x) :: r =>
                      match stringifyOpt x with
                      | Some t => (quote k +:+ ":" +:+ t) :: each r
                      | None => each r
                      end
                  end) props)
            +:+ "}")
  end.

(** [JSON.stringify(v)] *)
Definition stringify (v : Value) : Value :=
  match stringifyOpt v with
  | Some s => Str s
  | None => Undefined
  end.

(** *** Exceptions *)

Inductive ErrorClass := EError | ETypeError | ESyntaxError | EDOMException.

(** A thrown [Error] object: its class (for [instanceof]), its [name], its
    [message], and the [downloadError] property the program attaches to some
    of them ([Undefined] when it was not set). *)
Record Exn := mkExn {
  cls : ErrorClass;
  name : string;
  message : string;
  downloadError : Value
}.

(** The [message] an [Error] constructed with argument [v] gets. *)
Definition messageOf (v : Value) : string :=
  match v with
  | Undefined => EmptyString
  | _ => toString v
  end.

(** [new Error(msg)] *)
Definition Error (msg : string) : Exn := mkExn EError "Error" msg Undefined.
(** [new Error(v)] for a value that need not be a string *)
Definition ErrorOf (v : Value) : Exn := Error (messageOf v).
Definition TypeError (msg : string) : Exn := mkExn ETypeError "TypeError" msg Undefined.
Definition SyntaxError (msg : string) : Exn := mkExn ESyntaxError "SyntaxError" msg Undefined.
Definition DOMException (nm msg : string) : Exn := mkExn EDOMException nm msg Undefined.

(** [e.downloadError = v] *)
Definition withDownloadError (e : Exn) (v : Value) : Exn :=
  mkExn (cls e) (name e) (message e) v.

(** [e instanceof TypeError] *)
Definition isTypeError (e : Exn) : bool :=
  match cls e with ETypeError => true | _ => false end.

(** Outcome of an evaluation that can throw. *)
Inductive Result (A : Type) : Type :=
| Ok (a : A)
| Throw (e : Exn).
Arguments Ok {A} a.
Arguments Throw {A} e.

(** [v.k] for the property names the program reads, none of which is a
    member of a built-in prototype: the own property of an object,
    [undefined] on the other values, a [TypeError] (with V8's message) on
    [null] and [undefined]. *)
Definition get (v : Value) (k : string) : Result Value :=
  match v with
  | Obj props => Ok (assoc k props)
  | Undefined =>
      Throw (TypeError ("Cannot read properties of undefined (reading '" +:+ k +:+ "')"))
  | Null =>
      Throw (TypeError ("Cannot read properties of null (reading '" +:+ k +:+ "')"))
  | _ => Ok Undefined
  end.

(** [v?.k] *)
Definition getOpt (v : Value) (k : string) : Value :=
  match v with
  | Obj props => assoc k props
  | _ => Undefined
  end.

(** A text together with what [JSON.parse] makes of it: the value, or the
    message of the [SyntaxError] it throws. *)
Inductive Parsed := Json (v : Value) | Malformed (msg : string).

Record Text := mkText { raw : string; parsed : Parsed }.

(** [JSON.parse(t)] *)
Definition parse (t : Text) : Result Value :=
  match parsed t with
  | Json v => Ok v
  | Malformed msg => Throw (SyntaxError msg)
  end.

(** The text [JSON.stringify] gives for a value; it parses back to the
    value when no [undefined] occurs in it. *)
Definition textOf (v : Value) : Text := mkText (messageOf (stringify v)) (Json v).

End JS.


(** ** Effects: mutable state and exceptions

    [ST S A] is a computation over a store [S] that returns an [A] or
    throws; the store survives a throw, as a [catch] block sees it. *)
Module Eff.
Import JS.

Definition ST (S A : Type) : Type := S -> Result A * S.

Definition pure {S A} (a : A) : ST S A := fun s => (Ok a, s).

Definition throw {S A} (e : Exn) : ST S A := fun s => (Throw e, s).

Definition andThen {S A B} (m : ST S A) (k : A -> ST S B) : ST S B :=
  fun s =>
    match m s with
    | (Ok a, s') => k a s'
    | (Throw e, s') => (Throw e, s')
    end.

(** [try { m } catch (e) { h e }] *)
Definition tryCatch {S A} (m : ST S A) (h : Exn -> ST S A) : ST S A :=
  fun s =>
    match m s with
    | (Ok a, s') => (Ok a, s')
    | (Throw e, s') => h e s'
    end.

Definition update {S} (f : S -> S) : ST S unit := fun s => (Ok tt, f s).

(** An evaluation that touches no state. *)
Definition lift {S A} (r : Result A) : ST S A := fun s => (r, s).

Definition run {S A} (m : ST S A) (s : S) : Result A := fst (m s).
Definition exec {S A} (m : ST S A) (s : S) : S := snd (m s).

(** The sequencing notations [x ← m; k] and [m;; k] are stdpp's. *)
#[export] Instance ST_ret {S} : MRet (ST S) := fun A a => pure a.
#[export] Instance ST_bind {S} : MBind (ST S) := fun A B k m => andThen m k.

End Eff.

(** ** Fetch responses *)
Module Http.
Import JS Eff.

(** What the program reads of a [Response]: status line, the
    [content-type] header ([None] when absent) and the body ([None] for a
    null body, as a 204 has). *)
Record Response := mkResponse {
  status : Z;
  statusText : string;
  contentTypeHeader : option string;
  body : option Text
}.

(** [response.ok] *)
Definition ok (r : Response) : bool := (200 <=? status r) && (status r <=? 299).

(** [response.headers.get("content-type") || ""] *)
Definition contentType (r : Response) : string :=
  match contentTypeHeader r with
  | Some s => s
  | None => EmptyString
  end.

(** [contentType.includes("application/json")] *)
Definition isJson (ct : string) : bool := JsString.includes "application/json" ct.

(** A store that records whether the body of the response at hand has
    been read. *)
Class HasBody (S : Type) := {
  bodyUsed : S -> bool;
  markUsed : S -> S
}.

#[export] Instance bool_HasBody : HasBody bool :=
  {| bodyUsed := fun b => b; markUsed := fun _ => true |}.

Definition emptyText : Text := mkText EmptyString (Malformed "Unexpected end of JSON input").

(** The text of the body, empty for a null body. *)
Definition bodyText (r : Response) : Text :=
  match body r with
  | Some b => b
  | None => emptyText
  end.

(** [await response.text()]: the body text, together with what
    [JSON.parse] will make of it. *)
Definition text {S} `{HasBody S} (r : Response) : ST S Text :=
  fun s =>
    match body r with
    | None => (Ok emptyText, s)
    | Some b =>
        if bodyUsed s
        then (Throw (TypeError "Failed to execute 'text' on 'Response': body stream already read"), s)
        else (Ok b, markUsed s)
    end.

(** [await response.json()] *)
Definition json {S} `{HasBody S} (r : Response) : ST S Value :=
  fun s =>
    match body r with
    | None => (parse emptyText, s)
    | Some b =>
        if bodyUsed s
        then (Throw (TypeError "Failed to execute 'json' on 'Response': body stream already read"), s)
        else (parse b, markUsed s)
    end.

(** [await response.clone().text().catch(() => "")]: [clone()] throws when
    the body has been read. *)
Definition cloneText {S} `{HasBody S} (r : Response) : ST S string :=
  fun s =>
    match body r with
    | None => (Ok EmptyString, s)
    | Some b =>
        if bodyUsed s
        then (Throw (TypeError "Failed to execute 'clone' on 'Response': Response body is already used"), s)
        else (Ok (raw b), s)
    end.

Inductive Blob := mkBlob (content : string).

(** [await response.blob()] *)
Definition blob {S} `{HasBody S} (r : Response) : ST S Blob :=
  fun s =>
    match body r with
    | None => (Ok (mkBlob EmptyString), s)
    | Some b =>
        if bodyUsed s
        then (Throw (TypeError "Failed to execute 'blob' on 'Response': body stream already read"), s)
        else (Ok (mkBlob (raw b)), markUsed s)
    end.

(** [text.trim().startsWith("<!") || text.trim().startsWith("<html")] *)
Definition looksLikeHtml (t : string) : bool :=
  JsString.startsWith "<!" (JsString.trim t) || JsString.startsWith "<html" (JsString.trim t).

(** [text.trim().toLowerCase().startsWith('<!doctype') ||
     text.trim().toLowerCase().startsWith('<html')] *)
Definition looksLikeHtmlCI (t : string) : bool :=
  JsString.startsWith "<!doctype" (JsString.toLowerCase (JsString.trim t))
  || JsString.startsWith "<html" (JsString.toLowerCase (JsString.trim t)).

(** [`Ошибка ${response.status}: ${response.statusText || "Неизвестная ошибка"}`] *)
Definition statusLine (r : Response) : string :=
  "Ошибка " +:+ JsString.ofZ (status r) +:+ ": " +:+
  (if JsString.isEmpty (statusText r) then "Неизвестная ошибка" else statusText r).

(** [error instanceof TypeError && error.message.includes("Failed to fetch")] *)
Definition isFailedToFetch (e : Exn) : bool :=
  isTypeError e && JsString.includes "Failed to fetch" (message e).

End Http.

(** ** [services/api.ts]: the endpoints of [FeedCheckerAPI]

    Each method takes the outcome of its [fetch] call — a [Response], or the
    exception [fetch] threw — and returns what the method's promise settles
    to.  The calls to [logErrorDetails] and [console] only write to the
    console and are left out. *)
Module Api.
Import JS Eff Http.

Definition msgGatewayLong : string :=
  "Сервер недоступен (502 Bad Gateway). Бэкенд не отвечает. Проверьте логи бэкенда.".
Definition msgGateway : string :=
  "Сервер недоступен (502 Bad Gateway). Бэкенд не отвечает.".
Definition msgHtmlPage : string :=
  "Сервер вернул HTML страницу вместо данных. Возможно, требуется авторизация или URL неверен.".
Definition msgFormat (ct : string) : string :=
  "Сервер вернул неожиданный формат: " +:+ ct.

(** [detail && (detail.error_type === "DOWNLOAD_ERROR" || detail.error_code)];
    property reads on a truthy value do not throw. *)
Definition isDownloadDetail (detail : Value) : bool :=
  truthy detail &&
  (isStr "DOWNLOAD_ERROR" (getOpt detail "error_type") || truthy (getOpt detail "error_code")).

(** The error [checkFeed] throws for a download failure:
    [new Error(detail.message || "Ошибка загрузки фида")] with
    [downloadError = detail]. *)
Definition downloadErrorOf (detail : Value) : Exn :=
  withDownloadError (ErrorOf (or (getOpt detail "message") (Str "Ошибка загрузки фида"))) detail.

(** [typeof detail === 'string' ? detail :
     (detail?.message || detail || "Ошибка при проверке фида")] *)
Definition plainErrorMessage (detail : Value) : Value :=
  if typeofString detail then detail
  else or (or (getOpt detail "message") detail) (Str "Ошибка при проверке фида").

(** The body of [checkFeed]'s [if (!response.ok)] block; it always throws. *)
Definition checkFeedNotOk (response : Response) : ST bool Value :=
  errorData ←
    tryCatch
      (if negb (isJson (contentType response)) then
         t ← text response;
         if looksLikeHtmlCI (raw t) then throw (Error msgHtmlPage)
         else throw (Error (statusLine response +:+ ". Ответ сервера: "
                            +:+ JsString.substring0 200 (raw t)))
       else json response)
      (fun jsonError =>
         if negb (JsString.isEmpty (message jsonError)) then throw jsonError
         else
           _ ← text response;
           throw (Error (statusLine response)));
  detail ← lift (get errorData "detail");
  if isDownloadDetail detail then throw (downloadErrorOf detail)
  else throw (ErrorOf (plainErrorMessage detail)).

(** [checkFeed]: POST /api/check-feed *)
Definition checkFeed (fetched : Result Response) : Result Value :=
  run
    (tryCatch
       (response ← lift fetched;
        if negb (ok response) then checkFeedNotOk response
        else if negb (isJson (contentType response)) then
          t ← text response;
          if looksLikeHtml (raw t) then throw (Error msgGatewayLong)
          else tryCatch (lift (parse t))
                 (fun _ => throw (Error (msgFormat (contentType response))))
        else json response)
       (fun error =>
          if isFailedToFetch error
          then throw (Error "Не удалось подключиться к серверу. Проверьте, что бэкенд запущен и доступен.")
          else throw error))
    false.

(** The [if (!response.ok)] block shared in shape by [checkSyntax],
    [getProblematicOffers], [checkFeedAsync], [getJobStatus] and
    [deleteJob]: the error built from [detail] is thrown inside the [try]
    and so lands in its own [catch]. *)
Definition notOkBlock {A} (response : Response) (fallback : string) : ST bool A :=
  tryCatch
    (error ← json response;
     d ← lift (get error "detail");
     throw (ErrorOf (or d (Str fallback))))
    (fun jsonError =>
       _ ← cloneText response;
       throw (Error (statusLine response))).

(** [checkSyntax]: POST /api/check-syntax *)
Definition checkSyntax (fetched : Result Response) : Result Value :=
  run
    (tryCatch
       (response ← lift fetched;
        if negb (isJson (contentType response)) then
          t ← text response;
          if looksLikeHtml (raw t) then throw (Error msgGateway)
          else tryCatch (lift (parse t))
                 (fun _ => throw (Error (msgFormat (contentType response))))
        else if negb (ok response) then notOkBlock response "Ошибка при проверке синтаксиса"
        else json response)
       (fun error =>
          if isFailedToFetch error then throw (Error "Не удалось подключиться к серверу")
          else throw error))
    false.

(** [getProblematicOffers]: POST /api/get-problematic-offers *)
Definition getProblematicOffers (fetched : Result Response) : Result Value :=
  run
    (tryCatch
       (response ← lift fetched;
        if negb (isJson (contentType response)) then
          t ← text response;
          if looksLikeHtml (raw t) then throw (Error msgGateway)
          else tryCatch (lift (parse t))
                 (fun _ => throw (Error (msgFormat (contentType response))))
        else if negb (ok response)
        then notOkBlock response "Ошибка при получении проблемных товаров"
        else json response)
       (fun error =>
          if isFailedToFetch error then throw (Error "Не удалось подключиться к серверу")
          else throw error))
    false.

(** [exportToExcel]: POST /api/export-excel.  No [try], and no look at the
    content type. *)
Definition exportToExcel (fetched : Result Response) : Result Blob :=
  run
    (response ← lift fetched;
     if negb (ok response) then
       error ← json response;
       d ← lift (get error "detail");
       throw (ErrorOf (or d (Str "Ошибка при экспорте в Excel")))
     else blob response)
    false.

(** [checkFeedAsync]: POST /api/check-feed-async *)
Definition checkFeedAsync (fetched : Result Response) : Result Value :=
  run
    (tryCatch
       (response ← lift fetched;
        if negb (isJson (contentType response)) then
          t ← text response;
          if looksLikeHtml (raw t) then throw (Error msgGatewayLong)
          else tryCatch (lift (parse t))
                 (fun _ => throw (Error (msgFormat (contentType response))))
        else if negb (ok response) then notOkBlock response "Ошибка при создании задачи"
        else json response)
       (fun error =>
          if isFailedToFetch error
          then throw (Error "Не удалось подключиться к серверу. Проверьте, что бэкенд запущен.")
          else throw error))
    false.

(** [getJobStatus]: GET /api/job/{id}.  The [response] and [responseText]
    properties it attaches to some errors are read by the logging only. *)
Definition getJobStatus (fetched : Result Response) : Result Value :=
  run
    (tryCatch
       (response ← lift fetched;
        if negb (isJson (contentType response)) then
          t ← text response;
          if looksLikeHtml (raw t) then throw (Error msgGatewayLong)
          else tryCatch (lift (parse t))
                 (fun _ => throw (Error (msgFormat (contentType response))))
        else if negb (ok response) then
          if status response =? 404 then throw (Error "Задача не найдена")
          else notOkBlock response "Ошибка при получении статуса задачи"
        else json response)
       (fun error =>
          if isFailedToFetch error
          then throw (Error "Не удалось подключиться к серверу. Проверьте, что бэкенд запущен.")
          else throw error))
    false.

(** [deleteJob]: DELETE /api/job/{id} *)
Definition deleteJob (fetched : Result Response) : Result unit :=
  run
    (tryCatch
       (response ← lift fetched;
        if negb (isJson (contentType response)) then
          t ← text response;
          if looksLikeHtml (raw t) then throw (Error msgGateway)
          else pure tt
        else if negb (ok response) then notOkBlock response "Ошибка при удалении задачи"
        else pure tt)
       (fun error =>
          if isFailedToFetch error then throw (Error "Не удалось подключиться к серверу")
          else throw error))
    false.

End Api.

(** ** [checkFeedWithProgress]: the server-sent-event strategy *)
Module Stream.
Import JS Eff.

(** Calls made to the two callbacks the caller passes in; those of
    [Home.tsx] set component state and return normally. *)
Inductive Callback :=
| StatusChange (status : Value)
| Progress (loaded total percentage : Value).

(** The [EventSource] ([closed] after [close()]), the promise
    ([None] while pending) and the callback calls so far. *)
Record State := mkState {
  closed : bool;
  settled : option (Result Value);
  calls : list Callback
}.

Definition initial : State := mkState false None [].

(** [eventSource.close()] *)
Definition close : ST State unit :=
  update (fun s => mkState true (settled s) (calls s)).

(** Settling a promise a second time does nothing. *)
Definition settle (o : Result Value) : ST State unit :=
  update (fun s =>
            match settled s with
            | None => mkState (closed s) (Some o) (calls s)
            | Some _ => s
            end).

Definition resolve (v : Value) : ST State unit := settle (Ok v).
Definition reject (e : Exn) : ST State unit := settle (Throw e).

Definition call (c : Callback) : ST State unit :=
  update (fun s => mkState (closed s) (settled s) (calls s ++ [c])).

Definition onStatusChange (status : Value) : ST State unit := call (StatusChange status).
Definition onProgress (loaded total percentage : Value) : ST State unit :=
  call (Progress loaded total percentage).

(** The object built for a [download_error] event. *)
Definition downloadErrorObject (error_code message url http_status details : Value) : Value :=
  Obj [("error_type", Str "DOWNLOAD_ERROR");
       ("error_code", error_code);
       ("message", message);
       ("url", url);
       ("http_status", http_status);
       ("details", details)].

Definition msgProcessing : string := "Ошибка при обработке ответа сервера".
Definition msgGeneric : string := "Ошибка при проверке фида".
Definition msgConnection : string := "Ошибка соединения с сервером".

(** [eventSource.onmessage], on the [data] of the event. *)
Definition onmessage (event : Text) : ST State unit :=
  tryCatch
    (data ← lift (parse event);
     type ← lift (get data "type");
     if isStr "start" type then
       m ← lift (get data "message");
       onStatusChange (or m (Str "Начинаем загрузку..."))
     else if isStr "downloading" type then
       m ← lift (get data "message");
       onStatusChange (or m (Str "Загрузка фида..."))
     else if isStr "progress" type then
       loaded ← lift (get data "loaded");
       total ← lift (get data "total");
       percentage ← lift (get data "percentage");
       onProgress loaded total percentage
     else if isStr "processing" type then
       m ← lift (get data "message");
       onStatusChange (or m (Str "Обработка данных..."))
     else if isStr "complete" type then
       close;;
       result ← lift (get data "result");
       resolve result
     else if isStr "error" type then
       close;;
       error_type ← lift (get data "error_type");
       if isStr "download_error" error_type then
         message ← lift (get data "message");
         error_code ← lift (get data "error_code");
         url ← lift (get data "url");
         http_status ← lift (get data "http_status");
         details ← lift (get data "details");
         reject (withDownloadError (ErrorOf message)
                   (downloadErrorObject error_code message url http_status details))
       else
         message ← lift (get data "message");
         reject (ErrorOf (or message (Str msgGeneric)))
     else pure tt)
    (fun e =>
       close;;
       reject (Error msgProcessing)).

(** [eventSource.onerror] *)
Definition onerror : ST State unit :=
  close;;
  reject (Error msgConnection).

(** What the connection delivers. *)
Inductive Incoming :=
| Message (event : Text)
| ConnectionError.

(** A closed [EventSource] dispatches nothing. *)
Definition deliver (s : State) (i : Incoming) : State :=
  if closed s then s
  else match i with
       | Message event => exec (onmessage event) s
       | ConnectionError => exec onerror s
       end.

Definition receive (s : State) (l : list Incoming) : State := fold_left deliver l s.

(** [checkFeedWithProgress] on everything the connection delivers. *)
Definition checkFeedWithProgress (l : list Incoming) : State := receive initial l.

End Stream.

(** ** [checkFeedWithPolling]: the job poller *)
Module Poller.
Import JS Eff Http.

(** What the poller does that the outside sees: calls of [onProgress]
    (which, as passed by [Home.tsx], sets component state and returns
    normally), [clearInterval], and requests. *)
Inductive Effect :=
| ProgressCall (progress message : Value)
| ClearInterval
| Request (url : string).

(** The interval timer, the promise, what the poller did so far, and
    whether the body of the response to the result request was read. *)
Record State := mkState {
  timerActive : bool;
  settled : option (Result Value);
  trace : list Effect;
  finalBodyUsed : bool
}.

#[export] Instance State_HasBody : HasBody State :=
  {| bodyUsed := finalBodyUsed;
     markUsed := fun s => mkState (timerActive s) (settled s) (trace s) true |}.

Definition emit (e : Effect) : ST State unit :=
  update (fun s => mkState (timerActive s) (settled s) (trace s ++ [e]) (finalBodyUsed s)).

Definition onProgress (progress message : Value) : ST State unit :=
  emit (ProgressCall progress message).

(** [clearInterval(pollTimer)] *)
Definition clearInterval : ST State unit :=
  update (fun s => mkState false (settled s) (trace s ++ [ClearInterval]) (finalBodyUsed s)).

(** Issuing a request; the response that comes back is unread. *)
Definition request (url : string) : ST State unit :=
  update (fun s => mkState (timerActive s) (settled s) (trace s ++ [Request url]) false).

Definition settle (o : Result Value) : ST State unit :=
  update (fun s =>
            match settled s with
            | None => mkState (timerActive s) (Some o) (trace s) (finalBodyUsed s)
            | Some _ => s
            end).

Definition resolve (v : Value) : ST State unit := settle (Ok v).
Definition reject (e : Exn) : ST State unit := settle (Throw e).

Section Job.

(** [await this.getBaseUrl()] and [jobResponse.job_id] *)
Variable baseUrl : string.
Variable jobId : Value.

Definition statusUrl : string := baseUrl +:+ "/api/job/" +:+ toString jobId.
Definition resultUrl : string :=
  baseUrl +:+ "/api/job/" +:+ toString jobId +:+ "?include_result=true".

Definition msgNotFound : string := "Результат не найден".
Definition msgNoResult : string := "Не удалось получить результат".
Definition msgFailed : string := "Ошибка при обработке фида".

(** The branch for [completed] and [completed_with_errors], after
    [clearInterval]: the request for the result. *)
Definition fetchResult (finalFetched : Result Response) : ST State unit :=
  tryCatch
    (request resultUrl;;
     finalStatus ← lift finalFetched;
     if negb (isJson (contentType finalStatus)) then
       t ← text finalStatus;
       if looksLikeHtml (raw t) then reject (Error Api.msgGateway)
       else
         tryCatch
           (finalData ← lift (parse t);
            result ← lift (get finalData "result");
            if truthy result then resolve result
            else reject (Error msgNotFound))
           (fun _ => reject (Error (Api.msgFormat (contentType finalStatus))))
     else if negb (ok finalStatus) then
       _ ← cloneText finalStatus;
       reject (Error msgNoResult)
     else
       finalData ← json finalStatus;
       result ← lift (get finalData "result");
       if truthy result then resolve result
       else reject (Error msgNotFound))
    (fun fetchError =>
       if isFailedToFetch fetchError
       then reject (Error "Не удалось подключиться к серверу при получении результата")
       else reject fetchError).

(** The branch for [failed], after [clearInterval]. *)
Definition rejectFailed (error : Value) : ST State unit :=
  if truthy error && typeofObject error then
    if isStr "download_error" (getOpt error "error_type") then
      reject (withDownloadError (ErrorOf (getOpt error "message")) error)
    else
      reject (ErrorOf (or (getOpt error "message") (stringify error)))
  else
    reject (ErrorOf (or error (Str msgFailed))).

(** One run of the [setInterval] callback from its start to its end,
    with nothing else happening in between: [statusFetched] is what the
    status request comes back with, [finalFetched] what the result request
    comes back with if it is made. *)
Definition tick (statusFetched finalFetched : Result Response) : ST State unit :=
  tryCatch
    (request statusUrl;;
     status ← lift (Api.getJobStatus statusFetched);
     progress ← lift (get status "progress");
     message ← lift (get status "message");
     onProgress progress message;;
     st ← lift (get status "status");
     if isStr "completed" st || isStr "completed_with_errors" st then
       clearInterval;;
       onProgress (Num 100) (Str "Получение результата...");;
       fetchResult finalFetched
     else if isStr "failed" st then
       clearInterval;;
       error ← lift (get status "error");
       rejectFailed error
     else pure tt)
    (fun error =>
       clearInterval;;
       reject error).

(** One tick of the timer whose run ends before anything else happens:
    the answers to its requests arrive before the next tick and before the
    answers to the requests of other runs.  A cleared timer ticks no
    more. *)
Definition fire (s : State) (r : Result Response * Result Response) : State :=
  if timerActive s then exec (tick (fst r) (snd r)) s else s.

End Job.

(** [checkFeedWithPolling] up to the start of the timer: the job is
    created, the caller hears its first message, the interval is set. *)
Definition start (baseUrl : string) (created : Result Response) : Result (Value * State) :=
  match Api.checkFeedAsync created with
  | Throw e => Throw e
  | Ok jobResponse =>
      match get jobResponse "job_id", get jobResponse "message" with
      | Ok jobId, Ok message =>
          Ok (jobId,
              mkState true None
                [Request (baseUrl +:+ "/api/check-feed-async"); ProgressCall (Num 0) message]
                false)
      | Throw e, _ | _, Throw e => Throw e
      end
  end.

End Poller.

(** ** JavaScript numbers for the progress arithmetic

    Rationals with the three non-finite values; the rounding of IEEE 754
    doubles is not modelled. *)
Module JsNumber.

Inductive Number :=
| Finite (q : Qc)
| PosInfinity
| NegInfinity
| NaN.

Definition ofZ (n : Z) : Number := Finite (Qc_of_Z n).

(** [isFinite(x)] *)
Definition isFinite (x : Number) : bool :=
  match x with Finite _ => true | _ => false end.

Definition sign (q : Qc) : comparison := (0 ?= Qnum (this q))%Z.

(** [x > 0] *)
Definition positive (x : Number) : bool :=
  match x with
  | Finite q => match sign q with Lt => true | _ => false end
  | PosInfinity => true
  | NegInfinity | NaN => false
  end.

(** [x / y] (a zero divisor counts as [+0]) *)
Definition div (x y : Number) : Number :=
  match x, y with
  | NaN, _ | _, NaN => NaN
  | Finite a, Finite b =>
      match sign b with
      | Eq => match sign a with Eq => NaN | Lt => PosInfinity | Gt => NegInfinity end
      | _ => Finite (a / b)%Qc
      end
  | Finite _, _ => Finite 0%Qc
  | PosInfinity, Finite b => match sign b with Gt => NegInfinity | _ => PosInfinity end
  | NegInfinity, Finite b => match sign b with Gt => PosInfinity | _ => NegInfinity end
  | _, _ => NaN
  end.

(** [x * 100] *)
Definition times100 (x : Number) : Number :=
  match x with
  | Finite q => Finite (q * Qc_of_Z 100)%Qc
  | _ => x
  end.

(** [Math.round(x)]: the integer nearest to [x], halves going up *)
Definition round (x : Number) : Number :=
  match x with
  | Finite q => ofZ (Qfloor (this q + (1 # 2))%Q)
  | _ => x
  end.

End JsNumber.

(** ** [pages/Home.tsx] *)
Module Home.
Import JS Eff.

Record File := mkFile { fileName : string; size : Z }.

Inductive SourceType := url | file.
Inductive FeedType := xml | delta.

(** The state of the form that [handleSubmit] reads.  [siteId] is the
    number [Number(siteId)]. *)
Record Form := mkForm {
  siteId : Z;
  feedUrl : string;
  feedFile : option File;
  sourceType : SourceType;
  feedType : FeedType;
  delimiter : string;
  useAsyncMode : bool
}.

Definition isFile (s : SourceType) : bool := match s with file => true | url => false end.
Definition isUrl (s : SourceType) : bool := match s with url => true | file => false end.

(** The checks on the source that [handleSubmit] makes before it starts:
    the message it shows and returns with, if any. *)
Definition validateSource (f : Form) : option string :=
  if isUrl (sourceType f) && JsString.isEmpty (feedUrl f) then Some "Введите URL фида"
  else if isFile (sourceType f) && match feedFile f with Some _ => false | None => true end
  then Some "Выберите файл фида"
  else None.

(** [useAsyncMode || (sourceType === "file" && feedFile &&
     feedFile.size > 50 * 1024 * 1024)] *)
Definition shouldUseAsync (f : Form) : bool :=
  useAsyncMode f ||
  (isFile (sourceType f) &&
   match feedFile f with
   | Some fl => size fl >? 50 * 1024 * 1024
   | None => false
   end).

(** The call [handleSubmit] makes, with its arguments. *)
Inductive Call :=
| CheckFeedWithPolling (siteId : Z) (feedUrl : option string) (feedFile : option File)
    (pollInterval : Z) (feedType : FeedType) (delimiter : string)
| UploadWithProgress (file : File) (siteId : Z) (feedType : FeedType) (delimiter : string)
| CheckFeed (siteId : Z) (feedUrl : string) (feedType : FeedType) (delimiter : string)
| CheckFeedWithProgress (siteId : Z) (feedUrl : string).

Definition dispatch (f : Form) : Call :=
  if shouldUseAsync f then
    CheckFeedWithPolling (siteId f)
      (if isUrl (sourceType f) then Some (feedUrl f) else None)
      (if isFile (sourceType f) then feedFile f else None)
      2000 (feedType f) (delimiter f)
  else
    match sourceType f, feedFile f with
    | file, Some fl => UploadWithProgress fl (siteId f) (feedType f) (delimiter f)
    | _, _ =>
        match feedType f with
        | delta => CheckFeed (siteId f) (feedUrl f) (feedType f) (delimiter f)
        | xml => CheckFeedWithProgress (siteId f) (feedUrl f)
        end
    end.

(** *** The upload progress estimator of [uploadWithProgress] *)
Import JsNumber.

Record UploadProgress := mkUploadProgress {
  loaded : Z;
  total : Z;
  percentage : Number;
  speed : Number;
  timeRemaining : Number
}.

(** The two variables the listener closes over. *)
Record Estimator := mkEstimator { startTime : Z; startLoaded : Z }.

(** A [ProgressEvent] of [xhr.upload]. *)
Record ProgressEvent := mkProgressEvent {
  lengthComputable : bool;
  e_loaded : Z;
  e_total : Z
}.

(** The [progress] listener, run when [Date.now()] is [currentTime]:
    the new values of the two variables, and the argument of
    [setUploadProgress] if it is called. *)
Definition onUploadProgress (st : Estimator) (currentTime : Z) (e : ProgressEvent)
  : Estimator * option UploadProgress :=
  if lengthComputable e then
    let timeElapsed := div (ofZ (currentTime - startTime st)) (ofZ 1000) in
    let bytesUploaded := ofZ (e_loaded e - startLoaded st) in
    let speed := if positive timeElapsed then div bytesUploaded timeElapsed else ofZ 0 in
    let remainingBytes := ofZ (e_total e - e_loaded e) in
    let timeRemaining := if positive speed then div remainingBytes speed else ofZ 0 in
    (mkEstimator currentTime (e_loaded e),
     Some (mkUploadProgress (e_loaded e) (e_total e)
             (round (times100 (div (ofZ (e_loaded e)) (ofZ (e_total e)))))
             speed timeRemaining))
  else (st, None).

(** The listener over the events of one upload, each with the time it
    arrives at; the reports made, oldest first. *)
Fixpoint uploadReports (st : Estimator) (events : list (Z * ProgressEvent))
  : list UploadProgress :=
  match events with
  | [] => []
  | (t, e) :: rest =>
      match onUploadProgress st t e with
      | (st', Some r) => r :: uploadReports st' rest
      | (st', None) => uploadReports st' rest
      end
  end.


(** *** [sessionStorage]

    A store of limited size: [setItem] throws, and changes nothing, when
    the keys and values would take more than [quota] bytes.  [fullError] is
    the exception this browser throws then. *)
Record Storage := mkStorage {
  items : gmap string string;
  quota : nat;
  fullError : Exn
}.

Definition usage (m : gmap string string) : nat :=
  map_fold (fun k v n => (String.length k + String.length v + n)%nat) 0%nat m.

Record Navigation := mkNavigation { path : string; navState : Value }.

(** The state of the component that the end of [handleSubmit] writes, and
    the navigation it makes. *)
Record Page := mkPage {
  storage : Storage;
  error : option string;
  downloadError : Value;
  isLoading : bool;
  uploadProgress : option UploadProgress;
  statusMessage : string;
  navigation : option Navigation
}.

(** [sessionStorage.setItem(key, value)] *)
Definition setItem (key : string) (value : Value) : ST Page unit :=
  fun p =>
    let st := storage p in
    let m := <[key := toString value]> (items st) in
    if (usage m <=? quota st)%nat then
      (Ok tt,
       mkPage (mkStorage m (quota st) (fullError st)) (error p) (downloadError p)
         (isLoading p) (uploadProgress p) (statusMessage p) (navigation p))
    else (Throw (fullError st), p).

(** [navigate(path, { state })]; the location's [state] is [null] after
    [navigate(path)]. *)
Definition navigate (to : string) (state : Value) : ST Page unit :=
  update (fun p =>
            mkPage (storage p) (error p) (downloadError p) (isLoading p)
              (uploadProgress p) (statusMessage p) (Some (mkNavigation to state))).

Definition setError (e : option string) : ST Page unit :=
  update (fun p =>
            mkPage (storage p) e (downloadError p) (isLoading p)
              (uploadProgress p) (statusMessage p) (navigation p)).

Definition setDownloadError (v : Value) : ST Page unit :=
  update (fun p =>
            mkPage (storage p) (error p) v (isLoading p)
              (uploadProgress p) (statusMessage p) (navigation p)).

Definition setIsLoading (b : bool) : ST Page unit :=
  update (fun p =>
            mkPage (storage p) (error p) (downloadError p) b
              (uploadProgress p) (statusMessage p) (navigation p)).

Definition setUploadProgress (u : option UploadProgress) : ST Page unit :=
  update (fun p =>
            mkPage (storage p) (error p) (downloadError p) (isLoading p)
              u (statusMessage p) (navigation p)).

Definition setStatusMessage (m : string) : ST Page unit :=
  update (fun p =>
            mkPage (storage p) (error p) (downloadError p) (isLoading p)
              (uploadProgress p) m (navigation p)).

(** *** The hand-off of the result *)

Definition feedTypeName (t : FeedType) : string :=
  match t with xml => "xml" | delta => "delta" end.

(** [{ siteId: Number(siteId), feedUrl: sourceType === "url" ? feedUrl : null,
      fileName: sourceType === "file" ? feedFile?.name : null, feedType }] *)
Definition feedSource (f : Form) : Value :=
  Obj [("siteId", Num (siteId f));
       ("feedUrl", if isUrl (sourceType f) then Str (feedUrl f) else Null);
       ("fileName",
         if isFile (sourceType f)
         then match feedFile f with Some fl => Str (fileName fl) | None => Undefined end
         else Null);
       ("feedType", Str (feedTypeName (feedType f)))].

(** The order of the properties of an object: the keys that are array
    indices (an integer below 2^32 - 1 in its canonical decimal writing)
    come first, in ascending order, and the other keys follow in the order
    in which they were created. *)
Definition arrayIndex (k : string) : option N :=
  match NilEmpty.uint_of_string k with
  | Some d =>
      let n := N.of_uint d in
      if String.eqb (NilZero.string_of_uint (N.to_uint n)) k && (n <? 4294967295)%N
      then Some n else None
  | None => None
  end.

(** A new key [k] is listed before the key [k'] that is there. *)
Definition comesBefore (k k' : string) : bool :=
  match arrayIndex k, arrayIndex k' with
  | Some i, Some j => (i <? j)%N
  | Some _, None => true
  | None, _ => false
  end.

Fixpoint hasProp (k : string) (ps : list (string * Value)) : bool :=
  match ps with
  | [] => false
  | (k', _) :: r => String.eqb k k' || hasProp k r
  end.

Fixpoint replaceProp (k : string) (v : Value) (ps : list (string * Value))
  : list (string * Value) :=
  match ps with
  | [] => []
  | (k', v') :: r => if String.eqb k k' then (k, v) :: r else (k', v') :: replaceProp k v r
  end.

Fixpoint insertProp (k : string) (v : Value) (ps : list (string * Value))
  : list (string * Value) :=
  match ps with
  | [] => [(k, v)]
  | (k', v') :: r =>
      if comesBefore k k' then (k, v) :: (k', v') :: r else (k', v') :: insertProp k v r
  end.

(** Writing a property of an object under construction: in place if the
    key is there, and otherwise where the order of the properties puts a
    new key. *)
Definition setProp (k : string) (v : Value) (ps : list (string * Value))
  : list (string * Value) :=
  if hasProp k ps then replaceProp k v ps else insertProp k v ps.

(** [{ ...src }] into the properties [ps].  In the branch that spreads the
    result, the result is an object (see [deltaAccepted] below). *)
Definition spread (src : Value) (ps : list (string * Value)) : list (string * Value) :=
  match src with
  | Obj props => fold_left (fun acc kv => setProp (fst kv) (snd kv) acc) props ps
  | _ => ps
  end.

(** The [minimalResult] object. *)
Definition minimalResult (f : Form) (result : Value) : Result Value :=
  match get result "site_id", get result "feed_type" with
  | Ok site_id, Ok feed_type =>
      let base :=
        [("site_id", site_id);
         ("feed_type", or feed_type (Str (feedTypeName (feedType f))))] in
      match feedType f with
      | xml =>
          let mandatory := getOpt result "mandatory" in
          Ok (Obj (spread
                     (Obj [("syntax", getOpt result "syntax");
                           ("mandatory",
                             if truthy mandatory then
                               Obj [("total_offers", getOpt mandatory "total_offers");
                                    ("valid_offers", getOpt mandatory "valid_offers");
                                    ("problems_count", getOpt mandatory "problems_count");
                                    ("problems_summary", getOpt mandatory "problems_summary")]
                             else Undefined);
                           ("categories", getOpt result "categories")])
                     base))
      | delta => Ok (Obj (spread result base))
      end
  | Throw e, _ | _, Throw e => Throw e
  end.

(** [hasParsing && hasSummary] of the delta checks that precede the
    hand-off; [handleSubmit] returns before the hand-off when it is false. *)
Definition deltaAccepted (result : Value) : bool :=
  let isRecord v := truthy v && typeofObject v &&
                    negb (match v with Arr _ => true | _ => false end) in
  isRecord (getOpt result "parsing") && isRecord (getOpt result "summary").

Definition msgTooLarge : string :=
  "Результат проверки слишком большой для сохранения. Пожалуйста, используйте экспорт результатов сразу после проверки.".

(** [storageError.name === 'QuotaExceededError' ||
     storageError.message?.includes('quota')] *)
Definition isQuotaError (e : Exn) : bool :=
  String.eqb (name e) "QuotaExceededError" || JsString.includes "quota" (message e).

(** The two writes to [sessionStorage], under the keys [feedCheckResult]
    and [feedSource]. *)
Definition save (resultString sourceString : Value) : ST Page unit :=
  setItem "feedCheckResult" resultString;;
  setItem "feedSource" sourceString.

(** The [state] of the navigation that carries the whole result. *)
Definition fullState (f : Form) (result : Value) : Value :=
  Obj [("fullResult", result); ("feedSource", feedSource f)].

(** The [try] that saves the result and goes to the results page, with its
    [catch]. *)
Definition handoff (f : Form) (result : Value) : ST Page unit :=
  tryCatch
    (save (stringify result) (stringify (feedSource f));;
     navigate "/results" Null)
    (fun storageError =>
       if isQuotaError storageError then
         minimal ← lift (minimalResult f result);
         tryCatch
           (save (stringify minimal) (stringify (feedSource f));;
            navigate "/results" (fullState f result))
           (fun secondError =>
              setError (Some msgTooLarge);;
              setIsLoading false)
       else throw storageError).

(** The [catch (err)] of [handleSubmit]. *)
Definition showError (err : Exn) : ST Page unit :=
  if truthy (JS.downloadError err) then
    setDownloadError (JS.downloadError err);;
    setError None
  else
    setError (Some (message err));;
    setDownloadError Null.

(** The [finally] of [handleSubmit]. *)
Definition cleanup : ST Page unit :=
  setIsLoading false;;
  setUploadProgress None;;
  setStatusMessage EmptyString.

(** The end of [handleSubmit], from a result that passed its checks. *)
Definition finish (f : Form) (result : Value) : Page -> Page :=
  exec (tryCatch (handoff f result) showError;; cleanup).

End Home.


(** ** The Mode Selector as the specification words it (section 4.1) *)
Module ModeSelector.

Inductive Source :=
| URL (u : string)
| FileBlob (f : Home.File).

Record CheckRequest := mkCheckRequest {
  siteId : Z;
  source : Source;
  feedType : Home.FeedType;
  delimiter : string;
  asyncRequested : bool
}.

Inductive Strategy :=
| AsyncJobPoller
| DirectSubmitWithProgress
| ProgressStream
| DirectSubmitWithoutProgress.

Definition MiB : Z := 1024 * 1024.

Definition largeFile (s : Source) : bool :=
  match s with
  | FileBlob f => Home.size f >? 50 * MiB
  | URL _ => false
  end.

(** Decision order, first match wins. *)
Definition select (r : CheckRequest) : Strategy :=
  if asyncRequested r || largeFile (source r) then AsyncJobPoller
  else match source r, feedType r with
       | FileBlob _, _ => DirectSubmitWithProgress
       | URL _, Home.xml => ProgressStream
       | URL _, Home.delta => DirectSubmitWithoutProgress
       end.

(** The strategy behind each call of [handleSubmit]. *)
Definition strategyOf (c : Home.Call) : Strategy :=
  match c with
  | Home.CheckFeedWithPolling _ _ _ _ _ _ => AsyncJobPoller
  | Home.UploadWithProgress _ _ _ _ => DirectSubmitWithProgress
  | Home.CheckFeedWithProgress _ _ => ProgressStream
  | Home.CheckFeed _ _ _ _ => DirectSubmitWithoutProgress
  end.

(** The request a form stands for; none when the chosen source is a file
    and no file is chosen. *)
Definition requestOf (f : Home.Form) : option CheckRequest :=
  match Home.sourceType f, Home.feedFile f with
  | Home.url, _ =>
      Some (mkCheckRequest (Home.siteId f) (URL (Home.feedUrl f)) (Home.feedType f)
              (Home.delimiter f) (Home.useAsyncMode f))
  | Home.file, Some fl =>
      Some (mkCheckRequest (Home.siteId f) (FileBlob fl) (Home.feedType f)
              (Home.delimiter f) (Home.useAsyncMode f))
  | Home.file, None => None
  end.

End ModeSelector.


(** ** Notions used to state the properties of the event stream *)
Module StreamNotions.
Import JS Eff Stream.

(** The error an [error] event rejects with. *)
Definition errorOfEvent (data : Value) : Exn :=
  if isStr "download_error" (getOpt data "error_type") then
    withDownloadError (ErrorOf (getOpt data "message"))
      (downloadErrorObject (getOpt data "error_code") (getOpt data "message")
         (getOpt data "url") (getOpt data "http_status") (getOpt data "details"))
  else ErrorOf (or (getOpt data "message") (Str msgGeneric)).

(** The callback an event of the four progress types makes. *)
Definition callbackOf (type : string) (data : Value) : Callback :=
  if String.eqb type "start"
  then StatusChange (or (getOpt data "message") (Str "Начинаем загрузку..."))
  else if String.eqb type "downloading"
  then StatusChange (or (getOpt data "message") (Str "Загрузка фида..."))
  else if String.eqb type "progress"
  then Progress (getOpt data "loaded") (getOpt data "total") (getOpt data "percentage")
  else StatusChange (or (getOpt data "message") (Str "Обработка данных...")).

(** An incoming message of one of the four progress types. *)
Definition inProgress (i : Incoming) : Prop :=
  exists event data type,
    i = Message event /\ parsed event = Json data /\
    get data "type" = Ok (Str type) /\
    In type ["start"; "downloading"; "progress"; "processing"].

(** When an event arrives: the connection is open, which it is in
    particular after progress events only. *)
Definition arrivesAfter (pre : list Incoming) : Prop :=
  closed (receive initial pre) = false \/ Forall inProgress pre.

End StreamNotions.

(** ** Notions used to state the properties of the poller *)
Module PollerNotions.
Import JS Eff Http Poller.

(** What the request for the result settles the promise with. *)
Definition resultOutcome (finalFetched : Result Response) : Result Value :=
  let rethrown e :=
    if isFailedToFetch e
    then Error "Не удалось подключиться к серверу при получении результата"
    else e in
  match finalFetched with
  | Throw e => Throw (rethrown e)
  | Ok r =>
      if negb (isJson (contentType r)) then
        if looksLikeHtml (raw (bodyText r)) then Throw (Error Api.msgGateway)
        else match parsed (bodyText r) with
             | Json v =>
                 match get v "result" with
                 | Ok x => if truthy x then Ok x else Throw (Error msgNotFound)
                 | Throw _ => Throw (Error (Api.msgFormat (contentType r)))
                 end
             | Malformed _ => Throw (Error (Api.msgFormat (contentType r)))
             end
      else if negb (ok r) then Throw (Error msgNoResult)
      else match parsed (bodyText r) with
           | Json v =>
               match get v "result" with
               | Ok x => if truthy x then Ok x else Throw (Error msgNotFound)
               | Throw e => Throw (rethrown e)
               end
           | Malformed m => Throw (SyntaxError m)
           end
  end.

(** The error a [failed] status rejects with. *)
Definition failureOf (error : Value) : Exn :=
  if truthy error && typeofObject error then
    if isStr "download_error" (getOpt error "error_type")
    then withDownloadError (ErrorOf (getOpt error "message")) error
    else ErrorOf (or (getOpt error "message") (stringify error))
  else ErrorOf (or error (Str msgFailed)).

End PollerNotions.
From Stdlib Require Import Lqa.


(** ** Counting the requests of the poller *)
Module PollerCount.
Import JS Poller.

(** Is this effect a request for the result of the job? *)
Definition isResultRequest (baseUrl : string) (jobId : Value) (e : Effect) : bool :=
  match e with
  | Request u => String.eqb u (resultUrl baseUrl jobId)
  | _ => false
  end.

(** The number of requests for the result in a trace. *)
Definition resultRequests (baseUrl : string) (jobId : Value) (t : list Effect) : nat :=
  List.length (List.filter (isResultRequest baseUrl jobId) t).

End PollerCount.

(** ** The runs of the timer callback, as they overlap

    The callback of [setInterval] is [async]: while a run waits for the
    answer to a request the timer goes on, so the next run can start before
    the one before has ended, and a run that is waiting when
    [clearInterval] is called goes on to its end.  A run is cut here at the
    two places where it waits for the network: the answer to the status
    request and the answer to the result request. *)
Module Overlap.
Import JS Eff Http Poller.

(** Where a run is. *)
Inductive Stage := AwaitingStatus | AwaitingResult | Ended.

(** The poller and the runs of the callback, in the order in which they
    started. *)
Record State := mkState {
  poller : Poller.State;
  runs : list Stage
}.

(** What happens: the timer ticks, or the answer to a request of a run
    arrives (and has been read). *)
Inductive Event :=
| TimerFires
| StatusArrives (run : nat) (statusFetched : Result Response)
| ResultArrives (run : nat) (finalFetched : Result Response).

Section Job.

Variable baseUrl : string.
Variable jobId : Value.

(** The callback from the answer to its status request on, up to its end
    or up to the request for the result; [true] when it now waits for the
    result. *)
Definition afterStatus (statusFetched : Result Response) : ST Poller.State bool :=
  tryCatch
    (status ← lift (Api.getJobStatus statusFetched);
     progress ← lift (get status "progress");
     message ← lift (get status "message");
     onProgress progress message;;
     st ← lift (get status "status");
     if isStr "completed" st || isStr "completed_with_errors" st then
       clearInterval;;
       onProgress (Num 100) (Str "Получение результата...");;
       request (resultUrl baseUrl jobId);;
       pure true
     else if isStr "failed" st then
       clearInterval;;
       error ← lift (get status "error");
       rejectFailed error;;
       pure false
     else pure false)
    (fun error =>
       clearInterval;;
       reject error;;
       pure false).

(** The inner [try] after the request for the result. *)
Definition resultBody (finalFetched : Result Response) : ST Poller.State unit :=
  finalStatus ← lift finalFetched;
  if negb (isJson (contentType finalStatus)) then
    t ← text finalStatus;
    if looksLikeHtml (raw t) then reject (Error Api.msgGateway)
    else
      tryCatch
        (finalData ← lift (parse t);
         result ← lift (get finalData "result");
         if truthy result then resolve result
         else reject (Error msgNotFound))
        (fun _ => reject (Error (Api.msgFormat (contentType finalStatus))))
  else if negb (ok finalStatus) then
    _ ← cloneText finalStatus;
    reject (Error msgNoResult)
  else
    finalData ← json finalStatus;
    result ← lift (get finalData "result");
    if truthy result then resolve result
    else reject (Error msgNotFound).

(** Its [catch (fetchError)]. *)
Definition resultCatch (fetchError : Exn) : ST Poller.State unit :=
  if isFailedToFetch fetchError
  then reject (Error "Не удалось подключиться к серверу при получении результата")
  else reject fetchError.

(** The callback from the answer to its result request on; the answer is
    a response of its own, not read yet. *)
Definition afterResult (finalFetched : Result Response) : ST Poller.State unit :=
  update (fun s => Poller.mkState (timerActive s) (settled s) (trace s) false);;
  tryCatch (resultBody finalFetched) resultCatch.

(** One event.  The answer to a request arrives once, for a run that
    waits for it. *)
Definition step (s : State) (e : Event) : State :=
  match e with
  | TimerFires =>
      if timerActive (poller s)
      then mkState (exec (request (statusUrl baseUrl jobId)) (poller s))
             (runs s ++ [AwaitingStatus])
      else s
  | StatusArrives i statusFetched =>
      match runs s !! i with
      | Some AwaitingStatus =>
          match afterStatus statusFetched (poller s) with
          | (Ok true, p) => mkState p (<[i := AwaitingResult]> (runs s))
          | (_, p) => mkState p (<[i := Ended]> (runs s))
          end
      | _ => s
      end
  | ResultArrives i finalFetched =>
      match runs s !! i with
      | Some AwaitingResult =>
          mkState (exec (afterResult finalFetched) (poller s)) (<[i := Ended]> (runs s))
      | _ => s
      end
  end.

Definition run (s : State) (l : list Event) : State := fold_left step l s.

(** The runs that are past their status request. *)
Definition past (st : Stage) : bool :=
  match st with AwaitingStatus => false | _ => true end.

End Job.

End Overlap.

(** ** [uploadWithProgress]: the end of the upload *)
Module Upload.
Import JS Eff.

(** How the request ends: the [load] event with the status line and the
    response text, the [error] event or the [abort] event. *)
Inductive Ending :=
| Load (status : Z) (statusText : string) (responseText : Text)
| NetworkError
| Aborted.

(** The promise and the progress shown. *)
Record State := mkState {
  settled : option (Result Value);
  uploadProgress : option Home.UploadProgress
}.

Definition setUploadProgress (u : option Home.UploadProgress) : ST State unit :=
  update (fun s => mkState (settled s) u).

Definition settle (o : Result Value) : ST State unit :=
  update (fun s =>
            match settled s with
            | None => mkState (Some o) (uploadProgress s)
            | Some _ => s
            end).

Definition resolve (v : Value) : ST State unit := settle (Ok v).
Definition reject (e : Exn) : ST State unit := settle (Throw e).

Definition msgParse : string := "Ошибка парсинга ответа сервера".
Definition msgNetwork : string := "Ошибка сети при загрузке файла".
Definition msgAborted : string := "Загрузка отменена".

(** The [load] listener. *)
Definition onLoad (status : Z) (statusText : string) (responseText : Text)
  : ST State unit :=
  setUploadProgress None;;
  if (status >=? 200) && (status <? 300) then
    tryCatch
      (response ← lift (parse responseText);
       resolve response)
      (fun _ => reject (Error msgParse))
  else
    tryCatch
      (errorData ← lift (parse responseText);
       detail ← lift (get errorData "detail");
       if truthy detail && isStr "DOWNLOAD_ERROR" (getOpt detail "error_type") then
         reject (withDownloadError (ErrorOf (getOpt detail "message")) detail)
       else
         reject (ErrorOf (Api.plainErrorMessage detail)))
      (fun _ =>
         reject (Error ("Ошибка " +:+ JsString.ofZ status +:+ ": " +:+ statusText))).

(** The [error] listener. *)
Definition onError : ST State unit :=
  setUploadProgress None;;
  reject (Error msgNetwork).

(** The [abort] listener. *)
Definition onAbort : ST State unit :=
  setUploadProgress None;;
  reject (Error msgAborted).

Definition finish (e : Ending) (s : State) : State :=
  match e with
  | Load status statusText responseText => exec (onLoad status statusText responseText) s
  | NetworkError => exec onError s
  | Aborted => exec onAbort s
  end.

End Upload.

(** ** The address of the backend: [getBackendUrl], [getBaseUrl], [url] *)
Module Backend.
Import JS Eff.

(** Where the renderer runs: [electronAPI] is what
    [window.electronAPI.getBackendUrl()] settles to, if the renderer runs in
    Electron; [VITE_API_URL] is [import.meta.env.VITE_API_URL]. *)
Record Env := mkEnv {
  electronAPI : option (Result string);
  VITE_API_URL : option string
}.

Definition defaultUrl : string := "http://localhost:8000".

(** The module variable [cachedBackendUrl], and the number of times the
    main process has been asked. *)
Record State := mkState {
  cachedBackendUrl : option string;
  asked : nat
}.

(** [getBackendUrl()] *)
Definition getBackendUrl (env : Env) : ST State string :=
  match electronAPI env with
  | Some answer =>
      update (fun s => mkState (cachedBackendUrl s) (S (asked s)));;
      tryCatch
        (url ← lift answer;
         pure (if JsString.isEmpty url then defaultUrl else url))
        (fun _ => pure defaultUrl)
  | None =>
      pure (match VITE_API_URL env with
            | Some url => url
            | None => defaultUrl
            end)
  end.

(** A string that is there and not empty, as [if (x)] tests it. *)
Definition present (x : option string) : option string :=
  match x with
  | Some u => if JsString.isEmpty u then None else Some u
  | None => None
  end.

(** The [constructor]: [baseUrl] is kept only if it is truthy. *)
Definition construct (baseUrl : option string) : option string := present baseUrl.

(** [this.getBaseUrl()], for an instance whose [baseUrl] field is
    [baseUrl] ([None] for [null]), as one use runs from start to end.  (The
    cache is written when the main process has answered: a second use that
    starts before that asks the main process as well.) *)
Definition getBaseUrl (env : Env) (baseUrl : option string) : ST State string :=
  match present baseUrl with
  | Some u => pure u
  | None =>
      cached ← (fun s => (Ok (cachedBackendUrl s), s));
      match present cached with
      | Some u => pure u
      | None =>
          url ← getBackendUrl env;
          update (fun s => mkState (Some url) (asked s));;
          pure url
      end
  end.

(** [this.url(path)] *)
Definition url (env : Env) (baseUrl : option string) (path : string) : ST State string :=
  base ← getBaseUrl env baseUrl;
  pure (base +:+ path).

(** The address [uploadWithProgress] posts to:
    [`${import.meta.env.VITE_API_URL || ""}/api/check-feed`]. *)
Definition uploadUrl (env : Env) : string :=
  match VITE_API_URL env with
  | Some u => u
  | None => EmptyString
  end +:+ "/api/check-feed".

End Backend.

(** ** [formatTime] of [Home.tsx] *)
Module Format.
Import JsNumber.

Definition dash : string := "—".

(** [Math.round] and [Math.floor] of a rational. *)
Definition roundZ (q : Qc) : Z := Qfloor (this q + (1 # 2))%Q.
Definition floorZ (q : Qc) : Z := Qfloor (this q).

(** [formatTime(seconds)] *)
Definition formatTime (seconds : Number) : string :=
  match seconds with
  | Finite q =>
      match sign q with
      | Gt => dash
      | _ =>
          match (q ?= Qc_of_Z 60)%Qc with
          | Lt => JsString.ofZ (roundZ q) +:+ "с"
          | _ =>
              let minutes := floorZ (q / Qc_of_Z 60)%Qc in
              let secs := roundZ (q - Qc_of_Z 60 * Qc_of_Z minutes)%Qc in
              JsString.ofZ minutes +:+ "м " +:+ JsString.ofZ secs +:+ "с"
          end
      end
  | _ => dash
  end.

End Format.

(** ** The other methods of [FeedCheckerAPI]: [healthCheck], [getLogs],
    [getLogsInfo] *)
Module ApiLogs.
Import JS Eff Http.

Definition msgLogs : string := "Ошибка при получении логов".

(** [healthCheck]: GET /health *)
Definition healthCheck (fetched : Result Response) : Result Value :=
  run
    (response ← lift fetched;
     if negb (ok response) then throw (Error "API недоступен")
     else json response)
    false.

(** [getLogs]: GET /api/logs *)
Definition getLogs (fetched : Result Response) : Result Value :=
  run
    (tryCatch
       (response ← lift fetched;
        if negb (ok response) then
          error ← tryCatch (json response) (fun _ => pure (Obj [("detail", Str msgLogs)]));
          detail ← lift (get error "detail");
          throw (ErrorOf (or detail (Str msgLogs)))
        else json response)
       (fun error => throw error))
    false.

(** [getLogsInfo]: GET /api/logs/info *)
Definition getLogsInfo (fetched : Result Response) : Result Value :=
  run
    (tryCatch
       (response ← lift fetched;
        if negb (ok response) then throw (Error "Ошибка при получении информации о логах")
        else json response)
       (fun error => throw error))
    false.

End ApiLogs.

(** ** [pages/Logs.tsx]: [loadLogs] *)
Module LogsPage.
Import JS Eff.

Record State := mkState {
  logs : Value;
  logInfo : Value;
  loading : bool;
  error : option string
}.

Definition setLogs (v : Value) : ST State unit :=
  update (fun s => mkState v (logInfo s) (loading s) (error s)).
Definition setLogInfo (v : Value) : ST State unit :=
  update (fun s => mkState (logs s) v (loading s) (error s)).
Definition setLoading (b : bool) : ST State unit :=
  update (fun s => mkState (logs s) (logInfo s) b (error s)).
Definition setError (e : option string) : ST State unit :=
  update (fun s => mkState (logs s) (logInfo s) (loading s) e).

(** [Promise.all] of two promises: both values, or the reason of the one
    that is rejected first ([secondFirst] says that the second promise is
    rejected before the first when both are). *)
Definition all2 (a b : Result Value) (secondFirst : bool) : Result (Value * Value) :=
  match a, b with
  | Ok x, Ok y => Ok (x, y)
  | Throw e, Ok _ => Throw e
  | Ok _, Throw e => Throw e
  | Throw e1, Throw e2 => Throw (if secondFirst then e2 else e1)
  end.

(** [err.message || "Ошибка при загрузке логов"] *)
Definition shown (err : Exn) : string :=
  if JsString.isEmpty (message err) then "Ошибка при загрузке логов" else message err.

(** [loadLogs], on what the two requests are answered with. *)
Definition loadLogs (logsFetched infoFetched : Result Http.Response) (secondFirst : bool)
  : ST State unit :=
  setLoading true;;
  setError None;;
  tryCatch
    (both ← lift (all2 (ApiLogs.getLogs logsFetched) (ApiLogs.getLogsInfo infoFetched)
                    secondFirst);
     lines ← lift (get (fst both) "lines");
     setLogs lines;;
     setLogInfo (snd both))
    (fun err => setError (Some (shown err)));;
  setLoading false.

End LogsPage.

(** ** [pages/Results.tsx]: loading the result *)
Module Results.
Import JS Eff.

Section Load.

(** [JSON.parse], on the strings of the store. *)
Variable JSON_parse : string -> Parsed.

Record State := mkState {
  result : Value;
  feedSource : Value;
  navigation : option string
}.

Definition initial : State := mkState Null Null None.

Definition setResult (v : Value) : ST State unit :=
  update (fun s => mkState v (feedSource s) (navigation s)).
Definition setFeedSource (v : Value) : ST State unit :=
  update (fun s => mkState (result s) v (navigation s)).
Definition navigate (to : string) : ST State unit :=
  update (fun s => mkState (result s) (feedSource s) (Some to)).

Definition parseString (s : string) : Result Value := parse (mkText s (JSON_parse s)).

(** The effect that runs when the page opens, on [location.state] and the
    items of [sessionStorage]. *)
Definition load (locationState : Value) (items : gmap string string) : ST State unit :=
  if truthy (getOpt locationState "fullResult") then
    setResult (getOpt locationState "fullResult");;
    if truthy (getOpt locationState "feedSource")
    then setFeedSource (getOpt locationState "feedSource")
    else pure tt
  else
    match Backend.present (items !! "feedCheckResult") with
    | None => navigate "/"
    | Some storedResult =>
        parsedResult ← lift (parseString storedResult);
        parsedSource ←
          match Backend.present (items !! "feedSource") with
          | Some storedSource => lift (parseString storedSource)
          | None => pure Null
          end;
        setResult parsedResult;;
        if truthy parsedSource then setFeedSource parsedSource else pure tt
    end.

End Load.

End Results.

(** ** [handleSubmit]: the checks on the result of an XML feed *)
Module Checks.
Import JS Eff.

(** What [handleSubmit] does with the result: it goes on to the hand-off,
    or it shows an error ([setError], [setDownloadError]) and returns. *)
Inductive Verdict :=
| Proceed
| Stop (error : Value) (downloadError : Value).

Definition suggestion : string :=
  "Исправьте все теги <param>: каждый тег должен иметь атрибут name с непустым значением. Пример: <param name="
  +:+ dquote +:+ "Цвет" +:+ dquote +:+ ">Красный</param>".

(** One round of the [forEach] that builds [detailedMessage]: the text is
    not used afterwards, so what is left of it is the read of
    [err.message], which throws on [null]. *)
Definition readError (err : Value) : Result unit :=
  match get err "message" with
  | Ok _ => Ok tt
  | Throw e => Throw e
  end.

Fixpoint forEach (f : Value -> Result unit) (l : list Value) : Result unit :=
  match l with
  | [] => Ok tt
  | x :: r =>
      match f x with
      | Ok _ => forEach f r
      | Throw e => Throw e
      end
  end.

(** The branch [xmlResult.param_validation_error && xmlResult.errors]. *)
Definition paramCard (f : Home.Form) (result errorMessage errors : Value) : Result Verdict :=
  match errors with
  | Arr items =>
      let errorsCount :=
        or (getOpt result "errors_count") (Num (Z.of_nat (List.length items))) in
      match forEach readError (firstn 10 items) with
      | Throw e => Throw e
      | Ok _ =>
          Ok (Stop Null
                (Obj [("error_type", Str "VALIDATION_ERROR");
                      ("error_code", Str "PARAM_VALIDATION_ERROR");
                      ("message", errorMessage);
                      ("url", if Home.isUrl (Home.sourceType f)
                              then Str (Home.feedUrl f) else Undefined);
                      ("details",
                        Obj [("param_validation_error", Bool true);
                             ("errors_count", errorsCount);
                             ("errors", Arr (firstn 20 items));
                             ("suggestion", Str suggestion)])]))
      end
  | Str _ => Throw (TypeError "errors.slice(...).forEach is not a function")
  | _ => Throw (TypeError "errors.slice is not a function")
  end.

(** The block [if (feedType === "xml")] that follows the check. *)
Definition xmlCheck (f : Home.Form) (result : Value) : Result Verdict :=
  match get result "validation_error" with
  | Throw e => Throw e
  | Ok validation_error =>
      if truthy validation_error then
        let errorMessage := or (getOpt result "message") (Str "Ошибка при проверке XML фида") in
        if truthy (getOpt result "param_validation_error") && truthy (getOpt result "errors")
        then paramCard f result errorMessage (getOpt result "errors")
        else Ok (Stop errorMessage Null)
      else
        let syntaxResult := getOpt result "syntax" in
        let invalid := truthy syntaxResult && negb (truthy (getOpt syntaxResult "valid")) in
        let hasParamValidationError :=
          invalid &&
          (isStr "PARAM_VALIDATION_ERROR" (getOpt syntaxResult "error_code") ||
           isStr "PARAM_DUPLICATE_ERROR" (getOpt syntaxResult "error_code") ||
           truthy (getOpt syntaxResult "param_validation_errors") ||
           truthy (getOpt syntaxResult "duplicate_param_errors")) in
        if invalid && hasParamValidationError then Ok Proceed
        else if invalid && negb (truthy (getOpt result "mandatory"))
                && negb (truthy (getOpt result "categories"))
        then Ok (Stop (or (or (getOpt syntaxResult "human_message")
                              (getOpt syntaxResult "message"))
                          (Str "Неизвестная ошибка"))
                   Null)
        else Ok Proceed
  end.

End Checks.

(** ** [pages/Recommendations.tsx] and [pages/Dashboard.tsx] *)
Module Recommendations.

(** The names an object inherits from [Object.prototype].  Reading one of
    them from an object that has no property of that name of its own gives
    a function (for [__proto__], the prototype), which is truthy. *)
Definition inherited (id : string) : bool :=
  existsb (String.eqb id)
    ["constructor"; "hasOwnProperty"; "isPrototypeOf"; "propertyIsEnumerable";
     "toLocaleString"; "toString"; "valueOf"; "__defineGetter__"; "__defineSetter__";
     "__lookupGetter__"; "__lookupSetter__"; "__proto__"].

(** [prev[id]] as a condition, for the state [prev] whose own properties
    are booleans: [expandedSections[id]], and the operand of [!] in the
    toggles. *)
Definition isOn (id : string) (m : gmap string bool) : bool :=
  match m !! id with
  | Some b => b
  | None => inherited id
  end.

(** [prev => ({ ...prev, [id]: !prev[id] })], of [toggleSection] and
    [toggleChecklistItem]. *)
Definition toggle (id : string) (prev : gmap string bool) : gmap string bool :=
  <[id := negb (isOn id prev)]> prev.

End Recommendations.

Module Dashboard.

Record SidebarItem := mkItem { id : nat; title : string; type : string }.

Definition initialItems : list SidebarItem :=
  [mkItem 1 "Проект Alpha" "project"; mkItem 2 "Задача Beta" "task";
   mkItem 3 "Документ Gamma" "document"].

(** [handleAddItem] *)
Definition handleAddItem (items : list SidebarItem) : list SidebarItem :=
  items ++ [mkItem (List.length items + 1)
              ("Новый элемент " +:+ JsString.ofZ (Z.of_nat (List.length items + 1)))
              "project"].

End Dashboard.

(** * Sample inputs *)

Module Samples.
Import JS.

(** The 80 MiB file of the specification, async mode off. *)
Definition form80MiB : Home.Form :=
  Home.mkForm 12345 EmptyString (Some (Home.mkFile "feed.xml" (80 * 1024 * 1024)))
    Home.file Home.xml ";" false.

(** A small result object. *)
Definition result : Value :=
  Obj [("site_id", Num 12345); ("syntax", Obj [("valid", Bool true)])].

(** The events of the scenario in the specification. *)
Definition startData : Value := Obj [("type", Str "start")].
Definition downloadingData : Value := Obj [("type", Str "downloading")].
Definition progressData : Value :=
  Obj [("type", Str "progress"); ("loaded", Num 500); ("total", Num 1000);
       ("percentage", Num 50)].
Definition completeData : Value := Obj [("type", Str "complete"); ("result", result)].

Definition scenario : list Stream.Incoming :=
  [Stream.Message (textOf startData); Stream.Message (textOf downloadingData);
   Stream.Message (textOf progressData)].

(** The download error of the specification's second scenario. *)
Definition error404Data : Value :=
  Obj [("type", Str "error"); ("error_type", Str "download_error");
       ("error_code", Str "HTTP_ERROR"); ("http_status", Num 404)].

(** An error event that is not a download error and says what went wrong. *)
Definition errorWithMessageData : Value :=
  Obj [("type", Str "error"); ("message", Str "Feed is empty")].

(** An event whose data is not JSON. *)
Definition garbage : Text :=
  mkText "not json" (Malformed "Unexpected token o in JSON at position 1").

(** A JSON response with status 200. *)
Definition jsonResponse (v : Value) : Http.Response :=
  Http.mkResponse 200 "OK" (Some "application/json") (Some (textOf v)).

(** Job statuses as the status endpoint reports them. *)
Definition completedStatus : Value :=
  Obj [("job_id", Str "job-1"); ("status", Str "completed"); ("progress", Num 100);
       ("message", Str "done")].




(** The result request answered with the result. *)
Definition resultResponse : Http.Response := jsonResponse (Obj [("result", result)]).

(** The result request answered with status 500 and a JSON body that has
    a [result]. *)
Definition result500 : Http.Response :=
  Http.mkResponse 500 "Internal Server Error" (Some "application/json")
    (Some (textOf (Obj [("result", result)]))).

(** The result request answered with a text that is neither HTML nor
    JSON. *)
Definition resultPlainText : Http.Response :=
  Http.mkResponse 200 "OK" (Some "text/plain")
    (Some (mkText "oops" (Malformed "Unexpected token o in JSON at position 0"))).

(** An HTML page whose tag is written in capitals. *)
Definition capitalsPage : Http.Response :=
  Http.mkResponse 200 "OK" (Some "text/html")
    (Some (mkText "<HTML><BODY>502 Bad Gateway</BODY></HTML>"
             (Malformed "Unexpected token < in JSON at position 0"))).

(** The error page of a gateway in front of a backend that is down. *)
Definition htmlPage : Text :=
  mkText "<html><body><h1>502 Bad Gateway</h1></body></html>"
    (Malformed "Unexpected token < in JSON at position 0").

Definition badGateway : Http.Response :=
  Http.mkResponse 502 "Bad Gateway" (Some "text/html") (Some htmlPage).

(** The job to delete is not there. *)
Definition jobNotFound : Http.Response :=
  Http.mkResponse 404 "Not Found" (Some "application/json")
    (Some (textOf (Obj [("detail", Str "Job not found")]))).

(** A poller whose timer is running. *)
Definition polling : Poller.State := Poller.mkState true None [] false.

Definition base : string := "http://localhost:8000".

(** An upload that starts at time 1000 (in milliseconds) and reports
    500, then 750, then again 750 of 1000 bytes. *)
Definition uploadStart : Home.Estimator := Home.mkEstimator 1000 0.
Definition firstEvent : Z * Home.ProgressEvent := (1500, Home.mkProgressEvent true 500 1000).
Definition secondEvent : Z * Home.ProgressEvent := (2000, Home.mkProgressEvent true 750 1000).
Definition stalledEvent : Z * Home.ProgressEvent := (2500, Home.mkProgressEvent true 750 1000).

(** A form with a URL source, and a result with its per-offer details. *)
Definition urlForm : Home.Form :=
  Home.mkForm 12345 "http://x/feed.xml" None Home.url Home.xml ";" false.

Definition bigResult : Value :=
  Obj [("site_id", Num 12345);
       ("syntax", Obj [("valid", Bool true)]);
       ("mandatory", Obj [("total_offers", Num 3); ("duplicate_ids", Arr [])]);
       ("problematic_offers",
         Obj [("missing_id",
                Arr [Obj [("id", Str "offer-1"); ("name", Str "First offer")];
                     Obj [("id", Str "offer-2"); ("name", Str "Second offer")];
                     Obj [("id", Str "offer-3"); ("name", Str "Third offer")]])]);
       ("categories", Obj [("empty_categories", Arr [])])].

(** What is left of it in the reduced result. *)
Definition reducedResult : Value :=
  Obj [("site_id", Num 12345); ("feed_type", Str "xml");
       ("syntax", Obj [("valid", Bool true)]);
       ("mandatory",
         Obj [("total_offers", Num 3); ("valid_offers", Undefined);
              ("problems_count", Undefined); ("problems_summary", Undefined)]);
       ("categories", Obj [("empty_categories", Arr [])])].

Definition quotaExceeded : Exn :=
  DOMException "QuotaExceededError"
    "Failed to execute 'setItem' on 'Storage': Setting the value of 'feedCheckResult' exceeded the quota.".

(** The page while the check is running, over an empty store that holds
    [quota] bytes. *)
Definition pageWith (quota : nat) : Home.Page :=
  Home.mkPage (Home.mkStorage ∅ quota quotaExceeded) None Null true None EmptyString None.

End Samples.

(** * Further sample inputs *)
Module MoreSamples.
Import JS.

(** An answer with status 400 and a JSON body that carries a [detail]. *)
Definition errorAnswer (detail : Value) : Http.Response :=
  Http.mkResponse 400 "Bad Request" (Some "application/json")
    (Some (textOf (Obj [("detail", detail)]))).

Definition missingSite : Http.Response := errorAnswer (Str "site_id is required").

(** An error answer whose JSON body is sent as plain text. *)
Definition textAnswer : Http.Response :=
  Http.mkResponse 500 "Internal Server Error" (Some "text/plain")
    (Some (textOf (Obj [("detail", Str "boom")]))).

(** A [detail] with an [error_code] and no [error_type]. *)
Definition codedDetail : Value :=
  Obj [("error_code", Str "HTTP_ERROR"); ("message", Str "Not found")].

(** An event of a type the handler does not know. *)
Definition heartbeat : Value := Obj [("type", Str "ping")].

(** The progress events of the scenario, with their data and types. *)
Definition progressEvents : list (Text * Value * string) :=
  [(textOf Samples.startData, Samples.startData, "start");
   (textOf Samples.downloadingData, Samples.downloadingData, "downloading");
   (textOf Samples.progressData, Samples.progressData, "progress")].

(** A job that is still being worked on. *)
Definition processingStatus : Value :=
  Obj [("job_id", Str "job-1"); ("status", Str "processing"); ("progress", Num 40);
       ("message", Str "working")].

(** The network is down. *)
Definition failedToFetch : Exn := TypeError "Failed to fetch".

(** Two runs of the timer callback that overlap: the timer ticks twice
    before the first status answer comes, both runs see the job completed,
    and the two answers to their result requests follow. *)
Definition overlapping : list Overlap.Event :=
  [Overlap.TimerFires; Overlap.TimerFires;
   Overlap.StatusArrives 0 (Ok (Samples.jsonResponse Samples.completedStatus));
   Overlap.StatusArrives 1 (Ok (Samples.jsonResponse Samples.completedStatus));
   Overlap.ResultArrives 0 (Ok Samples.resultResponse);
   Overlap.ResultArrives 1 (Ok Samples.resultResponse)].

(** The renderer in Electron, with no [VITE_API_URL], before the first
    request. *)
Definition electron : Backend.Env :=
  Backend.mkEnv (Some (Ok "http://127.0.0.1:8000")) None.
Definition fresh : Backend.State := Backend.mkState None 0.

(** 119.6 seconds. *)
Definition twoMinutes : Qc := Q2Qc (1196 # 10).

(** The log request answered with an error. *)
Definition logsUnavailable : Http.Response := errorAnswer (Str "Log file not found").

(** An error answer whose JSON body is [null]. *)
Definition nullAnswer : Http.Response :=
  Http.mkResponse 500 "Internal Server Error" (Some "application/json")
    (Some (textOf Null)).

(** [JSON.parse] on the two texts the hand-off of [Samples.bigResult]
    leaves in the store. *)
Definition parseStored (s : string) : Parsed :=
  if String.eqb s (toString (stringify Samples.bigResult)) then Json Samples.bigResult
  else if String.eqb s (toString (stringify (Home.feedSource Samples.urlForm)))
  then Json (Home.feedSource Samples.urlForm)
  else Malformed "Unexpected token".

(** A store whose result was cut off. *)
Definition brokenStore : gmap string string := {["feedCheckResult" := "{"]}.

(** A result with malformed [param] tags, and a result whose syntax part
    alone came back. *)
Definition paramErrors : Value :=
  Obj [("validation_error", Bool true);
       ("message", Str "Некорректные теги param");
       ("param_validation_error", Bool true);
       ("errors", Arr [Obj [("message", Str "param without name"); ("line", Num 12)]])].

Definition brokenSyntax : Value :=
  Obj [("syntax", Obj [("valid", Bool false); ("message", Str "not well-formed")])].

(** The card shown for [paramErrors]. *)
Definition shownCard : Value :=
  match Checks.xmlCheck Samples.urlForm paramErrors with
  | Ok (Checks.Stop _ card) => card
  | _ => Null
  end.

End MoreSamples.

(** * Properties *)

(** ** The strategy selection of [handleSubmit] *)

(** The threshold both sides compare the file size with. *)
Lemma fifty_MiB : 50 * ModeSelector.MiB = 50 * 1024 * 1024.
Proof. reflexivity. Qed.

(** A form that passes the source checks stands for a request. *)
Lemma validated_has_request (f : Home.Form) :
  Home.validateSource f = None -> is_Some (ModeSelector.requestOf f).
Proof.
  unfold Home.validateSource, ModeSelector.requestOf.
  destruct (Home.sourceType f), (Home.feedFile f) as [fl|]; simpl;
    try (destruct (JsString.isEmpty _)); intros H; try discriminate; eauto.
Qed.

(** The call made is the one the decision order of the specification
    names. *)
Lemma dispatch_refines_select (f : Home.Form) (r : ModeSelector.CheckRequest) :
  ModeSelector.requestOf f = Some r ->
  ModeSelector.strategyOf (Home.dispatch f) = ModeSelector.select r.
Proof.
  unfold ModeSelector.requestOf, Home.dispatch, Home.shouldUseAsync, ModeSelector.select.
  destruct (Home.sourceType f) eqn:Hs, (Home.feedFile f) as [fl|] eqn:Hf;
    intros [= <-]; simpl; rewrite ?fifty_MiB;
    destruct (Home.useAsyncMode f); simpl; try reflexivity;
    try (destruct (Home.size fl >? 50 * 1024 * 1024); simpl; try reflexivity);
    destruct (Home.feedType f); reflexivity.
Qed.

(** Every request with a file, or with a URL that is not empty, is the
    request of a form that passes the source checks. *)
Lemma every_request_has_a_form (r : ModeSelector.CheckRequest) :
  ModeSelector.source r <> ModeSelector.URL EmptyString ->
  exists f : Home.Form,
    Home.validateSource f = None /\ ModeSelector.requestOf f = Some r.
Proof.
  destruct r as [sid [u|fl] ft dl a]; simpl; intros Hne.
  - exists (Home.mkForm sid u None Home.url ft dl a). split; [|reflexivity].
    unfold Home.validateSource. simpl. destruct u; [congruence|reflexivity].
  - exists (Home.mkForm sid EmptyString (Some fl) Home.file ft dl a).
    split; reflexivity.
Qed.

(** C1. For every form that passes the source checks of [handleSubmit]
    (a request with a URL or a file), the selection makes exactly one call
    and it is the one the first-match decision order gives: the poller when
    async mode is on or the source is a file above 50 MiB, else the upload
    with progress for a file, else the event stream for a URL with an xml
    feed, else the plain [checkFeed] for a URL with a delta feed. *)
Theorem C1_mode_selector (f : Home.Form) :
  Home.validateSource f = None ->
  exists r : ModeSelector.CheckRequest,
    ModeSelector.requestOf f = Some r /\
    ModeSelector.strategyOf (Home.dispatch f) = ModeSelector.select r /\
    (ModeSelector.asyncRequested r = true \/
     (exists fl, ModeSelector.source r = ModeSelector.FileBlob fl /\
                 50 * 1024 * 1024 < Home.size fl) ->
     ModeSelector.strategyOf (Home.dispatch f) = ModeSelector.AsyncJobPoller) /\
    (ModeSelector.asyncRequested r = false ->
     forall fl, ModeSelector.source r = ModeSelector.FileBlob fl ->
                Home.size fl <= 50 * 1024 * 1024 ->
     ModeSelector.strategyOf (Home.dispatch f) = ModeSelector.DirectSubmitWithProgress) /\
    (ModeSelector.asyncRequested r = false ->
     forall u, ModeSelector.source r = ModeSelector.URL u ->
     ModeSelector.strategyOf (Home.dispatch f) =
       match ModeSelector.feedType r with
       | Home.xml => ModeSelector.ProgressStream
       | Home.delta => ModeSelector.DirectSubmitWithoutProgress
       end).
Proof.
  intros Hv. destruct (validated_has_request f Hv) as [r Hr].
  exists r. split; [exact Hr|].
  rewrite (dispatch_refines_select f r Hr). split; [reflexivity|].
  unfold ModeSelector.select, ModeSelector.largeFile. rewrite fifty_MiB.
  repeat split.
  - intros [Ha | (fl & Hsrc & Hsz)].
    + rewrite Ha. reflexivity.
    + rewrite Hsrc. replace (Home.size fl >? 50 * 1024 * 1024) with true
        by (symmetry; apply Z.gtb_lt; exact Hsz).
      rewrite orb_true_r. reflexivity.
  - intros Ha fl Hsrc Hsz. rewrite Ha, Hsrc.
    replace (Home.size fl >? 50 * 1024 * 1024) with false; [reflexivity|].
    symmetry. rewrite Z.gtb_ltb. apply Z.ltb_ge. exact Hsz.
  - intros Ha u Hsrc. rewrite Ha, Hsrc. reflexivity.
Qed.

Lemma C1_mode_selector_witness :
  exists r : ModeSelector.CheckRequest,
    ModeSelector.requestOf Samples.form80MiB = Some r /\
    ModeSelector.strategyOf (Home.dispatch Samples.form80MiB) = ModeSelector.select r /\
    (ModeSelector.asyncRequested r = true \/
     (exists fl, ModeSelector.source r = ModeSelector.FileBlob fl /\
                 50 * 1024 * 1024 < Home.size fl) ->
     ModeSelector.strategyOf (Home.dispatch Samples.form80MiB) = ModeSelector.AsyncJobPoller) /\
    (ModeSelector.asyncRequested r = false ->
     forall fl, ModeSelector.source r = ModeSelector.FileBlob fl ->
                Home.size fl <= 50 * 1024 * 1024 ->
     ModeSelector.strategyOf (Home.dispatch Samples.form80MiB) = ModeSelector.DirectSubmitWithProgress) /\
    (ModeSelector.asyncRequested r = false ->
     forall u, ModeSelector.source r = ModeSelector.URL u ->
     ModeSelector.strategyOf (Home.dispatch Samples.form80MiB) =
       match ModeSelector.feedType r with
       | Home.xml => ModeSelector.ProgressStream
       | Home.delta => ModeSelector.DirectSubmitWithoutProgress
       end).
Proof. apply (C1_mode_selector Samples.form80MiB). reflexivity. Defined.

Example form80MiB_polls :
  ModeSelector.strategyOf (Home.dispatch Samples.form80MiB) = ModeSelector.AsyncJobPoller.
Proof. reflexivity. Qed.

(** ** Reading properties *)

Lemma get_Ok_getOpt (v x : JS.Value) (k : string) :
  JS.get v k = JS.Ok x -> forall k', JS.get v k' = JS.Ok (JS.getOpt v k').
Proof. destruct v; simpl; intros H k'; try discriminate; reflexivity. Qed.

Lemma get_Ok_eq (v x : JS.Value) (k : string) :
  JS.get v k = JS.Ok x -> x = JS.getOpt v k.
Proof. destruct v; simpl; intros H; try discriminate; congruence. Qed.

(** Unfolding of the sequencing combinators. *)
Ltac st_unfold :=
  cbv [mbind mret Eff.ST_bind Eff.ST_ret Eff.andThen Eff.tryCatch Eff.pure
       Eff.throw Eff.lift Eff.update Eff.exec Eff.run] in *.

(** ** The event stream *)
Section StreamFacts.
Import JS Eff Stream StreamNotions.

(** What an unparseable event does. *)
Lemma onmessage_malformed (event : Text) (msg : string) (s : State) :
  parsed event = Malformed msg ->
  exec (onmessage event) s =
    mkState true
      (match settled s with None => Some (Throw (Error msgProcessing)) | Some o => Some o end)
      (calls s).
Proof.
  intros H. unfold onmessage, parse. rewrite H. st_unfold.
  unfold close, reject, settle. st_unfold. simpl.
  destruct s as [c [o|] l]; reflexivity.
Qed.

Ltac stream_step Hty :=
  unfold onmessage, parse;
  match goal with H : parsed _ = _ |- _ => rewrite H end;
  st_unfold; rewrite Hty; simpl;
  rewrite ?(get_Ok_getOpt _ _ _ Hty);
  unfold close, reject, resolve, settle, onStatusChange, onProgress, call;
  st_unfold; simpl.

(** What a [complete] event does. *)
Lemma onmessage_complete (event : Text) (data : Value) (s : State) :
  parsed event = Json data ->
  get data "type" = Ok (Str "complete") ->
  exec (onmessage event) s =
    mkState true
      (match settled s with None => Some (Ok (getOpt data "result")) | Some o => Some o end)
      (calls s).
Proof.
  intros H Hty. stream_step Hty. destruct s as [c [o|] l]; reflexivity.
Qed.

(** What an [error] event does. *)
Lemma onmessage_error (event : Text) (data : Value) (s : State) :
  parsed event = Json data ->
  get data "type" = Ok (Str "error") ->
  exec (onmessage event) s =
    mkState true
      (match settled s with None => Some (Throw (errorOfEvent data)) | Some o => Some o end)
      (calls s).
Proof.
  intros H Hty. stream_step Hty. unfold errorOfEvent.
  destruct (isStr "download_error" (getOpt data "error_type"));
    destruct s as [c [o|] l]; reflexivity.
Qed.

(** An event of one of the four progress types only calls its callback. *)
Lemma onmessage_progress (event : Text) (data : Value) (type : string) (s : State) :
  parsed event = Json data ->
  get data "type" = Ok (Str type) ->
  In type ["start"; "downloading"; "progress"; "processing"] ->
  exec (onmessage event) s =
    mkState (closed s) (settled s) (calls s ++ [callbackOf type data]).
Proof.
  intros H Hty Hin. simpl in Hin.
  destruct Hin as [<-|[<-|[<-|[<-|[]]]]]; stream_step Hty; reflexivity.
Qed.

(** A handler run either closes the connection or leaves the promise as
    it was. *)
Lemma onmessage_closes_or_keeps (event : Text) (s : State) :
  closed (exec (onmessage event) s) = true \/
  (closed (exec (onmessage event) s) = closed s /\
   settled (exec (onmessage event) s) = settled s).
Proof.
  destruct (parsed event) as [data|msg] eqn:H.
  2: { left. rewrite (onmessage_malformed _ _ _ H). reflexivity. }
  destruct (get data "type") as [ty|e] eqn:Hty.
  2: { left. unfold onmessage, parse. rewrite H. st_unfold. rewrite Hty.
       unfold close, reject, settle. st_unfold. simpl.
       destruct (settled s); reflexivity. }
  unfold onmessage, parse. rewrite H. st_unfold. rewrite Hty.
  rewrite ?(get_Ok_getOpt _ _ _ Hty).
  unfold close, reject, resolve, settle, onStatusChange, onProgress, call.
  st_unfold.
  repeat match goal with
         | |- context [if ?b then _ else _] => destruct b
         | |- context [match settled ?x with _ => _ end] => destruct (settled x)
         end; simpl; auto.
Qed.

Lemma onerror_closes (s : State) : closed (exec onerror s) = true.
Proof.
  unfold onerror, close, reject, settle. st_unfold. simpl.
  destruct (settled s); reflexivity.
Qed.

Lemma receive_app (s : State) (l1 l2 : list Incoming) :
  receive s (l1 ++ l2) = receive (receive s l1) l2.
Proof. unfold receive. apply fold_left_app. Qed.

Lemma receive_cons (s : State) (i : Incoming) (l : list Incoming) :
  receive s (i :: l) = receive (deliver s i) l.
Proof. reflexivity. Qed.

Lemma deliver_open (s : State) (event : Text) :
  closed s = false -> deliver s (Message event) = exec (onmessage event) s.
Proof. intros H. unfold deliver. rewrite H. reflexivity. Qed.

Lemma receive_closed (l : list Incoming) (s : State) :
  closed s = true -> receive s l = s.
Proof.
  induction l as [|i l IH]; intros Hc; [reflexivity|].
  simpl. replace (deliver s i) with s by (unfold deliver; rewrite Hc; reflexivity).
  apply IH, Hc.
Qed.

(** While the connection is open the promise is pending. *)
Lemma pending_while_open (l : list Incoming) (s : State) :
  (closed s = false -> settled s = None) ->
  closed (receive s l) = false -> settled (receive s l) = None.
Proof.
  revert s. induction l as [|i l IH]; intros s Hinv; [exact Hinv|].
  simpl. apply IH. unfold deliver.
  destruct (closed s) eqn:Hc; [intros; congruence|].
  destruct i as [event|].
  - destruct (onmessage_closes_or_keeps event s) as [Ht|[Hk Hs]].
    + rewrite Ht. discriminate.
    + intros _. rewrite Hs. apply Hinv. reflexivity.
  - rewrite onerror_closes. discriminate.
Qed.

Lemma progress_keeps_open (l : list Incoming) (s : State) :
  Forall inProgress l -> closed s = false -> closed (receive s l) = false.
Proof.
  intros Hl. revert s. induction Hl as [|i l Hi _ IH]; intros s Hc; [exact Hc|].
  simpl. apply IH. unfold deliver. rewrite Hc.
  destruct Hi as (event & data & type & -> & Hp & Hty & Hin).
  rewrite (onmessage_progress _ _ _ _ Hp Hty Hin). exact Hc.
Qed.

Lemma arrives_open (pre : list Incoming) :
  arrivesAfter pre ->
  closed (receive initial pre) = false /\ settled (receive initial pre) = None.
Proof.
  intros H.
  assert (Hc : closed (receive initial pre) = false).
  { destruct H as [H|H]; [exact H|]. apply progress_keeps_open; [exact H|reflexivity]. }
  split; [exact Hc|]. apply pending_while_open; [reflexivity|exact Hc].
Qed.

End StreamFacts.

Section StreamClaims.
Import JS Eff Stream StreamNotions.

Lemma isStr_true (s : string) (v : Value) : isStr s v = true <-> v = Str s.
Proof.
  destruct v; simpl; split; intros H; try discriminate.
  - apply String.eqb_eq in H. congruence.
  - injection H as ->. apply String.eqb_refl.
Qed.

(** C7. A [complete] event that arrives while the connection is open
    (as it is after [start], [downloading], [progress] and [processing]
    events) closes the connection and resolves the promise with exactly the
    [result] of that event; nothing delivered afterwards changes that. *)
Theorem C7_complete_resolves_with_result
    (pre post : list Incoming) (event : Text) (data : Value) :
  arrivesAfter pre ->
  parsed event = Json data ->
  get data "type" = Ok (Str "complete") ->
  let s := checkFeedWithProgress (pre ++ Message event :: post) in
  closed s = true /\
  settled s = Some (Ok (getOpt data "result")) /\
  calls s = calls (checkFeedWithProgress pre).
Proof.
  intros Hpre Hp Hty. destruct (arrives_open pre Hpre) as [Hc Hs].
  unfold checkFeedWithProgress in *. cbv zeta.
  rewrite receive_app, receive_cons, (deliver_open _ _ Hc).
  rewrite (onmessage_complete _ _ _ Hp Hty), Hs.
  rewrite receive_closed by reflexivity. simpl. auto.
Qed.

Lemma C7_complete_resolves_with_result_witness :
  let s := checkFeedWithProgress
             (Samples.scenario ++ Message (textOf Samples.completeData) :: []) in
  closed s = true /\
  settled s = Some (Ok Samples.result) /\
  calls s = calls (checkFeedWithProgress Samples.scenario).
Proof.
  apply (C7_complete_resolves_with_result Samples.scenario [] (textOf Samples.completeData)
           Samples.completeData).
  - left. reflexivity.
  - reflexivity.
  - reflexivity.
Defined.

(** C10. An event whose data [JSON.parse] rejects, arriving while the
    connection is open, closes the connection and rejects the promise with
    the response-processing error; it is terminal. *)
Theorem C10_malformed_event_rejects
    (pre post : list Incoming) (event : Text) (msg : string) :
  arrivesAfter pre ->
  parsed event = Malformed msg ->
  let s := checkFeedWithProgress (pre ++ Message event :: post) in
  closed s = true /\
  settled s = Some (Throw (Error msgProcessing)) /\
  calls s = calls (checkFeedWithProgress pre).
Proof.
  intros Hpre Hp. destruct (arrives_open pre Hpre) as [Hc Hs].
  unfold checkFeedWithProgress in *. cbv zeta.
  rewrite receive_app, receive_cons, (deliver_open _ _ Hc).
  rewrite (onmessage_malformed _ _ _ Hp), Hs.
  rewrite receive_closed by reflexivity. simpl. auto.
Qed.

Lemma C10_malformed_event_rejects_witness :
  let s := checkFeedWithProgress
             (Samples.scenario ++ Message Samples.garbage
                :: [Message (textOf Samples.completeData)]) in
  closed s = true /\
  settled s = Some (Throw (Error msgProcessing)) /\
  calls s = calls (checkFeedWithProgress Samples.scenario).
Proof.
  apply (C10_malformed_event_rejects Samples.scenario
           [Message (textOf Samples.completeData)] Samples.garbage
           "Unexpected token o in JSON at position 1").
  - left. reflexivity.
  - reflexivity.
Defined.

(** C3, as the code has it. An [error] event that arrives while the
    connection is open closes the connection and rejects the promise. For
    [error_type] ["download_error"] the error carries, under
    [downloadError], the event's [error_code], [message], [url],
    [http_status] and [details] unchanged. Otherwise it is a plain error
    whose message is the event's own [message] when that is truthy, and the
    generic message only when it is not. *)
Theorem C3_error_event_rejects
    (pre post : list Incoming) (event : Text) (data : Value) :
  arrivesAfter pre ->
  parsed event = Json data ->
  get data "type" = Ok (Str "error") ->
  let s := checkFeedWithProgress (pre ++ Message event :: post) in
  closed s = true /\
  exists e : Exn,
    settled s = Some (Throw e) /\
    (getOpt data "error_type" = Str "download_error" ->
     message e = messageOf (getOpt data "message") /\
     downloadError e =
       Obj [("error_type", Str "DOWNLOAD_ERROR");
            ("error_code", getOpt data "error_code");
            ("message", getOpt data "message");
            ("url", getOpt data "url");
            ("http_status", getOpt data "http_status");
            ("details", getOpt data "details")]) /\
    (getOpt data "error_type" <> Str "download_error" ->
     downloadError e = Undefined /\
     message e = if truthy (getOpt data "message")
                 then messageOf (getOpt data "message")
                 else msgGeneric).
Proof.
  intros Hpre Hp Hty. destruct (arrives_open pre Hpre) as [Hc Hs].
  unfold checkFeedWithProgress in *. cbv zeta.
  rewrite receive_app, receive_cons, (deliver_open _ _ Hc).
  rewrite (onmessage_error _ _ _ Hp Hty), Hs.
  rewrite receive_closed by reflexivity. simpl. split; [reflexivity|].
  exists (errorOfEvent data). split; [reflexivity|].
  unfold errorOfEvent.
  destruct (isStr "download_error" (getOpt data "error_type")) eqn:Hd.
  - split; [intros _; split; reflexivity|].
    intros Hne. apply isStr_true in Hd. contradiction.
  - split.
    + intros Heq. apply isStr_true in Heq. congruence.
    + intros _. split; [reflexivity|]. unfold or.
      destruct (truthy (getOpt data "message")); reflexivity.
Qed.

Lemma C3_error_event_rejects_witness :
  let data := Samples.error404Data in
  let s := checkFeedWithProgress (Samples.scenario ++ Message (textOf data) :: []) in
  closed s = true /\
  exists e : Exn,
    settled s = Some (Throw e) /\
    (getOpt data "error_type" = Str "download_error" ->
     message e = messageOf (getOpt data "message") /\
     downloadError e =
       Obj [("error_type", Str "DOWNLOAD_ERROR");
            ("error_code", Str "HTTP_ERROR");
            ("message", Undefined);
            ("url", Undefined);
            ("http_status", Num 404);
            ("details", Undefined)]) /\
    (getOpt data "error_type" <> Str "download_error" ->
     downloadError e = Undefined /\
     message e = if truthy (getOpt data "message")
                 then messageOf (getOpt data "message")
                 else msgGeneric).
Proof.
  apply (C3_error_event_rejects Samples.scenario [] (textOf Samples.error404Data)
           Samples.error404Data).
  - right. repeat constructor;
      [exists (textOf Samples.startData), Samples.startData, "start"
      |exists (textOf Samples.downloadingData), Samples.downloadingData, "downloading"
      |exists (textOf Samples.progressData), Samples.progressData, "progress"];
      simpl; tauto.
  - reflexivity.
  - reflexivity.
Defined.

(** C3 as stated fails: an [error] event that is not a download error and
    has a [message] is rejected with that message, not with the generic
    one. *)
Lemma C3_generic_message_counterexample :
  let data := Samples.errorWithMessageData in
  let s := checkFeedWithProgress [Message (textOf data)] in
  get data "type" = Ok (Str "error") /\
  getOpt data "error_type" <> Str "download_error" /\
  settled s = Some (Throw (Error "Feed is empty")) /\
  message (Error "Feed is empty") <> msgGeneric.
Proof.
  cbv zeta. repeat split; try reflexivity; discriminate.
Qed.

End StreamClaims.

(** ** The job poller *)
Section PollerFacts.
Import JS Eff Http Poller PollerNotions.

Variable baseUrl : string.
Variable jobId : Value.



Lemma rejectFailed_failureOf (error : Value) :
  rejectFailed error = reject (failureOf error).
Proof.
  unfold rejectFailed, failureOf.
  destruct (truthy error && typeofObject error); [|reflexivity].
  destruct (isStr "download_error" (getOpt error "error_type")); reflexivity.
Qed.



Lemma fire_active (s : State) (r : Result Response * Result Response) :
  timerActive s = true -> fire baseUrl jobId s r = exec (tick baseUrl jobId (fst r) (snd r)) s.
Proof. intros H. unfold fire. rewrite H. reflexivity. Qed.



End PollerFacts.

Section PollerExamples.
Import JS Eff Http Poller PollerNotions.



(** Nor is a text that is neither HTML nor JSON resolved. *)
Example plain_text_result_rejected :
  settled (fire Samples.base (Str "job-1") Samples.polling
             (Ok (Samples.jsonResponse Samples.completedStatus),
              Ok Samples.resultPlainText))
  = Some (Throw (Error "Сервер вернул неожиданный формат: text/plain")).
Proof. reflexivity. Qed.

(** The JSON body [null]: reading [result] of it throws, and the promise
    is rejected with that [TypeError] when the answer is JSON-typed and
    OK, and with "unexpected format" when it is sent as plain text. *)
Example null_result_rejected :
  settled (fire Samples.base (Str "job-1") Samples.polling
             (Ok (Samples.jsonResponse Samples.completedStatus),
              Ok (Samples.jsonResponse Null)))
  = Some (Throw (TypeError "Cannot read properties of null (reading 'result')")) /\
  settled (fire Samples.base (Str "job-1") Samples.polling
             (Ok (Samples.jsonResponse Samples.completedStatus),
              Ok (Http.mkResponse 200 "OK" (Some "text/plain") (Some (textOf Null)))))
  = Some (Throw (Error "Сервер вернул неожиданный формат: text/plain")).
Proof. split; reflexivity. Qed.



End PollerExamples.

(** ** The endpoints *)
Section ApiFacts.
Import JS Eff Http Api.

Ltac api_unfold :=
  unfold notOkBlock, checkFeedNotOk in *;
  unfold text, json, cloneText, blob, bodyText, parse in *;
  st_unfold; simpl in *.

(** Six endpoints look at the content type and the body before anything
    else: an HTML page that is not JSON-typed is reported as the gateway
    being down. *)
Lemma html_page_is_gateway_error (r : Response) :
  isJson (contentType r) = false ->
  looksLikeHtml (raw (bodyText r)) = true ->
  checkSyntax (Ok r) = Throw (Error msgGateway) /\
  getProblematicOffers (Ok r) = Throw (Error msgGateway) /\
  deleteJob (Ok r) = Throw (Error msgGateway) /\
  checkFeedAsync (Ok r) = Throw (Error msgGatewayLong) /\
  getJobStatus (Ok r) = Throw (Error msgGatewayLong) /\
  (ok r = true -> checkFeed (Ok r) = Throw (Error msgGatewayLong)).
Proof.
  intros Hj Hh.
  unfold checkSyntax, getProblematicOffers, deleteJob, checkFeedAsync, getJobStatus,
    checkFeed.
  api_unfold. rewrite Hj. simpl.
  destruct (body r) as [b|]; simpl in *; rewrite ?Hh; simpl.
  - do 5 (split; [reflexivity|]). intros ->. simpl. rewrite Hh. reflexivity.
  - exfalso. vm_compute in Hh. discriminate.
Qed.

(** [checkFeed] on an answer that is not OK looks for an HTML page too,
    with its own test and message. *)
Lemma checkFeed_html_page_not_ok (r : Response) :
  ok r = false ->
  isJson (contentType r) = false ->
  looksLikeHtmlCI (raw (bodyText r)) = true ->
  checkFeed (Ok r) = Throw (Error msgHtmlPage).
Proof.
  intros Ho Hj Hh. unfold checkFeed. api_unfold. rewrite Ho, Hj. simpl.
  destruct (body r) as [b|]; simpl in *;
    [rewrite Hh; reflexivity | exfalso; vm_compute in Hh; discriminate].
Qed.

(** The test for an HTML page is on the exact characters [<!] and
    [<html]: a page that opens with the tag in capitals is taken for a
    body of unexpected format. *)
Example capitals_page_not_recognised :
  checkSyntax (Ok Samples.capitalsPage)
  = Throw (Error "Сервер вернул неожиданный формат: text/html").
Proof. reflexivity. Qed.

(** C4 at [exportToExcel]: the method does not look at the content type or
    for an HTML page. On an HTML error page it throws the [SyntaxError] of
    [response.json()] when the answer is not OK, and returns the page as
    the spreadsheet when it is OK; in neither case the gateway error. *)
Theorem C4_exportToExcel_html_page (r : Response) (t : Text) (msg : string) :
  body r = Some t ->
  isJson (contentType r) = false ->
  looksLikeHtml (raw t) = true ->
  parsed t = Malformed msg ->
  exportToExcel (Ok r) =
    (if ok r then Ok (mkBlob (raw t)) else Throw (SyntaxError msg)) /\
  exportToExcel (Ok r) <> Throw (Error msgGateway) /\
  exportToExcel (Ok r) <> Throw (Error msgGatewayLong).
Proof.
  intros Hb Hj Hh Hp.
  assert (He : exportToExcel (Ok r) =
               if ok r then Ok (mkBlob (raw t)) else Throw (SyntaxError msg)).
  { unfold exportToExcel. api_unfold. destruct (ok r); simpl; rewrite Hb; simpl.
    - reflexivity.
    - rewrite Hp. reflexivity. }
  rewrite He. split; [reflexivity|].
  destruct (ok r); split; discriminate.
Qed.

Lemma C4_exportToExcel_html_page_witness :
  exportToExcel (Ok Samples.badGateway) =
    Throw (SyntaxError "Unexpected token < in JSON at position 0") /\
  checkSyntax (Ok Samples.badGateway) = Throw (Error msgGateway).
Proof.
  destruct (C4_exportToExcel_html_page Samples.badGateway Samples.htmlPage
              "Unexpected token < in JSON at position 0"
              eq_refl eq_refl eq_refl eq_refl) as [He _].
  split; [exact He|reflexivity].
Defined.

(** C9, as the code has it. [deleteJob] returns without raising on an
    answer that is not JSON-typed and no HTML page, OK or not, and on an OK
    JSON-typed answer. It raises the gateway error on an HTML page that is
    not JSON-typed, and it raises on every JSON-typed answer that is not
    OK. *)
Theorem C9_deleteJob_outcomes (r : Response) :
  (isJson (contentType r) = false ->
   deleteJob (Ok r) =
     if looksLikeHtml (raw (bodyText r)) then Throw (Error msgGateway) else Ok tt) /\
  (isJson (contentType r) = true -> ok r = true -> deleteJob (Ok r) = Ok tt) /\
  (isJson (contentType r) = true -> ok r = false ->
   deleteJob (Ok r) =
     Throw (match body r with
            | Some _ =>
                TypeError "Failed to execute 'clone' on 'Response': Response body is already used"
            | None => Error (statusLine r)
            end)).
Proof.
  unfold deleteJob. api_unfold. split; [|split].
  - intros ->. simpl. destruct (body r) as [b|]; simpl.
    + destruct (looksLikeHtml (raw b)); reflexivity.
    + reflexivity.
  - intros -> ->. reflexivity.
  - intros -> ->. simpl. destruct (body r) as [b|]; simpl; [|reflexivity].
    destruct (parsed b) as [v|m]; simpl; [|reflexivity].
    destruct (get v "detail"); reflexivity.
Qed.

Lemma C9_deleteJob_outcomes_witness :
  deleteJob (Ok Samples.jobNotFound) =
    Throw (TypeError "Failed to execute 'clone' on 'Response': Response body is already used") /\
  deleteJob (Ok Samples.resultPlainText) = Ok tt.
Proof.
  destruct (C9_deleteJob_outcomes Samples.jobNotFound) as (_ & _ & H3).
  destruct (C9_deleteJob_outcomes Samples.resultPlainText) as (H1 & _ & _).
  split; [exact (H3 eq_refl eq_refl)|exact (H1 eq_refl)].
Defined.

(** C9 as stated fails: a 404 answer with a JSON body is not OK and no
    HTML page, and [deleteJob] raises on it. *)
Lemma C9_not_ok_json_counterexample :
  ok Samples.jobNotFound = false /\
  looksLikeHtml (raw (bodyText Samples.jobNotFound)) = false /\
  looksLikeHtmlCI (raw (bodyText Samples.jobNotFound)) = false /\
  (exists e : Exn, deleteJob (Ok Samples.jobNotFound) = Throw e) /\
  deleteJob (Ok Samples.jobNotFound) <> Ok tt.
Proof.
  repeat split; try reflexivity.
  - eexists. reflexivity.
  - discriminate.
Qed.

End ApiFacts.

(** ** The upload progress estimator *)
Section EstimatorFacts.
Import JsNumber Home.

Lemma sign_positive (q : Qc) : sign q = Lt <-> (0 < q)%Qc.
Proof.
  unfold sign. rewrite Z.compare_lt_iff. unfold Qclt, Qlt. simpl. lia.
Qed.

Lemma positive_quotient (a b : Qc) : (0 < b)%Qc -> ((0 < a / b)%Qc <-> (0 < a)%Qc).
Proof.
  intros Hb. split; intros Ha.
  - apply (Qcmult_lt_mono_pos_r _ _ b Hb) in Ha.
    rewrite Qcmult_0_l in Ha. unfold Qcdiv in Ha.
    rewrite <- Qcmult_assoc, Qcmult_inv_l, Qcmult_1_r in Ha; [exact Ha|].
    intros Hz. apply (Qclt_not_eq _ _ Hb). symmetry. exact Hz.
  - unfold Qcdiv. apply Qcmult_pos_pos; [exact Ha|apply Qcinv_pos, Hb].
Qed.

Lemma thousand_positive : (0 < Qc_of_Z 1000)%Qc.
Proof. rewrite <- Z2Qc_inj_0. apply (proj1 (Z2Qc_inj_lt 0 1000)). reflexivity. Qed.

(** [timeElapsed > 0] holds exactly when the clock has advanced. *)
Lemma elapsed_positive (d : Z) :
  positive (div (ofZ d) (ofZ 1000)) = (0 <? d).
Proof.
  unfold div, ofZ. change (sign (Qc_of_Z 1000)) with Lt. cbv iota. unfold positive.
  destruct (0 <? d) eqn:Hd.
  - apply Z.ltb_lt in Hd.
    replace (sign (Qc_of_Z d / Qc_of_Z 1000)) with Lt; [reflexivity|].
    symmetry. apply sign_positive, positive_quotient; [apply thousand_positive|].
    rewrite <- Z2Qc_inj_0. apply (proj1 (Z2Qc_inj_lt 0 d)). exact Hd.
  - apply Z.ltb_ge in Hd.
    destruct (sign (Qc_of_Z d / Qc_of_Z 1000)) eqn:Hs; try reflexivity.
    exfalso. apply sign_positive, positive_quotient in Hs; [|apply thousand_positive].
    rewrite <- Z2Qc_inj_0 in Hs. apply (proj2 (Z2Qc_inj_lt 0 d)) in Hs. lia.
Qed.

(** Dividing by a positive number gives a number. *)
Lemma div_by_positive (x : Qc) (y : Number) :
  positive y = true -> isFinite y = true ->
  exists q : Qc, y = Finite q /\ div (Finite x) y = Finite (x / q)%Qc.
Proof.
  destruct y as [q| | |]; simpl; try discriminate. intros Hp _.
  exists q. split; [reflexivity|].
  destruct (sign q); try discriminate. reflexivity.
Qed.

(** Events without a computable length are passed over. *)
Lemma uploadReports_skip (skipped rest : list (Z * ProgressEvent)) (st : Estimator) :
  Forall (fun te => lengthComputable (snd te) = false) skipped ->
  uploadReports st (skipped ++ rest) = uploadReports st rest.
Proof.
  induction 1 as [|[t e] skipped He _ IH]; [reflexivity|].
  simpl in *. unfold onUploadProgress. rewrite He. exact IH.
Qed.

(** The listener leaves behind the time and the byte count of the event
    it has just reported. *)
Lemma uploadReports_last_two (pre skipped : list (Z * ProgressEvent))
    (t1 t2 : Z) (e1 e2 : ProgressEvent) (st : Estimator) :
  lengthComputable e1 = true ->
  Forall (fun te => lengthComputable (snd te) = false) skipped ->
  uploadReports st (pre ++ (t1, e1) :: skipped ++ [(t2, e2)]) =
    (uploadReports st (pre ++ [(t1, e1)]) ++
     uploadReports (mkEstimator t1 (e_loaded e1)) [(t2, e2)])%list.
Proof.
  intros H1 Hs. revert st. induction pre as [|[t e] pre IH]; intros st.
  - simpl. unfold onUploadProgress at 1 2. rewrite H1.
    rewrite (uploadReports_skip skipped _ _ Hs). reflexivity.
  - simpl. destruct (onUploadProgress st t e) as [st' [r|]]; rewrite IH; reflexivity.
Qed.

(** C5, as the code has it. For an upload progress event with a computable
    length, the reported speed is the number of bytes sent since the
    previous such event divided by the seconds elapsed since that event
    (not since the start of the upload), and 0 when no time has elapsed;
    the time remaining is [(total - loaded) / speed] when the speed is
    positive and 0 otherwise. Both are always finite: a speed of 0 is
    reported with a time remaining of 0. *)
Theorem C5_speed_since_previous_event
    (st : Estimator) (pre skipped : list (Z * ProgressEvent)) (t1 t2 : Z)
    (e1 e2 : ProgressEvent) :
  lengthComputable e1 = true ->
  Forall (fun te => lengthComputable (snd te) = false) skipped ->
  lengthComputable e2 = true ->
  exists r : UploadProgress,
    uploadReports st (pre ++ (t1, e1) :: skipped ++ [(t2, e2)]) =
      (uploadReports st (pre ++ [(t1, e1)]) ++ [r])%list /\
    speed r =
      (if 0 <? t2 - t1
       then Finite (Qc_of_Z (e_loaded e2 - e_loaded e1)
                    / (Qc_of_Z (t2 - t1) / Qc_of_Z 1000))%Qc
       else ofZ 0) /\
    timeRemaining r =
      (if positive (speed r)
       then div (ofZ (e_total e2 - e_loaded e2)) (speed r)
       else ofZ 0) /\
    isFinite (speed r) = true /\
    isFinite (timeRemaining r) = true /\
    (positive (speed r) = false -> timeRemaining r = ofZ 0).
Proof.
  intros H1 Hs H2. rewrite (uploadReports_last_two pre skipped t1 t2 e1 e2 st H1 Hs).
  simpl. unfold onUploadProgress. rewrite H2. cbn [startTime startLoaded].
  rewrite elapsed_positive.
  eexists. split; [reflexivity|]. cbn [speed timeRemaining].
  assert (Hspeed :
    (if 0 <? t2 - t1
     then div (ofZ (e_loaded e2 - e_loaded e1)) (div (ofZ (t2 - t1)) (ofZ 1000))
     else ofZ 0) =
    (if 0 <? t2 - t1
     then Finite (Qc_of_Z (e_loaded e2 - e_loaded e1)
                  / (Qc_of_Z (t2 - t1) / Qc_of_Z 1000))%Qc
     else ofZ 0)).
  { destruct (0 <? t2 - t1) eqn:Hd; [|reflexivity].
    pose proof (elapsed_positive (t2 - t1)) as Hp. rewrite Hd in Hp.
    destruct (div_by_positive (Qc_of_Z (e_loaded e2 - e_loaded e1))
                (div (ofZ (t2 - t1)) (ofZ 1000)) Hp) as (q & Hq & Hdiv).
    - unfold div, ofZ. change (sign (Qc_of_Z 1000)) with Lt. reflexivity.
    - unfold ofZ at 1. rewrite Hdiv. f_equal. f_equal.
      unfold div, ofZ in Hq. change (sign (Qc_of_Z 1000)) with Lt in Hq.
      cbv iota in Hq. congruence. }
  rewrite Hspeed. split; [reflexivity|]. split; [reflexivity|].
  split; [destruct (0 <? t2 - t1); reflexivity|].
  split.
  - destruct (positive _) eqn:Hp; [|reflexivity].
    destruct (0 <? t2 - t1); [|discriminate].
    destruct (div_by_positive (Qc_of_Z (e_total e2 - e_loaded e2)) _ Hp eq_refl)
      as (q & Hq & Hdiv).
    unfold ofZ at 1. rewrite Hdiv. reflexivity.
  - intros ->. reflexivity.
Qed.

End EstimatorFacts.

Section EstimatorExamples.
Import JsNumber Home.

Lemma C5_speed_since_previous_event_witness :
  exists r : UploadProgress,
    uploadReports Samples.uploadStart [Samples.firstEvent; Samples.secondEvent] =
      (uploadReports Samples.uploadStart [Samples.firstEvent] ++ [r])%list /\
    speed r = Finite (Qc_of_Z 250 / (Qc_of_Z 500 / Qc_of_Z 1000))%Qc /\
    isFinite (timeRemaining r) = true.
Proof.
  destruct (C5_speed_since_previous_event Samples.uploadStart [] []
              (fst Samples.firstEvent) (fst Samples.secondEvent)
              (snd Samples.firstEvent) (snd Samples.secondEvent)
              eq_refl (List.Forall_nil _) eq_refl)
    as (r & Hr & Hs & _ & _ & Hf & _).
  exists r. split; [exact Hr|]. split; [exact Hs|exact Hf].
Defined.

(** 250 bytes in half a second: 500 bytes per second, and half a second
    to go. *)
Example second_event_report :
  exists r : UploadProgress,
    snd (onUploadProgress (mkEstimator 1500 500) 2000 (snd Samples.secondEvent)) = Some r /\
    speed r = ofZ 500 /\
    timeRemaining r = Finite (Q2Qc (1 # 2)).
Proof.
  eexists. split; [reflexivity|].
  split; simpl; unfold ofZ; f_equal; apply Qc_is_canon; reflexivity.
Qed.

(** C5 as stated fails: when no byte was sent since the previous event the
    speed is 0, and the time remaining is reported as 0, which is
    finite. *)
Lemma C5_zero_speed_counterexample :
  exists r : UploadProgress,
    snd (onUploadProgress (mkEstimator 2000 750) 2500 (snd Samples.stalledEvent)) = Some r /\
    speed r = ofZ 0 /\
    timeRemaining r = ofZ 0 /\
    isFinite (timeRemaining r) = true.
Proof.
  eexists. split; [reflexivity|]. split; [|split; reflexivity].
  simpl. unfold ofZ. f_equal. apply Qc_is_canon. reflexivity.
Qed.

End EstimatorExamples.

(** ** The hand-off of the result *)
Section HandoffFacts.
Import JS Eff Home.

Ltac page_unfold :=
  unfold save, setItem, navigate, setError, setIsLoading, setUploadProgress,
         setStatusMessage, setDownloadError, cleanup in *;
  st_unfold; simpl in *.

(** The two writes touch the store only. *)
Lemma save_frame (a b : Value) (p : Page) :
  let p' := exec (save a b) p in
  error p' = error p /\ navigation p' = navigation p /\
  isLoading p' = isLoading p /\ Home.downloadError p' = Home.downloadError p.
Proof.
  page_unfold.
  destruct (usage (<["feedCheckResult":=toString a]> (items (storage p)))
              <=? quota (storage p))%nat; simpl; [|auto].
  destruct (usage _ <=? quota (storage p))%nat; simpl; auto.
Qed.

(** When both writes succeed the two keys hold what was written. *)
Lemma save_ok (a b : Value) (p : Page) :
  run (save a b) p = Ok tt ->
  items (storage (exec (save a b) p)) !! "feedCheckResult" = Some (toString a) /\
  items (storage (exec (save a b) p)) !! "feedSource" = Some (toString b).
Proof.
  page_unfold.
  destruct (usage (<["feedCheckResult":=toString a]> (items (storage p)))
              <=? quota (storage p))%nat; simpl; [|discriminate].
  destruct (usage _ <=? quota (storage p))%nat; simpl; [|discriminate].
  intros _. split.
  - rewrite lookup_insert_ne by discriminate. apply lookup_insert_eq.
  - apply lookup_insert_eq.
Qed.

(** Reading a property after [setProp]. *)
Lemma assoc_replaceProp (k k' : string) (v : Value) (ps : list (string * Value)) :
  hasProp k ps = true ->
  assoc k' (replaceProp k v ps) = if String.eqb k' k then v else assoc k' ps.
Proof.
  induction ps as [|[k0 v0] ps IH]; simpl; [discriminate|].
  destruct (String.eqb k k0) eqn:E0; simpl.
  - intros _. apply String.eqb_eq in E0. subst k0.
    destruct (String.eqb k' k); reflexivity.
  - intros H. rewrite (IH H).
    destruct (String.eqb k' k0) eqn:E1; [|reflexivity].
    apply String.eqb_eq in E1. subst k0.
    rewrite String.eqb_sym, E0. reflexivity.
Qed.

Lemma assoc_absent (k : string) (ps : list (string * Value)) :
  hasProp k ps = false -> assoc k ps = Undefined.
Proof.
  induction ps as [|[k0 v0] ps IH]; simpl; [reflexivity|].
  destruct (String.eqb k k0); simpl; [discriminate|exact IH].
Qed.

Lemma assoc_insertProp (k k' : string) (v : Value) (ps : list (string * Value)) :
  hasProp k ps = false ->
  assoc k' (insertProp k v ps) = if String.eqb k' k then v else assoc k' ps.
Proof.
  induction ps as [|[k0 v0] ps IH]; simpl.
  - intros _. destruct (String.eqb k' k); reflexivity.
  - destruct (String.eqb k k0) eqn:E0; simpl; [discriminate|]. intros H.
    destruct (comesBefore k k0); simpl.
    + destruct (String.eqb k' k); reflexivity.
    + rewrite (IH H). destruct (String.eqb k' k0) eqn:E1; [|reflexivity].
      apply String.eqb_eq in E1. subst k0.
      rewrite String.eqb_sym, E0. reflexivity.
Qed.

Lemma assoc_setProp (k k' : string) (v : Value) (ps : list (string * Value)) :
  assoc k' (setProp k v ps) = if String.eqb k' k then v else assoc k' ps.
Proof.
  unfold setProp. destruct (hasProp k ps) eqn:H.
  - apply assoc_replaceProp, H.
  - apply assoc_insertProp, H.
Qed.

(** Reading a property of [{ ...ps, ...props }]: every property of
    [props] is there with its value, and what is not in [props] is as it
    was. *)
Lemma assoc_spread (k : string) (props ps : list (string * Value)) :
  List.NoDup (List.map fst props) ->
  assoc k (spread (Obj props) ps) = if hasProp k props then assoc k props else assoc k ps.
Proof.
  simpl. revert ps. induction props as [|[k0 v0] props IH]; intros ps Hnd; [reflexivity|].
  inversion Hnd as [|? ? Hnot Hnd']; subst. simpl.
  rewrite (IH _ Hnd'), assoc_setProp.
  destruct (String.eqb k k0) eqn:E0; simpl; [|reflexivity].
  apply String.eqb_eq in E0. subst k0.
  assert (Hno : hasProp k props = false).
  { clear -Hnot. induction props as [|[k1 v1] props IH]; simpl in *; [reflexivity|].
    destruct (String.eqb k k1) eqn:E1.
    - apply String.eqb_eq in E1. subst k1. exfalso. apply Hnot. left. reflexivity.
    - simpl. apply IH. intros H. apply Hnot. right. exact H. }
  rewrite Hno. reflexivity.
Qed.

(** C6. When the first write of the result fails with a quota error, the
    hand-off writes the reduced result and the source under the same two
    keys and navigates to the results page with the whole, original result
    in the navigation state. The reduced result of an XML feed has five
    properties and no other: [site_id], [feed_type] (the form's when the
    result has none), [syntax], of [mandatory] the four counts
    [total_offers], [valid_offers], [problems_count] and
    [problems_summary], and [categories]. The reduced result of a delta
    feed keeps every property of the result, and has the form's [feed_type]
    when the result has none. If the reduced write fails as well, the
    hand-off does not navigate: it shows the "result too large" error and
    stops loading. *)
Theorem C6_quota_fallback
    (f : Form) (result minimal : Value) (p : Page) (e : Exn) :
  run (save (stringify result) (stringify (feedSource f))) p = Throw e ->
  isQuotaError e = true ->
  minimalResult f result = Ok minimal ->
  let p1 := exec (save (stringify result) (stringify (feedSource f))) p in
  let p' := finish f result p in
  ((feedType f = xml ->
    minimal =
      Obj [("site_id", getOpt result "site_id");
           ("feed_type", or (getOpt result "feed_type") (Str "xml"));
           ("syntax", getOpt result "syntax");
           ("mandatory",
             if truthy (getOpt result "mandatory") then
               Obj [("total_offers", getOpt (getOpt result "mandatory") "total_offers");
                    ("valid_offers", getOpt (getOpt result "mandatory") "valid_offers");
                    ("problems_count", getOpt (getOpt result "mandatory") "problems_count");
                    ("problems_summary",
                      getOpt (getOpt result "mandatory") "problems_summary")]
             else Undefined);
           ("categories", getOpt result "categories")]) /\
   (feedType f = delta ->
    forall props : list (string * Value),
      result = Obj props ->
      List.NoDup (List.map fst props) ->
      forall k : string,
        getOpt minimal k =
          if hasProp k props then getOpt result k
          else if String.eqb k "feed_type" then Str "delta" else Undefined)) /\
  (run (save (stringify minimal) (stringify (feedSource f))) p1 = Ok tt ->
   items (storage p') !! "feedCheckResult" = Some (toString (stringify minimal)) /\
   items (storage p') !! "feedSource" = Some (toString (stringify (feedSource f))) /\
   navigation p' =
     Some (mkNavigation "/results"
             (Obj [("fullResult", result); ("feedSource", feedSource f)])) /\
   error p' = error p) /\
  (forall e2 : Exn,
     run (save (stringify minimal) (stringify (feedSource f))) p1 = Throw e2 ->
     navigation p' = navigation p /\
     error p' = Some msgTooLarge /\
     isLoading p' = false).
Proof.
  intros H1 Hq Hm. cbv zeta. split.
  { unfold minimalResult in Hm.
    destruct (get result "site_id") as [site_id|] eqn:Hsite; [|discriminate].
    destruct (get result "feed_type") as [feed_type|] eqn:Hft; [|discriminate].
    pose proof (get_Ok_eq _ _ _ Hsite) as Es. pose proof (get_Ok_eq _ _ _ Hft) as Ef.
    subst site_id feed_type.
    split.
    - intros Hx. rewrite Hx in Hm. injection Hm as <-. reflexivity.
    - intros Hd props -> Hnd k. rewrite Hd in Hm. injection Hm as <-.
      cbv beta iota delta [getOpt].
      etransitivity; [exact (assoc_spread k props _ Hnd)|].
      destruct (hasProp k props) eqn:Hk; [reflexivity|].
      simpl. destruct (String.eqb k "site_id") eqn:E1.
      + apply String.eqb_eq in E1. subst k. rewrite (assoc_absent _ _ Hk). reflexivity.
      + destruct (String.eqb k "feed_type") eqn:E2; [|reflexivity].
        apply String.eqb_eq in E2. subst k. rewrite (assoc_absent _ _ Hk). reflexivity. }
  pose proof (save_frame (stringify result) (stringify (feedSource f)) p) as Hf1.
  set (p1 := exec (save (stringify result) (stringify (feedSource f))) p) in *.
  pose proof (save_frame (stringify minimal) (stringify (feedSource f)) p1) as Hf2.
  pose proof (save_ok (stringify minimal) (stringify (feedSource f)) p1) as Hok.
  cbv zeta in Hf1, Hf2.
  destruct Hf1 as (He1 & Hn1 & _). destruct Hf2 as (He2 & Hn2 & _).
  assert (Hfin : finish f result p =
    match save (stringify minimal) (stringify (feedSource f)) p1 with
    | (Ok _, p2) =>
        exec cleanup (exec (navigate "/results" (fullState f result)) p2)
    | (Throw _, p2) =>
        exec cleanup (exec (setError (Some msgTooLarge);; setIsLoading false) p2)
    end).
  { unfold finish, handoff, p1, run, exec in *. st_unfold.
    destruct (save (stringify result) (stringify (feedSource f)) p) as [r0 q0].
    simpl in H1. subst r0. rewrite Hq, Hm. simpl.
    destruct (save (stringify minimal) (stringify (feedSource f)) q0) as [[[]|e2] q2];
      reflexivity. }
  rewrite Hfin. unfold run, exec in *.
  destruct (save (stringify minimal) (stringify (feedSource f)) p1) as [[[]|e2] p2];
    simpl in *.
  - split; [|intros e2 He2'; discriminate].
    intros _. destruct (Hok eq_refl) as [Hk1 Hk2].
    page_unfold. rewrite Hk1, Hk2, He2, He1. auto.
  - split; [intros Hx; discriminate|].
    intros e3 _. page_unfold. rewrite Hn2, Hn1. auto.
Qed.

(** The reduced result exists for every result that is not [null] or
    [undefined] (and [handleSubmit] has read properties of the result
    before the hand-off). *)
Lemma minimalResult_total (f : Form) (result : Value) :
  result <> Null -> result <> Undefined ->
  exists minimal, minimalResult f result = Ok minimal.
Proof.
  intros Hn Hu. unfold minimalResult.
  destruct result; try congruence; simpl; destruct (feedType f); eauto.
Qed.

(** The delta checks let only objects through to the hand-off. *)
Lemma deltaAccepted_object (result : Value) :
  deltaAccepted result = true -> exists props, result = Obj props.
Proof.
  destruct result; simpl; try discriminate. eauto.
Qed.

End HandoffFacts.

Section HandoffExamples.
Import JS Eff Home.

Lemma C6_quota_fallback_witness :
  let fits := finish Samples.urlForm Samples.bigResult (Samples.pageWith 300) in
  let tooLarge := finish Samples.urlForm Samples.bigResult (Samples.pageWith 100) in
  (items (storage fits) !! "feedCheckResult"
     = Some (toString (stringify Samples.reducedResult)) /\
   navigation fits =
     Some (mkNavigation "/results"
             (Obj [("fullResult", Samples.bigResult);
                   ("feedSource", feedSource Samples.urlForm)]))) /\
  (navigation tooLarge = None /\ error tooLarge = Some msgTooLarge).
Proof.
  destruct (C6_quota_fallback Samples.urlForm Samples.bigResult Samples.reducedResult
              (Samples.pageWith 300) Samples.quotaExceeded
              ltac:(vm_compute; reflexivity) eq_refl eq_refl) as (_ & Hfits & _).
  destruct (C6_quota_fallback Samples.urlForm Samples.bigResult Samples.reducedResult
              (Samples.pageWith 100) Samples.quotaExceeded
              ltac:(vm_compute; reflexivity) eq_refl eq_refl) as (_ & _ & Hlarge).
  destruct (Hfits ltac:(vm_compute; reflexivity)) as (Hk & _ & Hn & _).
  destruct (Hlarge Samples.quotaExceeded ltac:(vm_compute; reflexivity)) as (Hn' & He' & _).
  split; split; assumption.
Defined.

(** The reduced result of a delta feed: nothing is left out, the form's
    [feed_type] is added, and a key that is an array index is listed first,
    as in the text [JSON.stringify] makes of the object. *)
Example delta_reduced_result :
  let form := mkForm 12345 "http://x/delta.csv" None url delta ";" false in
  let result :=
    Obj [("7", Num 1);
         ("site_id", Num 12345);
         ("parsing", Obj [("rows", Arr [Num 1; Num 2; Num 3])]);
         ("summary", Obj [("total", Num 3)])] in
  minimalResult form result =
    Ok (Obj [("7", Num 1);
             ("site_id", Num 12345);
             ("feed_type", Str "delta");
             ("parsing", Obj [("rows", Arr [Num 1; Num 2; Num 3])]);
             ("summary", Obj [("total", Num 3)])]).
Proof. reflexivity. Qed.

End HandoffExamples.

(** * Further properties of the endpoints *)
Section ApiMore.
Import JS Eff Http Api.

Ltac api_unfold :=
  unfold notOkBlock, checkFeedNotOk in *;
  unfold text, json, cloneText, blob, bodyText, parse in *;
  st_unfold; simpl in *.

(** X1. When [fetch] itself fails with Chromium's "Failed to fetch", each of
    the six methods that wrap their work in [try] reports its own fixed
    "could not connect" message, and any other exception of [fetch] passes
    through unchanged; [exportToExcel], which has no [try], lets every
    exception through as it is. *)
Theorem fetch_failure_reported (e : Exn) :
  let connect (msg : string) := if isFailedToFetch e then Error msg else e in
  checkFeed (Throw e)
    = Throw (connect "Не удалось подключиться к серверу. Проверьте, что бэкенд запущен и доступен.") /\
  checkFeedAsync (Throw e)
    = Throw (connect "Не удалось подключиться к серверу. Проверьте, что бэкенд запущен.") /\
  getJobStatus (Throw e)
    = Throw (connect "Не удалось подключиться к серверу. Проверьте, что бэкенд запущен.") /\
  checkSyntax (Throw e) = Throw (connect "Не удалось подключиться к серверу") /\
  getProblematicOffers (Throw e) = Throw (connect "Не удалось подключиться к серверу") /\
  deleteJob (Throw e) = Throw (connect "Не удалось подключиться к серверу") /\
  exportToExcel (Throw e) = Throw e.
Proof.
  unfold checkFeed, checkFeedAsync, getJobStatus, checkSyntax, getProblematicOffers,
    deleteJob, exportToExcel.
  api_unfold. destruct (isFailedToFetch e); repeat split; reflexivity.
Qed.

(** The error that an answer with a JSON content type and a status that is
    not OK ends in. *)
Lemma notOkBlock_outcome (A : Type) (r : Response) (fallback : string) :
  run (@notOkBlock A r fallback) false =
    Throw (match body r with
           | Some _ =>
               TypeError "Failed to execute 'clone' on 'Response': Response body is already used"
           | None => Error (statusLine r)
           end).
Proof.
  api_unfold. destruct (body r) as [b|]; simpl; [|reflexivity].
  destruct (parsed b) as [v|m]; simpl; [|reflexivity].
  destruct (get v "detail"); reflexivity.
Qed.

(** X2. On an answer with a JSON content type and a status that is not OK,
    [checkSyntax], [getProblematicOffers], [checkFeedAsync] and
    [getJobStatus] (for a status other than 404) never report the [detail]
    the server sent: the error built from it is thrown inside the [try]
    whose [catch] replaces it, and what the caller gets is the [TypeError] of
    cloning a response whose body was read, or, for a null body, the
    "Ошибка <status>" message. *)
Theorem server_detail_never_reported (r : Response) :
  isJson (contentType r) = true ->
  ok r = false ->
  let thrown :=
    Throw (match body r with
           | Some _ =>
               TypeError "Failed to execute 'clone' on 'Response': Response body is already used"
           | None => Error (statusLine r)
           end) in
  checkSyntax (Ok r) = thrown /\
  getProblematicOffers (Ok r) = thrown /\
  checkFeedAsync (Ok r) = thrown /\
  (status r <> 404 -> getJobStatus (Ok r) = thrown) /\
  (status r = 404 -> getJobStatus (Ok r) = Throw (Error "Задача не найдена")).
Proof.
  intros Hj Ho. cbv zeta.
  pose proof (notOkBlock_outcome Value r) as Hn. unfold run in Hn.
  unfold checkSyntax, getProblematicOffers, checkFeedAsync, getJobStatus.
  unfold run, tryCatch, mbind, ST_bind, andThen, lift. rewrite Hj, Ho. simpl.
  repeat split.
  - destruct (notOkBlock r "Ошибка при проверке синтаксиса" false) as [o s'] eqn:E.
    specialize (Hn "Ошибка при проверке синтаксиса"). rewrite E in Hn. simpl in Hn.
    subst o. destruct (body r); reflexivity.
  - destruct (notOkBlock r "Ошибка при получении проблемных товаров" false) as [o s'] eqn:E.
    specialize (Hn "Ошибка при получении проблемных товаров"). rewrite E in Hn.
    simpl in Hn. subst o. destruct (body r); reflexivity.
  - destruct (notOkBlock r "Ошибка при создании задачи" false) as [o s'] eqn:E.
    specialize (Hn "Ошибка при создании задачи"). rewrite E in Hn. simpl in Hn.
    subst o. destruct (body r); reflexivity.
  - intros H404. apply Z.eqb_neq in H404. rewrite H404.
    destruct (notOkBlock r "Ошибка при получении статуса задачи" false) as [o s'] eqn:E.
    specialize (Hn "Ошибка при получении статуса задачи"). rewrite E in Hn.
    simpl in Hn. subst o. destruct (body r); reflexivity.
  - intros H404. apply Z.eqb_eq in H404. rewrite H404. reflexivity.
Qed.

(** X3. A body that parses as JSON is returned as the result whenever the
    content type is not JSON and the body does not look like HTML: the four
    methods that test the content type first do not look at the status at
    all, so an error answer sent as text comes back as if it were the
    result. [checkFeed] tests the status first and returns the body only
    for an OK answer. *)
Theorem untyped_json_body_returned (r : Response) (v : Value) :
  isJson (contentType r) = false ->
  looksLikeHtml (raw (bodyText r)) = false ->
  parsed (bodyText r) = Json v ->
  checkSyntax (Ok r) = Ok v /\
  getProblematicOffers (Ok r) = Ok v /\
  checkFeedAsync (Ok r) = Ok v /\
  getJobStatus (Ok r) = Ok v /\
  (ok r = true -> checkFeed (Ok r) = Ok v).
Proof.
  intros Hj Hh Hp.
  unfold checkSyntax, getProblematicOffers, checkFeedAsync, getJobStatus, checkFeed.
  api_unfold. rewrite Hj. simpl.
  destruct (body r) as [b|]; simpl in *; [|discriminate].
  rewrite Hh, Hp. simpl. do 4 (split; [reflexivity|]).
  intros ->. simpl. rewrite Hh, Hp. reflexivity.
Qed.

(** X4. [checkFeed] never returns a result for an answer that is not OK. *)
Theorem checkFeed_not_ok_throws (r : Response) :
  ok r = false -> exists e : Exn, checkFeed (Ok r) = Throw e.
Proof.
  intros Ho. unfold checkFeed. api_unfold. rewrite Ho. simpl.
  destruct (isJson (contentType r)); simpl.
  - destruct (body r) as [b|]; simpl.
    + destruct (parsed b) as [v|m]; simpl.
      * destruct (get v "detail") as [d|e]; simpl.
        -- destruct (isDownloadDetail d); simpl; eauto.
        -- destruct (isFailedToFetch e); eauto.
      * destruct (JsString.isEmpty m); simpl; eauto.
    + eauto.
  - destruct (body r) as [b|]; simpl.
    + destruct (looksLikeHtmlCI (raw b)); simpl; eauto.
    + eauto.
Qed.

(** X5. What [checkFeed] makes of the [detail] of a JSON error answer, and what
    [handleSubmit] then shows: the download card with the whole [detail]
    when [detail] has [error_type] ["DOWNLOAD_ERROR"] or an [error_code],
    and otherwise a plain message, which is [detail] itself when it is a
    string. *)
Theorem checkFeed_error_detail (r : Response) (v detail : Value) (page : Home.Page) :
  ok r = false ->
  isJson (contentType r) = true ->
  parsed (bodyText r) = Json v ->
  get v "detail" = Ok detail ->
  exists e : Exn,
    checkFeed (Ok r) = Throw e /\
    (isDownloadDetail detail = true ->
     JS.downloadError e = detail /\
     Home.downloadError (exec (Home.showError e) page) = detail /\
     Home.error (exec (Home.showError e) page) = None) /\
    (isDownloadDetail detail = false ->
     JS.downloadError e = Undefined /\
     message e = messageOf (plainErrorMessage detail) /\
     Home.error (exec (Home.showError e) page) = Some (message e) /\
     Home.downloadError (exec (Home.showError e) page) = Null) /\
    (forall text : string, detail = Str text -> message e = text).
Proof.
  intros Ho Hj Hp Hd.
  assert (Hb : exists b, body r = Some b /\ parsed b = Json v).
  { unfold bodyText in Hp. destruct (body r) as [b|]; [eauto|discriminate]. }
  destruct Hb as (b & Hb & Hpb).
  assert (He : checkFeed (Ok r) =
               Throw (if isDownloadDetail detail then downloadErrorOf detail
                      else ErrorOf (plainErrorMessage detail))).
  { unfold checkFeed. api_unfold. rewrite Ho, Hj. simpl. rewrite Hb. simpl.
    rewrite Hpb. simpl. rewrite Hd. simpl.
    destruct (isDownloadDetail detail); reflexivity. }
  eexists. split; [exact He|].
  split; [|split].
  - intros Hdl. rewrite Hdl.
    assert (Ht : truthy detail = true).
    { unfold isDownloadDetail in Hdl. apply andb_true_iff in Hdl. tauto. }
    unfold Home.showError, downloadErrorOf. simpl. rewrite Ht.
    unfold Home.setDownloadError, Home.setError. st_unfold. simpl. auto.
  - intros Hdl. rewrite Hdl. unfold Home.showError. simpl.
    unfold Home.setDownloadError, Home.setError. st_unfold. simpl. auto.
  - intros text ->. unfold isDownloadDetail. simpl. rewrite andb_false_r. reflexivity.
Qed.

End ApiMore.

(** * Further properties of the event stream *)
Section StreamMore.
Import JS Eff Stream StreamNotions.

(** X6. A failure of the connection itself, while it is open, closes the
    [EventSource] and rejects with the connection error; there is no
    reconnection, and what arrives later is not looked at. *)
Theorem transport_error_rejects (pre post : list Incoming) :
  arrivesAfter pre ->
  let s := checkFeedWithProgress (pre ++ ConnectionError :: post) in
  closed s = true /\
  settled s = Some (Throw (Error msgConnection)) /\
  calls s = calls (checkFeedWithProgress pre).
Proof.
  intros Hpre. destruct (arrives_open pre Hpre) as [Hc Hs].
  unfold checkFeedWithProgress in *. cbv zeta.
  rewrite receive_app, receive_cons.
  replace (deliver (receive initial pre) ConnectionError)
    with (exec onerror (receive initial pre))
    by (unfold deliver; rewrite Hc; reflexivity).
  assert (He : exec onerror (receive initial pre) =
               mkState true (Some (Throw (Error msgConnection)))
                 (calls (receive initial pre))).
  { unfold onerror, close, reject, settle. st_unfold. simpl. rewrite Hs. reflexivity. }
  rewrite He, receive_closed by reflexivity. simpl. auto.
Qed.

(** X7. Once the promise is settled, nothing that is delivered changes the
    outcome or calls a callback again. *)
Theorem settled_is_final (l1 l2 : list Incoming) :
  settled (checkFeedWithProgress l1) <> None ->
  checkFeedWithProgress (l1 ++ l2) = checkFeedWithProgress l1.
Proof.
  intros Hs. unfold checkFeedWithProgress in *. rewrite receive_app.
  apply receive_closed.
  destruct (closed (receive initial l1)) eqn:Hc; [reflexivity|].
  exfalso. apply Hs. apply pending_while_open; [reflexivity|exact Hc].
Qed.

(** X8. An event whose JSON has no [type] that the handler knows (so also a
    number, a string, a boolean or an array) is passed over without a
    trace: nothing is called, the connection stays as it is and the promise
    too. The JSON [null], on which reading [type] throws, ends the check
    like an unparseable event. *)
Theorem unknown_event_ignored (event : Text) (data : Value) (s : State) :
  parsed event = Json data ->
  (forall type : Value,
     get data "type" = Ok type ->
     (forall t, In t ["start"; "downloading"; "progress"; "processing"; "complete"; "error"] ->
                type <> Str t) ->
     exec (onmessage event) s = s) /\
  (data = Null ->
   exec (onmessage event) s =
     mkState true
       (match settled s with
        | None => Some (Throw (Error msgProcessing))
        | Some o => Some o
        end)
       (calls s)).
Proof.
  intros Hp. split.
  - intros type Hty Hno. unfold onmessage, parse. rewrite Hp. st_unfold. rewrite Hty.
    assert (Hk : forall t,
               In t ["start"; "downloading"; "progress"; "processing"; "complete"; "error"] ->
               isStr t type = false).
    { intros t Hin. destruct (isStr t type) eqn:Hi; [|reflexivity].
      apply isStr_true in Hi. exfalso. exact (Hno t Hin Hi). }
    rewrite !Hk by (simpl; tauto). destruct s; reflexivity.
  - intros ->. unfold onmessage, parse. rewrite Hp. st_unfold. simpl.
    unfold close, reject, settle. st_unfold. simpl.
    destruct s as [c [o|] l]; reflexivity.
Qed.

(** X9. Each progress event calls exactly one callback, in the order of
    arrival, and leaves the connection open and the promise pending. *)
Theorem one_callback_per_progress_event (l : list (Text * Value * string)) :
  Forall (fun x => parsed (fst (fst x)) = Json (snd (fst x)) /\
                   get (snd (fst x)) "type" = Ok (Str (snd x)) /\
                   In (snd x) ["start"; "downloading"; "progress"; "processing"]) l ->
  let s := checkFeedWithProgress (List.map (fun x => Message (fst (fst x))) l) in
  calls s = List.map (fun x => callbackOf (snd x) (snd (fst x))) l /\
  closed s = false /\
  settled s = None.
Proof.
  intros Hl. unfold checkFeedWithProgress. cbv zeta.
  assert (Hgen : forall s0, closed s0 = false ->
            receive s0 (List.map (fun x => Message (fst (fst x))) l) =
            mkState false (settled s0)
              (calls s0 ++ List.map (fun x => callbackOf (snd x) (snd (fst x))) l)).
  { induction Hl as [|[[event data] type] l (Hp & Hty & Hin) _ IH]; intros s0 Hc.
    - simpl. rewrite app_nil_r. destruct s0; simpl in *; congruence.
    - simpl in *. rewrite (deliver_open _ _ Hc).
      rewrite (onmessage_progress _ _ _ _ Hp Hty Hin), IH by exact Hc.
      simpl. rewrite <- app_assoc. reflexivity. }
  rewrite (Hgen initial eq_refl). simpl. auto.
Qed.

End StreamMore.

(** * Further properties of the poller *)
Section PollerMore.
Import JS Eff Http Poller PollerNotions PollerCount.

Variable baseUrl : string.
Variable jobId : Value.

(** A poll that sees a status other than the three final ones. *)
Lemma tick_other (statusFetched finalFetched : Result Response)
    (status st : Value) (s : State) :
  Api.getJobStatus statusFetched = Ok status ->
  get status "status" = Ok st ->
  isStr "completed" st = false ->
  isStr "completed_with_errors" st = false ->
  isStr "failed" st = false ->
  exec (tick baseUrl jobId statusFetched finalFetched) s =
  mkState (timerActive s) (settled s)
    (trace s ++ [Request (statusUrl baseUrl jobId);
                 ProgressCall (getOpt status "progress") (getOpt status "message")])
    false.
Proof.
  intros Hs Hst H1 H2 H3. unfold tick.
  pose proof (get_Ok_getOpt _ _ _ Hst) as Hget.
  st_unfold. unfold request at 1. st_unfold. rewrite Hs, !Hget.
  unfold onProgress at 1, emit at 1. st_unfold. simpl.
  rewrite <- (get_Ok_eq _ _ _ Hst), H1, H2, H3. simpl.
  rewrite <- !app_assoc. reflexivity.
Qed.

(** A poll whose status request fails, or whose status cannot be read. *)
Lemma tick_throw (statusFetched finalFetched : Result Response) (e : Exn) (s : State) :
  (Api.getJobStatus statusFetched = Throw e \/
   exists status, Api.getJobStatus statusFetched = Ok status /\
                  get status "progress" = Throw e) ->
  exec (tick baseUrl jobId statusFetched finalFetched) s =
  mkState false
    (match settled s with None => Some (Throw e) | Some o => Some o end)
    (trace s ++ [Request (statusUrl baseUrl jobId); ClearInterval])
    false.
Proof.
  intros [Hs | (status & Hs & Hg)]; unfold tick; st_unfold;
    unfold request at 1; st_unfold; rewrite Hs; simpl; rewrite ?Hg; simpl;
    unfold clearInterval, reject, settle; st_unfold; simpl;
    rewrite <- !app_assoc; simpl; destruct (settled s); reflexivity.
Qed.

(** X10. While the job is pending or processing (or in any state the poller
    does not know) a poll reports the progress and nothing else: the timer
    keeps running, the promise stays pending and no further request is
    made. *)
Theorem unfinished_job_keeps_polling
    (statusFetched finalFetched : Result Response) (status st : Value) (s : State) :
  timerActive s = true ->
  Api.getJobStatus statusFetched = Ok status ->
  get status "status" = Ok st ->
  st <> Str "completed" -> st <> Str "completed_with_errors" -> st <> Str "failed" ->
  let s' := fire baseUrl jobId s (statusFetched, finalFetched) in
  timerActive s' = true /\
  settled s' = settled s /\
  trace s' =
    (trace s ++ [Request (statusUrl baseUrl jobId);
                 ProgressCall (getOpt status "progress") (getOpt status "message")])%list.
Proof.
  intros Ht Hs Hst H1 H2 H3. cbv zeta. rewrite (fire_active _ _ _ _ Ht). simpl fst; simpl snd.
  rewrite (tick_other _ _ _ _ _ Hs Hst).
  - simpl. auto.
  - destruct (isStr "completed" st) eqn:E; [apply isStr_true in E; contradiction|reflexivity].
  - destruct (isStr "completed_with_errors" st) eqn:E;
      [apply isStr_true in E; contradiction|reflexivity].
  - destruct (isStr "failed" st) eqn:E; [apply isStr_true in E; contradiction|reflexivity].
Qed.

(** X11. One failed status request ends the wait: the timer is stopped and the
    promise is rejected with the error of [getJobStatus]; the poller does
    not try again. A network failure is thus reported with the "could not
    connect" message. *)
Theorem failed_poll_ends_the_wait
    (statusFetched finalFetched : Result Response) (e : Exn) (s : State) :
  timerActive s = true ->
  settled s = None ->
  Api.getJobStatus statusFetched = Throw e ->
  let s' := fire baseUrl jobId s (statusFetched, finalFetched) in
  timerActive s' = false /\
  settled s' = Some (Throw e) /\
  trace s' = (trace s ++ [Request (statusUrl baseUrl jobId); ClearInterval])%list /\
  (forall e0, statusFetched = Throw e0 -> isFailedToFetch e0 = true ->
     e = Error "Не удалось подключиться к серверу. Проверьте, что бэкенд запущен.").
Proof.
  intros Ht Hp Hs. cbv zeta. rewrite (fire_active _ _ _ _ Ht). simpl fst; simpl snd.
  rewrite (tick_throw _ _ e _ (or_introl Hs)). simpl. rewrite Hp.
  repeat split. intros e0 -> Hf.
  unfold Api.getJobStatus in Hs. st_unfold. simpl in Hs. rewrite Hf in Hs.
  simpl in Hs. congruence.
Qed.

Lemma append_length (a b : string) :
  String.length (a +:+ b) = (String.length a + String.length b)%nat.
Proof. induction a as [|c a IH]; simpl; [reflexivity|]. f_equal. exact IH. Qed.

(** The two addresses the poller asks differ. *)
Lemma status_is_not_result :
  String.eqb (statusUrl baseUrl jobId) (resultUrl baseUrl jobId) = false.
Proof.
  apply String.eqb_neq. intros H. apply (f_equal String.length) in H.
  unfold statusUrl, resultUrl in H. rewrite !append_length in H. simpl in H. lia.
Qed.

Lemma resultRequests_app (t1 t2 : list Effect) :
  resultRequests baseUrl jobId (t1 ++ t2) =
  (resultRequests baseUrl jobId t1 + resultRequests baseUrl jobId t2)%nat.
Proof. unfold resultRequests. rewrite List.filter_app, List.length_app. reflexivity. Qed.

End PollerMore.

(** * The runs of the poller, as they overlap *)
Section OverlapMore.
Import JS Eff Http Poller PollerNotions PollerCount Overlap.

Variable baseUrl : string.
Variable jobId : Value.

Ltac run_unfold :=
  unfold afterStatus, afterResult, resultBody, resultCatch, request, onProgress, emit,
         clearInterval, reject, resolve, settle,
         text, json, cloneText, bodyText, parse in *;
  st_unfold; simpl in *.


(** The end of a run that waited for the result: the promise is settled
    with [resultOutcome], unless it was settled before. *)
Lemma afterResult_effect (finalFetched : Result Response) (p : Poller.State) :
  let p' := exec (afterResult finalFetched) p in
  timerActive p' = timerActive p /\
  trace p' = trace p /\
  settled p' = match settled p with
               | None => Some (resultOutcome finalFetched)
               | Some o => Some o
               end.
Proof.
  unfold resultOutcome. cbv zeta.
  destruct finalFetched as [r|e].
  2: { run_unfold. destruct (isFailedToFetch e); run_unfold;
       destruct (settled p); auto. }
  run_unfold.
  destruct (isJson (contentType r)); simpl.
  - destruct (ok r); simpl.
    + destruct (body r) as [b|]; simpl.
      * destruct (parsed b) as [v|m]; simpl.
        -- destruct (get v "result") as [x|e]; simpl.
           ++ destruct (truthy x); simpl; destruct (settled p); auto.
           ++ destruct (isFailedToFetch e); simpl; destruct (settled p); auto.
        -- destruct (settled p); auto.
      * destruct (settled p); auto.
    + destruct (body r) as [b|]; simpl; destruct (settled p); auto.
  - destruct (body r) as [b|]; simpl.
    + destruct (looksLikeHtml (raw b)); simpl.
      * destruct (settled p); auto.
      * destruct (parsed b) as [v|m]; simpl.
        -- destruct (get v "result") as [x|e]; simpl.
           ++ destruct (truthy x); simpl; destruct (settled p); auto.
           ++ destruct (settled p); auto.
        -- destruct (settled p); auto.
    + destruct (settled p); auto.
Qed.




(** The part of a run after the status answer: it asks for the result and
    stops the timer, or it stops the timer and leaves the promise settled,
    or it leaves timer and promise as they are.  A settled promise stays as
    it is. *)
Lemma afterStatus_step (statusFetched : Result Response) (p : Poller.State) :
  exists (b : bool) (p' : Poller.State),
    afterStatus baseUrl jobId statusFetched p = (Ok b, p') /\
    (forall o, settled p = Some o -> settled p' = Some o) /\
    ((b = true /\ timerActive p' = false /\ settled p' = settled p /\
      resultRequests baseUrl jobId (trace p')
        = S (resultRequests baseUrl jobId (trace p))) \/
     (b = false /\ timerActive p' = false /\ settled p' <> None /\
      resultRequests baseUrl jobId (trace p') = resultRequests baseUrl jobId (trace p)) \/
     (b = false /\ timerActive p' = timerActive p /\ settled p' = settled p /\
      resultRequests baseUrl jobId (trace p') = resultRequests baseUrl jobId (trace p))).
Proof.
  assert (Hthrow : forall (e : Exn) (t : list Effect),
            resultRequests baseUrl jobId t = resultRequests baseUrl jobId (trace p) ->
            exists (b : bool) (p' : Poller.State),
              (Ok false,
               Poller.mkState false
                 (match settled p with None => Some (Throw e) | Some o => Some o end)
                 (t ++ [ClearInterval]) (finalBodyUsed p)) = (Ok b, p') /\
              (forall o, settled p = Some o -> settled p' = Some o) /\
              ((b = true /\ timerActive p' = false /\ settled p' = settled p /\
                resultRequests baseUrl jobId (trace p')
                  = S (resultRequests baseUrl jobId (trace p))) \/
               (b = false /\ timerActive p' = false /\ settled p' <> None /\
                resultRequests baseUrl jobId (trace p')
                  = resultRequests baseUrl jobId (trace p)) \/
               (b = false /\ timerActive p' = timerActive p /\ settled p' = settled p /\
                resultRequests baseUrl jobId (trace p')
                  = resultRequests baseUrl jobId (trace p)))).
  { intros e t Ht. eexists. eexists. split; [reflexivity|]. simpl. split.
    - intros o ->. reflexivity.
    - right. left. split; [reflexivity|]. split; [reflexivity|]. split.
      + destruct (settled p); discriminate.
      + rewrite resultRequests_app, Ht. unfold resultRequests at 2. simpl. lia. }
  assert (Hprog : forall a b,
            resultRequests baseUrl jobId (trace p ++ [ProgressCall a b])
            = resultRequests baseUrl jobId (trace p)).
  { intros. rewrite resultRequests_app. unfold resultRequests at 2. simpl. lia. }
  unfold afterStatus, request, onProgress, emit, clearInterval, reject, settle.
  st_unfold. simpl.
  destruct (Api.getJobStatus statusFetched) as [status|e];
    [|destruct (settled p); apply (Hthrow e); reflexivity].
  destruct (get status "progress") as [progress|e];
    [|destruct (settled p); apply (Hthrow e); reflexivity].
  destruct (get status "message") as [message|e];
    [|destruct (settled p); apply (Hthrow e); reflexivity].
  destruct (get status "status") as [st|e];
    [|destruct (settled p); apply (Hthrow e); apply Hprog].
  destruct (isStr "completed" st || isStr "completed_with_errors" st).
  - eexists. eexists. split; [reflexivity|]. simpl. split; [auto|].
    left. split; [reflexivity|]. split; [reflexivity|]. split; [reflexivity|].
    rewrite !resultRequests_app. unfold resultRequests at 2 3 4 5. simpl.
    rewrite String.eqb_refl. simpl. lia.
  - destruct (isStr "failed" st).
    + destruct (get status "error") as [error|e].
      * simpl. rewrite rejectFailed_failureOf. unfold reject, settle. st_unfold. simpl.
        destruct (settled p); apply (Hthrow (failureOf error)); apply Hprog.
      * simpl. destruct (settled p) eqn:Hsp; simpl;
          (eexists; eexists; split; [reflexivity|]; simpl; split;
           [intros o Ho; congruence|];
           right; left; split; [reflexivity|]; split; [reflexivity|];
           split; [discriminate|];
           rewrite !resultRequests_app; unfold resultRequests at 2 3 4; simpl; lia).
    + eexists. eexists. split; [reflexivity|]. simpl. split; [auto|].
      right. right. split; [reflexivity|]. split; [reflexivity|]. split; [reflexivity|].
      apply Hprog.
Qed.



Lemma past_insert (l : list Stage) (i : nat) (a b : Stage) :
  l !! i = Some a ->
  (List.length (List.filter past (<[i := b]> l)) + (if past a then 1 else 0)
   = List.length (List.filter past l) + (if past b then 1 else 0))%nat.
Proof.
  revert i. induction l as [|x l IH]; intros [|i] H; simpl in *; try discriminate.
  - injection H as ->. destruct (past a), (past b); simpl; lia.
  - specialize (IH i H). destruct (past x); simpl; lia.
Qed.

Lemma past_length (l : list Stage) :
  (List.length (List.filter past l) <= List.length l)%nat.
Proof. induction l as [|x l IH]; simpl; [lia|]. destruct (past x); simpl; lia. Qed.

(** What every event keeps: the promise is settled only after the timer
    was stopped; a run waits for the result only after the timer was
    stopped; once the timer is stopped the promise is settled or a run
    waits for the result; and the result was requested at most once for
    each run that is past its status request. *)
Lemma step_keeps (c : nat) (s : State) (e : Event) :
  (settled (poller s) <> None -> timerActive (poller s) = false) /\
  ((exists i, runs s !! i = Some AwaitingResult) -> timerActive (poller s) = false) /\
  (timerActive (poller s) = false ->
   settled (poller s) <> None \/ exists i, runs s !! i = Some AwaitingResult) /\
  (resultRequests baseUrl jobId (trace (poller s))
   <= c + List.length (List.filter past (runs s)))%nat ->
  let s' := step baseUrl jobId s e in
  (settled (poller s') <> None -> timerActive (poller s') = false) /\
  ((exists i, runs s' !! i = Some AwaitingResult) -> timerActive (poller s') = false) /\
  (timerActive (poller s') = false ->
   settled (poller s') <> None \/ exists i, runs s' !! i = Some AwaitingResult) /\
  (resultRequests baseUrl jobId (trace (poller s'))
   <= c + List.length (List.filter past (runs s')))%nat.
Proof.
  intros (I1 & I3 & I2 & K). cbv zeta. destruct e as [|i sf|i ff]; simpl.
  - destruct (timerActive (poller s)) eqn:Ht; [|auto].
    unfold request. st_unfold. simpl. rewrite Ht.
    split; [intros H; specialize (I1 H); discriminate|].
    split.
    { intros [i Hi]. apply I3. exists i.
      apply lookup_app_Some in Hi. destruct Hi as [Hi|[_ Hi]]; [exact Hi|].
      destruct (i - length (runs s))%nat; simpl in Hi; discriminate. }
    split; [discriminate|].
    rewrite resultRequests_app, List.filter_app, List.length_app.
    unfold resultRequests at 2. simpl. rewrite status_is_not_result. simpl. lia.
  - destruct (runs s !! i) as [[| |]|] eqn:Hi; auto.
    destruct (afterStatus_step sf (poller s)) as (b & p' & Hp & _ & Hc).
    rewrite Hp.
    assert (Hlt : (i < length (runs s))%nat) by (eapply lookup_lt_Some; exact Hi).
    destruct Hc as [(-> & Ht & Hs & Hr) | [(-> & Ht & Hs & Hr) | (-> & Ht & Hs & Hr)]];
      simpl.
    + pose proof (past_insert _ _ _ AwaitingResult Hi) as Hn. simpl in Hn.
      split; [auto|]. split; [auto|]. split.
      * intros _. right. exists i. apply list_lookup_insert_eq. exact Hlt.
      * rewrite Hr. lia.
    + pose proof (past_insert _ _ _ Ended Hi) as Hn. simpl in Hn.
      split; [auto|]. split; [auto|]. split; [auto|]. rewrite Hr. lia.
    + pose proof (past_insert _ _ _ Ended Hi) as Hn. simpl in Hn.
      rewrite Ht, Hs, Hr.
      split; [exact I1|]. split.
      * intros [j Hj]. apply I3. exists j.
        destruct (Nat.eq_dec i j) as [->|Hne].
        -- rewrite list_lookup_insert_eq in Hj by exact Hlt. discriminate.
        -- rewrite list_lookup_insert_ne in Hj by exact Hne. exact Hj.
      * split; [|lia].
        intros Hf. destruct (I2 Hf) as [H|[j Hj]]; [left; exact H|].
        right. exists j. rewrite list_lookup_insert_ne; [exact Hj|].
        intros ->. rewrite Hi in Hj. discriminate.
  - destruct (runs s !! i) as [[| |]|] eqn:Hi; auto.
    destruct (afterResult_effect ff (poller s)) as (Ht & _ & Hs). cbv zeta in Ht, Hs.
    pose proof (past_insert _ _ _ Ended Hi) as Hn. simpl in Hn.
    assert (Hoff : timerActive (poller s) = false) by (apply I3; eauto).
    destruct (afterResult_effect ff (poller s)) as (_ & Htr & _). cbv zeta in Htr.
    simpl. rewrite Ht, Htr, Hs.
    split; [auto|]. split; [auto|]. split.
    + intros _. left. destruct (settled (poller s)); discriminate.
    + lia.
Qed.

(** An outcome, once there, is not changed by any event. *)
Lemma step_settled (s : State) (e : Event) (o : Result Value) :
  settled (poller s) = Some o -> settled (poller (step baseUrl jobId s e)) = Some o.
Proof.
  intros Ho. destruct e as [|i sf|i ff]; simpl.
  - destruct (timerActive (poller s)); [|exact Ho]. exact Ho.
  - destruct (runs s !! i) as [[| |]|]; try exact Ho.
    destruct (afterStatus_step sf (poller s)) as (b & p' & Hp & Hk & _).
    rewrite Hp. destruct b; simpl; apply Hk, Ho.
  - destruct (runs s !! i) as [[| |]|]; try exact Ho.
    destruct (afterResult_effect ff (poller s)) as (_ & _ & Hs). cbv zeta in Hs.
    simpl. rewrite Hs, Ho. reflexivity.
Qed.

(** X12. Over any order of timer ticks and answers, with runs of the
    callback that overlap, from a running timer and a pending promise: the
    promise is settled only after the timer was stopped; once the timer is
    stopped the promise is settled or a run still waits for the result it
    asked for, so the poller never stops without an outcome on its way; an
    outcome that is there is not changed by what comes later; and the
    result is requested at most once by each run, hence no more often than
    runs were started (and not at most once in all, see
    [overlapping_runs_ask_twice]). *)
Theorem overlapping_runs_keep_order (l l' : list Event) (p0 : Poller.State) :
  timerActive p0 = true ->
  settled p0 = None ->
  let s := run baseUrl jobId (mkState p0 []) l in
  (settled (poller s) <> None -> timerActive (poller s) = false) /\
  (timerActive (poller s) = false ->
   settled (poller s) <> None \/ exists i, runs s !! i = Some AwaitingResult) /\
  (forall o, settled (poller s) = Some o ->
             settled (poller (run baseUrl jobId s l')) = Some o) /\
  (resultRequests baseUrl jobId (trace (poller s))
   <= resultRequests baseUrl jobId (trace p0) + List.length (runs s))%nat.
Proof.
  intros Ht Hp. cbv zeta.
  assert (Hinv : forall (evs : list Event) (s : State),
            (settled (poller s) <> None -> timerActive (poller s) = false) /\
            ((exists i, runs s !! i = Some AwaitingResult) ->
             timerActive (poller s) = false) /\
            (timerActive (poller s) = false ->
             settled (poller s) <> None \/ exists i, runs s !! i = Some AwaitingResult) /\
            (resultRequests baseUrl jobId (trace (poller s))
             <= resultRequests baseUrl jobId (trace p0)
                + List.length (List.filter past (runs s)))%nat ->
            let s' := run baseUrl jobId s evs in
            (settled (poller s') <> None -> timerActive (poller s') = false) /\
            ((exists i, runs s' !! i = Some AwaitingResult) ->
             timerActive (poller s') = false) /\
            (timerActive (poller s') = false ->
             settled (poller s') <> None \/ exists i, runs s' !! i = Some AwaitingResult) /\
            (resultRequests baseUrl jobId (trace (poller s'))
             <= resultRequests baseUrl jobId (trace p0)
                + List.length (List.filter past (runs s')))%nat).
  { induction evs as [|e evs IH]; intros s H; [exact H|].
    apply (IH (step baseUrl jobId s e)). apply step_keeps. exact H. }
  assert (Hfinal : forall (evs : list Event) (s : State) (o : Result Value),
            settled (poller s) = Some o ->
            settled (poller (run baseUrl jobId s evs)) = Some o).
  { induction evs as [|e evs IH]; intros s o H; [exact H|].
    apply (IH (step baseUrl jobId s e)). apply step_settled. exact H. }
  destruct (Hinv l (mkState p0 [])) as (I1 & _ & I2 & K).
  { simpl. rewrite Ht, Hp. split; [congruence|]. split.
    - intros [i Hi]. destruct i; discriminate.
    - split; [discriminate|lia]. }
  cbv zeta in I1, I2, K.
  split; [exact I1|]. split; [exact I2|]. split; [intros o; apply Hfinal|].
  pose proof (past_length (runs (run baseUrl jobId (mkState p0 []) l))). lia.
Qed.


End OverlapMore.


(** * The upload of a file *)
Section UploadMore.
Import JS Eff Http Upload.

(** What the [load] listener leaves behind. *)
Lemma onLoad_outcome (status : Z) (statusText : string) (responseText : Text) (s : State) :
  exec (onLoad status statusText responseText) s =
  mkState
    (match settled s with
     | Some o => Some o
     | None =>
         Some (if (status >=? 200) && (status <? 300) then
                 match parsed responseText with
                 | Json v => Ok v
                 | Malformed _ => Throw (Error msgParse)
                 end
               else
                 match parsed responseText with
                 | Json errorData =>
                     match get errorData "detail" with
                     | Ok detail =>
                         Throw (if truthy detail &&
                                   isStr "DOWNLOAD_ERROR" (getOpt detail "error_type")
                                then withDownloadError (ErrorOf (getOpt detail "message")) detail
                                else ErrorOf (Api.plainErrorMessage detail))
                     | Throw _ =>
                         Throw (Error ("Ошибка " +:+ JsString.ofZ status +:+ ": " +:+ statusText))
                     end
                 | Malformed _ =>
                     Throw (Error ("Ошибка " +:+ JsString.ofZ status +:+ ": " +:+ statusText))
                 end)
     end)
    None.
Proof.
  unfold onLoad, setUploadProgress, resolve, reject, settle, parse. st_unfold. simpl.
  destruct ((status >=? 200) && (status <? 300)); simpl.
  - destruct (parsed responseText); simpl; destruct (settled s); reflexivity.
  - destruct (parsed responseText) as [v|m]; simpl.
    + destruct (get v "detail") as [d|e]; simpl.
      * destruct (truthy d && isStr "DOWNLOAD_ERROR" (getOpt d "error_type")); simpl;
          destruct (settled s); reflexivity.
      * destruct (settled s); reflexivity.
    + destruct (settled s); reflexivity.
Qed.


(** X14. However the request ends, the progress display is cleared and the
    promise is settled, and it is settled for good: a later event of the
    request changes nothing. It is resolved only by a [load] with a status
    from 200 to 299 whose text parses, and then with the parsed value. *)
Theorem upload_resolves_only_for_2xx_json
    (e : Ending) (p : option Home.UploadProgress) (v : Value) :
  let s := finish e (mkState None p) in
  uploadProgress s = None /\
  settled s <> None /\
  (settled s = Some (Ok v) <->
   exists status statusText responseText,
     e = Load status statusText responseText /\
     200 <= status < 300 /\
     parsed responseText = Json v) /\
  (forall e2, settled (finish e2 s) = settled s).
Proof.
  cbv zeta.
  assert (Hfin : forall e0 s0,
            uploadProgress (finish e0 s0) = None /\
            (forall o, settled s0 = Some o -> settled (finish e0 s0) = Some o) /\
            settled (finish e0 s0) <> None).
  { intros e0 s0. destruct e0 as [st tx rt| |]; simpl.
    - rewrite onLoad_outcome. simpl. split; [reflexivity|]. split.
      + intros o ->. reflexivity.
      + destruct (settled s0); discriminate.
    - unfold onError, setUploadProgress, reject, settle. st_unfold. simpl.
      destruct (settled s0); simpl;
        (split; [reflexivity|]; split; [intros o' Ho'; congruence|discriminate]).
    - unfold onAbort, setUploadProgress, reject, settle. st_unfold. simpl.
      destruct (settled s0); simpl;
        (split; [reflexivity|]; split; [intros o' Ho'; congruence|discriminate]). }
  destruct (Hfin e (mkState None p)) as (H1 & _ & H3).
  split; [exact H1|]. split; [exact H3|]. split.
  - destruct e as [st tx rt| |]; simpl.
    + rewrite onLoad_outcome. simpl. split.
      * intros H. exists st, tx, rt. split; [reflexivity|].
        destruct ((st >=? 200) && (st <? 300)) eqn:Hr.
        -- apply andb_true_iff in Hr. destruct Hr as [Ha Hb].
           split; [lia|]. destruct (parsed rt); [congruence|discriminate].
        -- exfalso. destruct (parsed rt) as [d|m]; [|discriminate].
           destruct (get d "detail"); discriminate.
      * intros (st' & tx' & rt' & Heq & Hr & Hp). injection Heq as <- <- <-.
        replace ((st >=? 200) && (st <? 300)) with true
          by (symmetry; apply andb_true_iff; split; lia).
        rewrite Hp. reflexivity.
    + unfold onError, setUploadProgress, reject, settle. st_unfold. simpl.
      split; [discriminate|]. intros (? & ? & ? & Heq & _). discriminate.
    + unfold onAbort, setUploadProgress, reject, settle. st_unfold. simpl.
      split; [discriminate|]. intros (? & ? & ? & Heq & _). discriminate.
  - intros e2. destruct (settled (finish e (mkState None p))) as [o|] eqn:Ho;
      [|contradiction].
    destruct (Hfin e2 (finish e (mkState None p))) as (_ & H & _). exact (H o Ho).
Qed.

(** X15. A file sent by [uploadWithProgress] and a feed sent by [checkFeed] are
    answered alike, yet the same JSON error answer is not always shown
    alike. The two agree when [detail] is no download error for
    [checkFeed], and when it has [error_type] ["DOWNLOAD_ERROR"] and a
    [message]. A [detail] with an [error_code] but another [error_type]
    gives the download card through [checkFeed] and a plain error through
    the upload. *)
Theorem upload_and_checkFeed_on_error_detail
    (r : Response) (b : Text) (v detail : Value) (p : option Home.UploadProgress) :
  ok r = false ->
  isJson (contentType r) = true ->
  body r = Some b ->
  parsed b = Json v ->
  get v "detail" = Ok detail ->
  let up := settled (finish (Load (status r) (statusText r) b) (mkState None p)) in
  (Api.isDownloadDetail detail = false -> up = Some (Api.checkFeed (Ok r))) /\
  (truthy detail = true ->
   isStr "DOWNLOAD_ERROR" (getOpt detail "error_type") = true ->
   truthy (getOpt detail "message") = true ->
   up = Some (Api.checkFeed (Ok r))) /\
  (truthy detail = true ->
   isStr "DOWNLOAD_ERROR" (getOpt detail "error_type") = false ->
   truthy (getOpt detail "error_code") = true ->
   exists e1 e2 : Exn,
     up = Some (Throw e1) /\ Api.checkFeed (Ok r) = Throw e2 /\
     JS.downloadError e1 = Undefined /\ JS.downloadError e2 = detail).
Proof.
  intros Ho Hj Hb Hp Hd. cbv zeta.
  assert (He : Api.checkFeed (Ok r) =
               Throw (if Api.isDownloadDetail detail then Api.downloadErrorOf detail
                      else ErrorOf (Api.plainErrorMessage detail))).
  { unfold Api.checkFeed, Api.checkFeedNotOk.
    unfold text, json, cloneText, blob, bodyText, parse. st_unfold. simpl.
    rewrite Ho, Hj. simpl. rewrite Hb. simpl.
    rewrite Hp. simpl. rewrite Hd. simpl.
    destruct (Api.isDownloadDetail detail); reflexivity. }
  assert (Hr : (status r >=? 200) && (status r <? 300) = false).
  { unfold ok in Ho. apply andb_false_iff in Ho. apply andb_false_iff.
    destruct Ho as [Ho|Ho]; [left|right]; lia. }
  simpl. rewrite onLoad_outcome. simpl. rewrite Hr, Hp, Hd, He.
  unfold Api.isDownloadDetail.
  split; [|split].
  - intros Hn. unfold Api.isDownloadDetail in Hn. rewrite Hn.
    destruct (truthy detail) eqn:Ht; simpl in *; [|reflexivity].
    apply orb_false_iff in Hn. destruct Hn as [-> _]. reflexivity.
  - intros Ht Hty Hm. rewrite Ht, Hty. simpl.
    unfold Api.downloadErrorOf, or. rewrite Hm. reflexivity.
  - intros Ht Hty Hc. rewrite Ht, Hty, Hc. simpl.
    eexists. eexists. split; [reflexivity|]. split; [reflexivity|].
    split; reflexivity.
Qed.

End UploadMore.

(** * The address of the backend *)
Section BackendMore.
Import JS Eff Backend.

Lemma isEmpty_true (u : string) : JsString.isEmpty u = true <-> u = EmptyString.
Proof. destruct u; simpl; split; intros H; congruence. Qed.

(** X16. In Electron, an instance made without a [baseUrl] asks the main
    process for the address on its first use and keeps the answer: the
    address is never empty (the default stands in for a failed or empty
    answer), and as long as it is cached every later use returns it without
    asking again. *)
Theorem backend_url_asked_once (env : Env) (answer : Result string) (s : State) :
  electronAPI env = Some answer ->
  cachedBackendUrl s = None ->
  exists u : string,
    u <> EmptyString /\
    u = match answer with
        | Ok a => if JsString.isEmpty a then defaultUrl else a
        | Throw _ => defaultUrl
        end /\
    getBaseUrl env None s = (Ok u, mkState (Some u) (S (asked s))) /\
    (forall s', cachedBackendUrl s' = Some u -> getBaseUrl env None s' = (Ok u, s')).
Proof.
  intros He Hc.
  exists (match answer with
          | Ok a => if JsString.isEmpty a then defaultUrl else a
          | Throw _ => defaultUrl
          end).
  assert (Hne : match answer with
                | Ok a => if JsString.isEmpty a then defaultUrl else a
                | Throw _ => defaultUrl
                end <> EmptyString).
  { destruct answer as [a|e]; [|discriminate].
    destruct (JsString.isEmpty a) eqn:E; [discriminate|].
    intros ->. discriminate. }
  split; [exact Hne|]. split; [reflexivity|]. split.
  - unfold getBaseUrl, getBackendUrl. simpl. st_unfold. rewrite Hc, He. simpl.
    destruct answer as [a|e]; reflexivity.
  - intros s' Hs'. unfold getBaseUrl. simpl. st_unfold. rewrite Hs'. simpl.
    destruct (JsString.isEmpty _) eqn:E; [|reflexivity].
    apply isEmpty_true in E. contradiction.
Qed.

(** X17. When [VITE_API_URL] is not set, the methods of the API client send
    their requests to an absolute address (the one Electron gives, or the
    default), while [uploadWithProgress] posts the file to the relative
    address [/api/check-feed]; the two addresses of the same endpoint
    differ. *)
Theorem upload_address_is_relative (env : Env) (s : State) :
  VITE_API_URL env = None ->
  cachedBackendUrl s = None ->
  exists base : string,
    base <> EmptyString /\
    fst (url env None "/api/check-feed" s) = Ok (base +:+ "/api/check-feed") /\
    uploadUrl env = "/api/check-feed" /\
    uploadUrl env <> base +:+ "/api/check-feed".
Proof.
  intros Hv Hc.
  assert (Hb : exists base, base <> EmptyString /\
                 exists s', getBaseUrl env None s = (Ok base, s')).
  { unfold getBaseUrl, getBackendUrl. simpl. st_unfold. rewrite Hc, Hv. simpl.
    destruct (electronAPI env) as [[a|e]|]; simpl.
    - destruct (JsString.isEmpty a) eqn:E.
      + exists defaultUrl. split; [discriminate|eauto].
      + exists a. split; [|eauto]. intros ->. discriminate.
    - exists defaultUrl. split; [discriminate|eauto].
    - exists defaultUrl. split; [discriminate|eauto]. }
  destruct Hb as (base & Hne & s' & Hg).
  exists base. split; [exact Hne|].
  assert (Hu : uploadUrl env = "/api/check-feed") by (unfold uploadUrl; rewrite Hv; reflexivity).
  split; [|split; [exact Hu|]].
  - unfold url. st_unfold. rewrite Hg. reflexivity.
  - rewrite Hu. intros H. apply (f_equal String.length) in H.
    rewrite append_length in H. destruct base; [contradiction|]. simpl in H. lia.
Qed.

End BackendMore.

(** * The time left, as it is displayed *)
Section FormatMore.
Import JsNumber Format.
Local Open Scope Q_scope.

Lemma floor_unique (y : Q) (z : Z) :
  inject_Z z <= y -> y < inject_Z (z + 1) -> Qfloor y = z.
Proof.
  intros H1 H2.
  pose proof (Qfloor_le y) as F1. pose proof (Qlt_floor y) as F2.
  assert (A : (Qfloor y < z + 1)%Z).
  { rewrite Zlt_Qlt. eapply Qle_lt_trans; [exact F1|exact H2]. }
  assert (B : (z < Qfloor y + 1)%Z).
  { rewrite Zlt_Qlt. eapply Qle_lt_trans; [exact H1|exact F2]. }
  lia.
Qed.

Lemma this_div60 (q : Qc) : this (q / Qc_of_Z 60)%Qc == this q / 60.
Proof.
  unfold Qcdiv, Qcmult, Qcinv, Q2Qc. simpl. rewrite !Qred_correct. reflexivity.
Qed.

Lemma this_rest (q : Qc) (m : Z) :
  this (q - Qc_of_Z 60 * Qc_of_Z m)%Qc == this q - 60 * inject_Z m.
Proof.
  unfold Qcminus, Qcplus, Qcopp, Qcmult, Qc_of_Z, Q2Qc. simpl.
  rewrite !Qred_correct. reflexivity.
Qed.

Lemma inject_Z_sub (a b : Z) : inject_Z (a - b) == inject_Z a - inject_Z b.
Proof. unfold Qeq, Qminus, Qplus, Qopp, inject_Z. simpl. lia. Qed.

Lemma floor_shift (y : Q) (k : Z) : Qfloor (y - inject_Z k) = (Qfloor y - k)%Z.
Proof.
  apply floor_unique.
  - pose proof (Qfloor_le y) as F1. rewrite inject_Z_sub.
    unfold Qminus. apply Qplus_le_compat; [exact F1|apply Qle_refl].
  - pose proof (Qlt_floor y) as F2.
    replace (Qfloor y - k + 1)%Z with ((Qfloor y + 1) - k)%Z by lia.
    rewrite inject_Z_sub. unfold Qminus.
    apply Qplus_lt_le_compat; [exact F2|apply Qle_refl].
Qed.

Lemma sign_nonneg (q : Qc) : (0 <= q)%Qc -> sign q <> Gt.
Proof.
  unfold Qcle, Qle, sign. simpl. intros H Hc.
  destruct (Qnum q); try discriminate. lia.
Qed.

(** Rounding a time that is not negative and below [bound] seconds. *)
Lemma round_bounds (r : Q) (bound : Z) :
  0 <= r -> r < inject_Z bound ->
  (0 <= Qfloor (r + (1 # 2)))%Z /\ (Qfloor (r + (1 # 2)) <= bound)%Z.
Proof.
  intros H0 H1.
  pose proof (Qfloor_le (r + (1 # 2))) as F1.
  pose proof (Qlt_floor (r + (1 # 2))) as F2.
  rewrite inject_Z_plus in F2. change (inject_Z 1) with 1 in F2.
  split.
  - assert (A : (-1 < Qfloor (r + (1 # 2)))%Z).
    { rewrite Zlt_Qlt. change (inject_Z (-1)) with (-1 # 1). lra. }
    lia.
  - assert (A : (Qfloor (r + (1 # 2)) < bound + 1)%Z).
    { rewrite Zlt_Qlt, inject_Z_plus. change (inject_Z 1) with 1. lra. }
    lia.
Qed.

Lemma minutes_and_seconds (x : Q) :
  60 <= x ->
  let m := Qfloor (x / 60) in
  let s := Qfloor (x - 60 * inject_Z m + (1 # 2)) in
  (1 <= m)%Z /\ (0 <= s)%Z /\ (s <= 60)%Z /\ (60 * m + s)%Z = Qfloor (x + (1 # 2)).
Proof.
  intros Hx. cbv zeta.
  pose proof (Qfloor_le (x / 60)) as F1.
  pose proof (Qlt_floor (x / 60)) as F2.
  rewrite inject_Z_plus in F2. change (inject_Z 1) with 1 in F2.
  set (m := Qfloor (x / 60)) in *.
  assert (D : x / 60 == x * (1 # 60)) by (unfold Qdiv; reflexivity).
  rewrite D in F1, F2.
  assert (Hm : (0 < m + 1)%Z).
  { rewrite Zlt_Qlt, inject_Z_plus. change (inject_Z 1) with 1.
    change (inject_Z 0) with 0. lra. }
  assert (Hm1 : (1 <= m)%Z).
  { assert (A : (0 < m)%Z \/ (m <= 0)%Z) by lia. destruct A as [A|A]; [lia|].
    exfalso. rewrite Zle_Qle in A. change (inject_Z 0) with 0 in A. lra. }
  assert (E : x - 60 * inject_Z m + (1 # 2) == (x + (1 # 2)) - inject_Z (60 * m)).
  { rewrite inject_Z_mult. change (inject_Z 60) with 60. ring. }
  assert (B : 0 <= x - 60 * inject_Z m /\ x - 60 * inject_Z m < inject_Z 60).
  { change (inject_Z 60) with 60. split; lra. }
  destruct (round_bounds _ 60 (proj1 B) (proj2 B)) as [S0 S1].
  split; [exact Hm1|]. split; [exact S0|]. split; [exact S1|].
  rewrite E, floor_shift. lia.
Qed.

(** X18. For a time that is not negative, [formatTime] shows minutes and
    seconds that add up to the time rounded to whole seconds; the minutes
    are left out below one minute. The seconds shown range from 0 to 60:
    a time that rounds up to a whole minute is shown with 60 seconds. *)
Theorem formatTime_adds_up (q : Qc) :
  (0 <= q)%Qc ->
  exists m s : Z,
    (0 <= m)%Z /\ (0 <= s)%Z /\ (s <= 60)%Z /\
    (60 * m + s = roundZ q)%Z /\
    (m = 0%Z <-> (q < Qc_of_Z 60)%Qc) /\
    formatTime (Finite q) =
      if (m =? 0)%Z then (JsString.ofZ s +:+ "с")%string
      else (JsString.ofZ m +:+ "м " +:+ JsString.ofZ s +:+ "с")%string.
Proof.
  intros H0. pose proof (sign_nonneg q H0) as Hs.
  assert (Hx : 0 <= this q) by exact H0.
  unfold formatTime.
  assert (Hsign : forall A (a b : A),
            match sign q with Gt => a | _ => b end = b).
  { intros. destruct (sign q); congruence. }
  rewrite Hsign. clear Hsign.
  assert (Hcases : ((q ?= Qc_of_Z 60)%Qc = Lt /\ this q < 60) \/
                   ((q ?= Qc_of_Z 60)%Qc <> Lt /\ 60 <= this q)).
  { unfold Qccompare. change (this (Qc_of_Z 60)) with 60.
    destruct (this q ?= 60) eqn:Hc.
    - right. split; [discriminate|]. apply Qeq_alt in Hc. rewrite Hc. apply Qle_refl.
    - left. split; [reflexivity|]. apply Qlt_alt. exact Hc.
    - right. split; [discriminate|]. apply Qgt_alt in Hc. apply Qlt_le_weak. exact Hc. }
  destruct Hcases as [[Hc Hlt] | [Hc Hge]].
  - rewrite Hc. exists 0%Z, (roundZ q).
    destruct (round_bounds (this q) 60 Hx Hlt) as [S0 S1].
    split; [lia|]. split; [exact S0|]. split; [exact S1|]. split; [lia|].
    split; [|reflexivity]. split; [intros _; exact Hlt|reflexivity].
  - destruct (minutes_and_seconds (this q) Hge) as (M1 & S0 & S1 & Hsum).
    cbv zeta in M1, S0, S1, Hsum.
    assert (Em : floorZ (q / Qc_of_Z 60) = Qfloor (this q / 60)).
    { unfold floorZ. rewrite this_div60. reflexivity. }
    assert (Es : roundZ (q - Qc_of_Z 60 * Qc_of_Z (floorZ (q / Qc_of_Z 60)))
                 = Qfloor (this q - 60 * inject_Z (Qfloor (this q / 60)) + (1 # 2))).
    { unfold roundZ. rewrite this_rest, Em. reflexivity. }
    exists (floorZ (q / Qc_of_Z 60)),
           (roundZ (q - Qc_of_Z 60 * Qc_of_Z (floorZ (q / Qc_of_Z 60)))).
    rewrite Es, Em.
    split; [lia|]. split; [exact S0|]. split; [exact S1|]. split; [exact Hsum|].
    split.
    + split; [lia|]. intros Hq. exfalso.
      assert (Hq' : this q < 60) by exact Hq.
      apply (Qlt_not_le _ _ Hq' Hge).
    + replace (Qfloor (this q / 60) =? 0)%Z with false by (symmetry; apply Z.eqb_neq; lia).
      destruct (q ?= Qc_of_Z 60)%Qc; [reflexivity|congruence|reflexivity].
Qed.


Lemma seconds_not_dash (a : string) : (a +:+ "с")%string <> dash.
Proof.
  intros H. destruct a as [|c [|c' a']].
  - simpl in H. discriminate.
  - simpl in H. discriminate.
  - apply (f_equal String.length) in H. simpl in H.
    rewrite append_length in H. simpl in H. lia.
Qed.

Lemma formatTime_not_dash (q : Qc) : (0 <= q)%Qc -> formatTime (Finite q) <> dash.
Proof.
  intros H0. pose proof (sign_nonneg q H0) as Hs. unfold formatTime.
  assert (Hsign : forall A (a b : A),
            match sign q with Gt => a | _ => b end = b).
  { intros. destruct (sign q); congruence. }
  rewrite Hsign.
  assert (Hlong : forall a b : string, (a +:+ "м " +:+ b +:+ "с")%string <> dash).
  { intros a b H. apply (f_equal String.length) in H.
    rewrite !append_length in H. simpl in H. lia. }
  destruct (q ?= Qc_of_Z 60)%Qc; [apply Hlong|apply seconds_not_dash|apply Hlong].
Qed.

Lemma quotient_nonneg (a : Z) (b : Qc) :
  (0 <= a)%Z -> (0 < b)%Qc -> (0 <= Qc_of_Z a / b)%Qc.
Proof.
  intros Ha Hb.
  assert (A : (0 < a)%Z \/ a = 0%Z) by lia. destruct A as [A| ->].
  - apply Qclt_le_weak, positive_quotient; [exact Hb|].
    rewrite <- Z2Qc_inj_0. apply (proj1 (Z2Qc_inj_lt 0 a)). exact A.
  - unfold Qcdiv. rewrite Z2Qc_inj_0, Qcmult_0_l. apply Qcle_refl.
Qed.

(** One report of the listener. *)
Lemma report_time_is_shown
    (st st' : Home.Estimator) (currentTime : Z) (e : Home.ProgressEvent)
    (r : Home.UploadProgress) :
  Home.onUploadProgress st currentTime e = (st', Some r) ->
  (Home.e_loaded e <= Home.e_total e)%Z ->
  formatTime (Home.timeRemaining r) <> dash.
Proof.
  unfold Home.onUploadProgress. intros H Hle.
  destruct (Home.lengthComputable e); [|discriminate].
  injection H as _ <-. simpl.
  assert (Hzero : formatTime (ofZ 0) <> dash).
  { apply formatTime_not_dash. unfold Qcle. simpl. apply Qle_refl. }
  set (te := (Qc_of_Z (currentTime - Home.startTime st) / Qc_of_Z 1000)%Qc).
  destruct (sign te) eqn:Hte; simpl; try exact Hzero.
  set (sp := (Qc_of_Z (Home.e_loaded e - Home.startLoaded st) / te)%Qc).
  destruct (sign sp) eqn:Hsp; simpl; try exact Hzero.
  apply formatTime_not_dash, quotient_nonneg; [lia|].
  apply sign_positive. exact Hsp.
Qed.

(** X19. Over a whole upload, the time left that is displayed is a time, never
    the dash, as long as no progress event reports more bytes sent than the
    total; this holds whatever the clock does between the events. *)
Theorem remaining_time_is_shown
    (st : Home.Estimator) (events : list (Z * Home.ProgressEvent)) :
  Forall (fun te => (Home.e_loaded (snd te) <= Home.e_total (snd te))%Z) events ->
  Forall (fun r => formatTime (Home.timeRemaining r) <> dash)
    (Home.uploadReports st events).
Proof.
  intros H. revert st. induction H as [|[t e] events He _ IH]; intros st; simpl.
  - constructor.
  - destruct (Home.onUploadProgress st t e) as [st' [r|]] eqn:Hr.
    + constructor; [|apply IH]. exact (report_time_is_shown st st' t e r Hr He).
    + apply IH.
Qed.

End FormatMore.
(** * The log methods and the log page *)
Section LogsMore.
Import JS Eff Http ApiLogs LogsPage.

Ltac logs_unfold :=
  unfold text, json, cloneText, blob, bodyText, parse in *;
  st_unfold; simpl in *.

(** What the three methods make of an answer. *)
Lemma getLogs_outcome (r : Response) :
  getLogs (Ok r) =
  if ok r then parse (bodyText r)
  else match parse (bodyText r) with
       | Ok v =>
           match get v "detail" with
           | Ok d => Throw (ErrorOf (or d (Str msgLogs)))
           | Throw e => Throw e
           end
       | Throw _ => Throw (Error msgLogs)
       end.
Proof.
  unfold getLogs. logs_unfold.
  destruct (ok r); simpl; destruct (body r) as [b|]; simpl; try reflexivity;
    destruct (parsed b) as [v|m]; simpl; try reflexivity;
    destruct (get v "detail"); reflexivity.
Qed.

Lemma getLogsInfo_outcome (r : Response) :
  getLogsInfo (Ok r) =
  if ok r then parse (bodyText r)
  else Throw (Error "Ошибка при получении информации о логах").
Proof.
  unfold getLogsInfo. logs_unfold.
  destruct (ok r); simpl; destruct (body r) as [b|]; simpl; try reflexivity;
    destruct (parsed b); reflexivity.
Qed.

Lemma healthCheck_outcome (r : Response) :
  healthCheck (Ok r) =
  if ok r then parse (bodyText r) else Throw (Error "API недоступен").
Proof.
  unfold healthCheck. logs_unfold.
  destruct (ok r); simpl; destruct (body r) as [b|]; simpl; try reflexivity;
    destruct (parsed b); reflexivity.
Qed.

(** X20. [getLogs] reports what the server said. For an answer that is
    not OK: when the body is JSON and its [detail] can be read, the error
    carries the [detail] if it is truthy and the fixed message if not; when
    the body is the JSON [null], on which reading [detail] throws, the
    [TypeError] of that read is what the caller gets; when the body is not
    JSON (or there is none), the fixed message. (The methods of the feed
    check, built alike, lose the [detail].) *)
Theorem getLogs_reports_server_detail (r : Response) :
  ok r = false ->
  (forall v d, parsed (bodyText r) = Json v -> get v "detail" = Ok d ->
     getLogs (Ok r) = Throw (Error (if truthy d then messageOf d else msgLogs))) /\
  (forall v e, parsed (bodyText r) = Json v -> get v "detail" = Throw e ->
     getLogs (Ok r) = Throw e) /\
  (parsed (bodyText r) = Json Null ->
     getLogs (Ok r) =
       Throw (TypeError "Cannot read properties of null (reading 'detail')")) /\
  (forall m, parsed (bodyText r) = Malformed m -> getLogs (Ok r) = Throw (Error msgLogs)).
Proof.
  intros Ho. rewrite getLogs_outcome, Ho. unfold parse. split; [|split; [|split]].
  - intros v d -> ->. unfold or, ErrorOf. destruct (truthy d); reflexivity.
  - intros v e -> ->. reflexivity.
  - intros ->. reflexivity.
  - intros m ->. reflexivity.
Qed.

(** X21. [healthCheck], [getLogs] and [getLogsInfo] return a value exactly for
    an OK answer whose body parses as JSON, and then the parsed value. *)
Theorem log_methods_return_only_ok_json (r : Response) (v : Value) :
  (healthCheck (Ok r) = Ok v <-> ok r = true /\ parsed (bodyText r) = Json v) /\
  (getLogs (Ok r) = Ok v <-> ok r = true /\ parsed (bodyText r) = Json v) /\
  (getLogsInfo (Ok r) = Ok v <-> ok r = true /\ parsed (bodyText r) = Json v).
Proof.
  rewrite healthCheck_outcome, getLogs_outcome, getLogsInfo_outcome. unfold parse.
  destruct (ok r); destruct (parsed (bodyText r)) as [w|m]; simpl;
    (split; [|split]); (split; [intros H|intros [H1 H2]]);
    try discriminate; try congruence; try (split; congruence);
    destruct (get w "detail"); discriminate.
Qed.

(** X22. [loadLogs] is all or nothing, and always ends the loading state: the
    lines and the file information are both replaced, with no error, when
    both requests succeed and the lines can be read; otherwise both stay
    as they were and a message that is not empty is shown. *)
Theorem loadLogs_all_or_nothing
    (logsFetched infoFetched : Result Response) (secondFirst : bool) (s : State) :
  let s' := exec (loadLogs logsFetched infoFetched secondFirst) s in
  loading s' = false /\
  ((exists logsData infoData lines,
      getLogs logsFetched = Ok logsData /\
      getLogsInfo infoFetched = Ok infoData /\
      get logsData "lines" = Ok lines /\
      logs s' = lines /\ logInfo s' = infoData /\ error s' = None) \/
   (exists m,
      error s' = Some m /\ m <> EmptyString /\
      logs s' = logs s /\ logInfo s' = logInfo s /\
      (getLogs logsFetched = Ok Null \/
       getLogs logsFetched = Ok Undefined \/
       (exists e, getLogs logsFetched = Throw e) \/
       (exists e, getLogsInfo infoFetched = Throw e)))).
Proof.
  cbv zeta.
  assert (Hshown : forall e, shown e <> EmptyString).
  { intros e. unfold shown. destruct (JsString.isEmpty (message e)) eqn:E; [discriminate|].
    intros H. rewrite H in E. discriminate. }
  unfold loadLogs, all2, setLoading, setError, setLogs, setLogInfo. st_unfold. simpl.
  destruct (getLogs logsFetched) as [ld|e1]; destruct (getLogsInfo infoFetched) as [inf|e2];
    simpl.
  - destruct (get ld "lines") as [lines|e] eqn:Hl; simpl.
    + split; [reflexivity|]. left. exists ld, inf, lines. auto 10.
    + split; [reflexivity|]. right. exists (shown e).
      repeat split; try apply Hshown.
      destruct ld; simpl in Hl; try discriminate; auto.
  - split; [reflexivity|]. right. exists (shown e2). repeat split; try apply Hshown.
    right. right. right. eauto.
  - split; [reflexivity|]. right. exists (shown e1). repeat split; try apply Hshown.
    right. right. left. eauto.
  - split; [reflexivity|]. right. exists (shown (if secondFirst then e2 else e1)).
    repeat split; try apply Hshown. right. right. left. eauto.
Qed.

End LogsMore.
(** * The results page *)
Section ResultsMore.
Import JS Eff.

Variable JSON_parse : string -> Parsed.

Ltac home_unfold :=
  unfold Home.save, Home.setItem, Home.navigate, Home.setError, Home.setIsLoading,
         Home.setUploadProgress, Home.setStatusMessage, Home.setDownloadError,
         Home.cleanup, Home.showError in *;
  st_unfold; simpl in *.

Ltac results_unfold :=
  unfold Results.load, Results.setResult, Results.setFeedSource, Results.navigate,
         Results.parseString, parse in *;
  st_unfold; simpl in *.

(** Where [handleSubmit] goes at its end, from a page that has not
    navigated: to the results page with nothing in the navigation state
    and the whole result in the store, or to the results page with the whole
    result in the navigation state. *)
Lemma finish_navigation (f : Home.Form) (result : Value) (p : Home.Page)
    (nav : Home.Navigation) :
  Home.navigation p = None ->
  Home.navigation (Home.finish f result p) = Some nav ->
  (nav = Home.mkNavigation "/results" Null /\
   Home.items (Home.storage (Home.finish f result p)) !! "feedCheckResult"
     = Some (toString (stringify result)) /\
   Home.items (Home.storage (Home.finish f result p)) !! "feedSource"
     = Some (toString (stringify (Home.feedSource f)))) \/
  nav = Home.mkNavigation "/results" (Home.fullState f result).
Proof.
  intros Hn.
  pose proof (save_frame (stringify result) (stringify (Home.feedSource f)) p) as Hf1.
  pose proof (save_ok (stringify result) (stringify (Home.feedSource f)) p) as Hok.
  cbv zeta in Hf1. destruct Hf1 as (_ & Hn1 & _).
  unfold Home.finish, Home.handoff. unfold run, exec in *.
  st_unfold.
  destruct (Home.save (stringify result) (stringify (Home.feedSource f)) p)
    as [[[]|e] p1] eqn:Hs1; simpl in *.
  - intros H. left. destruct (Hok eq_refl) as [Hk1 Hk2].
    home_unfold. split; [congruence|]. split; assumption.
  - destruct (Home.isQuotaError e).
    + destruct (Home.minimalResult f result) as [minimal|e'].
      * pose proof (save_frame (stringify minimal) (stringify (Home.feedSource f)) p1)
          as Hf2.
        cbv zeta in Hf2. destruct Hf2 as (_ & Hn2 & _). unfold exec in Hn2.
        destruct (Home.save (stringify minimal) (stringify (Home.feedSource f)) p1)
          as [[[]|e2] p2] eqn:Hs2; simpl in *.
        -- intros H. right. home_unfold. congruence.
        -- intros H. exfalso. home_unfold. congruence.
      * intros H. exfalso. home_unfold.
        destruct (truthy (JS.downloadError e')); simpl in H; congruence.
    + intros H. exfalso. home_unfold.
      destruct (truthy (JS.downloadError e)); simpl in H; congruence.
Qed.


Lemma stringify_object (props : list (string * Value)) :
  exists t, toString (stringify (Obj props)) = String "{" t.
Proof. unfold stringify. simpl. eexists. reflexivity. Qed.

(** X23. From the check to the results page: when [handleSubmit] ends by
    navigating, it navigates to the results page, and the page that opens
    there shows the whole result of the check, whether the result went
    through the store or, after the quota fallback, through the navigation
    state (the reduced copy in the store is not used). [JSON.parse] is
    assumed to give back the result and some source from the texts
    [JSON.stringify] made of them. *)
Theorem results_page_shows_the_checked_result
    (f : Home.Form) (props : list (string * Value)) (src : Value) (p : Home.Page)
    (nav : Home.Navigation) :
  JSON_parse (toString (stringify (Obj props))) = Json (Obj props) ->
  JSON_parse (toString (stringify (Home.feedSource f))) = Json src ->
  Home.navigation p = None ->
  Home.navigation (Home.finish f (Obj props) p) = Some nav ->
  let opened :=
    Results.load JSON_parse (Home.navState nav)
      (Home.items (Home.storage (Home.finish f (Obj props) p))) Results.initial in
  Home.path nav = "/results" /\
  fst opened = Ok tt /\
  Results.result (snd opened) = Obj props /\
  Results.navigation (snd opened) = None.
Proof.
  intros Hr Hs Hn Hnav. cbv zeta.
  destruct (finish_navigation f (Obj props) p nav Hn Hnav) as [(-> & Hk1 & Hk2) | ->].
  - split; [reflexivity|]. simpl Home.navState.
    destruct (stringify_object props) as [t Ht].
    assert (Hsrc : exists t', toString (stringify (Home.feedSource f)) = String "{" t').
    { unfold Home.feedSource. apply stringify_object. }
    destruct Hsrc as [t' Ht'].
    assert (Hp1 : Backend.present (Some (toString (stringify (Obj props))))
                  = Some (toString (stringify (Obj props)))).
    { unfold Backend.present. rewrite Ht. reflexivity. }
    assert (Hp2 : Backend.present (Some (toString (stringify (Home.feedSource f))))
                  = Some (toString (stringify (Home.feedSource f)))).
    { unfold Backend.present. rewrite Ht'. reflexivity. }
    unfold Results.load. simpl truthy. cbv iota.
    rewrite Hk1, Hk2, Hp1, Hp2.
    unfold Results.parseString, parse. simpl parsed. rewrite Hr, Hs.
    results_unfold. destruct (truthy src); simpl; auto.
  - split; [reflexivity|]. results_unfold. auto.
Qed.

(** X24. The edges of loading the result. A truthy [fullResult] in the
    navigation state is shown and the store is not read, whatever it holds.
    Without it, a store with no result (or an empty text) sends the user
    back to the start page, and a stored text that does not parse makes the
    effect throw, with nothing shown and no navigation. *)
Theorem results_load_edge_cases (state : Value) (items : gmap string string) :
  (truthy (getOpt state "fullResult") = true ->
   Results.load JSON_parse state items Results.initial =
     (Ok tt,
      Results.mkState (getOpt state "fullResult")
        (if truthy (getOpt state "feedSource") then getOpt state "feedSource" else Null)
        None)) /\
  (truthy (getOpt state "fullResult") = false ->
   (items !! "feedCheckResult" = None \/ items !! "feedCheckResult" = Some EmptyString) ->
   Results.load JSON_parse state items Results.initial =
     (Ok tt, Results.mkState Null Null (Some "/"))) /\
  (forall stored msg,
     truthy (getOpt state "fullResult") = false ->
     items !! "feedCheckResult" = Some stored ->
     JSON_parse stored = Malformed msg ->
     stored <> EmptyString ->
     Results.load JSON_parse state items Results.initial =
       (Throw (SyntaxError msg), Results.initial)).
Proof.
  split; [|split].
  - intros Ht. unfold Results.load. rewrite Ht. results_unfold.
    destruct (truthy (getOpt state "feedSource")); reflexivity.
  - intros Ht Hi. unfold Results.load. rewrite Ht.
    destruct Hi as [-> | ->]; reflexivity.
  - intros stored msg Ht Hi Hp Hne. unfold Results.load. rewrite Ht, Hi.
    unfold Backend.present. destruct stored as [|c stored]; [contradiction|].
    simpl JsString.isEmpty. cbv iota. results_unfold. rewrite Hp. reflexivity.
Qed.

End ResultsMore.
(** * The checks on an XML result *)
Section ChecksMore.
Import JS Eff Checks.

(** X25. A result flagged with [validation_error] never reaches the hand-off:
    the check stops with either a plain message or the error card, never
    both, or it throws. *)
Theorem validation_error_never_proceeds (f : Home.Form) (result flag : Value) :
  get result "validation_error" = Ok flag ->
  truthy flag = true ->
  xmlCheck f result <> Ok Proceed /\
  (forall error card, xmlCheck f result = Ok (Stop error card) ->
     (error = Null /\ truthy card = true) \/ (card = Null /\ truthy error = true)).
Proof.
  intros Hg Ht. unfold xmlCheck. rewrite Hg, Ht.
  destruct (truthy (getOpt result "param_validation_error") &&
            truthy (getOpt result "errors")).
  - unfold paramCard.
    destruct (getOpt result "errors") as [| | | | |items|]; try (split; [discriminate|]);
      try (intros error card H; discriminate).
    destruct (forEach readError (firstn 10 items)).
    + split; [discriminate|]. intros error card H. injection H as <- <-. left. auto.
    + split; [discriminate|]. intros error card H. discriminate.
  - split; [discriminate|]. intros error card H. injection H as <- <-. right.
    split; [reflexivity|]. unfold or.
    destruct (truthy (getOpt result "message")) eqn:E; [exact E|reflexivity].
Qed.

(** X26. The error card for malformed [param] tags carries at most 20 of the
    errors, the first ones in the order of the result, and the count the
    server gave (or, without one, the number of errors in the result). It
    is shown only when the errors are an array none of whose first ten
    entries is [null]. *)
Theorem param_card_lists_first_twenty (f : Home.Form) (result error card : Value) :
  xmlCheck f result = Ok (Stop error card) ->
  truthy card = true ->
  exists items : list Value,
    getOpt result "errors" = Arr items /\
    getOpt (getOpt card "details") "errors" = Arr (firstn 20 items) /\
    (List.length (firstn 20 items) <= 20)%nat /\
    getOpt (getOpt card "details") "errors_count" =
      (if truthy (getOpt result "errors_count") then getOpt result "errors_count"
       else Num (Z.of_nat (List.length items))) /\
    Forall (fun err => err <> Null /\ err <> Undefined) (firstn 10 items).
Proof.
  unfold xmlCheck.
  destruct (get result "validation_error") as [flag|e]; [|discriminate].
  destruct (truthy flag).
  - destruct (truthy (getOpt result "param_validation_error") &&
              truthy (getOpt result "errors")).
    + unfold paramCard.
      destruct (getOpt result "errors") as [| | | | |items|]; try discriminate.
      destruct (forEach readError (firstn 10 items)) eqn:Hfe; [|discriminate].
      intros H _. injection H as <- <-. exists items.
      split; [reflexivity|]. split; [reflexivity|].
      split; [apply List.firstn_le_length|]. split; [reflexivity|].
      revert Hfe. generalize (firstn 10 items). intros l.
      induction l as [|x l IH]; intros Hfe; [constructor|].
      simpl in Hfe. unfold readError in Hfe at 1.
      destruct (get x "message") eqn:Hx; [|discriminate].
      constructor; [|apply IH, Hfe].
      destruct x; simpl in Hx; try discriminate; split; discriminate.
    + intros H Ht. injection H as <- <-. discriminate.
  - match goal with |- context [if ?c then Ok Proceed else _] => destruct c end;
      [discriminate|].
    match goal with |- context [if ?c then Ok (Stop _ _) else _] => destruct c end;
      [|discriminate].
    intros H Ht. injection H as <- <-. discriminate.
Qed.

(** X27. When the result is not flagged with [validation_error], the check
    goes on to the hand-off unless the syntax part is there and not valid,
    shows no sign of a [param] error, and both the [mandatory] and the
    [categories] parts are missing. *)
Theorem xml_result_proceeds_iff (f : Home.Form) (result flag : Value) :
  get result "validation_error" = Ok flag ->
  truthy flag = false ->
  let syntax := getOpt result "syntax" in
  let invalid := truthy syntax && negb (truthy (getOpt syntax "valid")) in
  let paramErrors :=
    isStr "PARAM_VALIDATION_ERROR" (getOpt syntax "error_code") ||
    isStr "PARAM_DUPLICATE_ERROR" (getOpt syntax "error_code") ||
    truthy (getOpt syntax "param_validation_errors") ||
    truthy (getOpt syntax "duplicate_param_errors") in
  (xmlCheck f result = Ok Proceed <->
   invalid = false \/ paramErrors = true \/
   truthy (getOpt result "mandatory") = true \/
   truthy (getOpt result "categories") = true) /\
  (xmlCheck f result <> Ok Proceed ->
   exists message, xmlCheck f result = Ok (Stop message Null) /\ truthy message = true).
Proof.
  intros Hg Ht. cbv zeta. unfold xmlCheck. rewrite Hg, Ht.
  set (syntax := getOpt result "syntax").
  destruct (truthy syntax && negb (truthy (getOpt syntax "valid"))); simpl.
  2: { split; [tauto|]. intros H. contradiction. }
  destruct (isStr "PARAM_VALIDATION_ERROR" (getOpt syntax "error_code") ||
            isStr "PARAM_DUPLICATE_ERROR" (getOpt syntax "error_code") ||
            truthy (getOpt syntax "param_validation_errors") ||
            truthy (getOpt syntax "duplicate_param_errors")); simpl.
  1: { split; [tauto|]. intros H. contradiction. }
  destruct (truthy (getOpt result "mandatory")); simpl.
  1: { split; [tauto|]. intros H. contradiction. }
  destruct (truthy (getOpt result "categories")); simpl.
  1: { split; [tauto|]. intros H. contradiction. }
  split.
  - split; [discriminate|]. intros [H|[H|[H|H]]]; discriminate.
  - intros _. eexists. split; [reflexivity|]. unfold or.
    destruct (truthy (getOpt syntax "human_message")) eqn:E1; rewrite ?E1;
      [first [exact E1|reflexivity]|].
    destruct (truthy (getOpt syntax "message")) eqn:E2; rewrite ?E2;
      first [exact E2|reflexivity].
Qed.

End ChecksMore.

(** * The toggles and the sidebar *)
Section WidgetsMore.

(** X28. Toggling a section (or a checklist item) twice shows it as before, and
    toggling never touches another one. *)
Theorem toggle_twice_restores (id : string) (m : gmap string bool) :
  Recommendations.isOn id (Recommendations.toggle id m)
    = negb (Recommendations.isOn id m) /\
  Recommendations.isOn id (Recommendations.toggle id (Recommendations.toggle id m))
    = Recommendations.isOn id m /\
  (forall other, other <> id ->
     Recommendations.toggle id m !! other = m !! other).
Proof.
  unfold Recommendations.toggle. split; [|split].
  - unfold Recommendations.isOn at 1. rewrite lookup_insert_eq. reflexivity.
  - unfold Recommendations.isOn at 1. rewrite lookup_insert_eq.
    unfold Recommendations.isOn at 1. rewrite lookup_insert_eq.
    apply negb_involutive.
  - intros other Hne. apply lookup_insert_ne. congruence.
Qed.

Lemma handleAddItem_ids (items : list Dashboard.SidebarItem) :
  List.map Dashboard.id items = seq 1 (List.length items) ->
  List.map Dashboard.id (Dashboard.handleAddItem items)
    = seq 1 (List.length (Dashboard.handleAddItem items)).
Proof.
  intros H. unfold Dashboard.handleAddItem.
  rewrite List.map_app, List.length_app, H. simpl.
  rewrite List.seq_app. simpl. rewrite Nat.add_1_r. reflexivity.
Qed.

(** X29. However many items are added to the sidebar, the items are numbered
    1, 2, 3, ... in order, so no two of them share an [id]. *)
Theorem sidebar_ids_are_distinct (n : nat) :
  let items := Nat.iter n Dashboard.handleAddItem Dashboard.initialItems in
  List.map Dashboard.id items = seq 1 (3 + n) /\
  List.NoDup (List.map Dashboard.id items).
Proof.
  cbv zeta.
  assert (H : List.map Dashboard.id (Nat.iter n Dashboard.handleAddItem Dashboard.initialItems)
              = seq 1 (List.length (Nat.iter n Dashboard.handleAddItem Dashboard.initialItems))
              /\ List.length (Nat.iter n Dashboard.handleAddItem Dashboard.initialItems)
                 = (3 + n)%nat).
  { induction n as [|n [IH1 IH2]]; [split; reflexivity|].
    simpl Nat.iter. split.
    - apply handleAddItem_ids, IH1.
    - unfold Dashboard.handleAddItem at 1. rewrite List.length_app, IH2. simpl. lia. }
  destruct H as [H1 H2]. rewrite H1, H2. split; [reflexivity|apply List.seq_NoDup].
Qed.

End WidgetsMore.
(** * Examples of the further properties *)
Section MoreExamples.
Import JS Eff Http.

Lemma server_detail_never_reported_witness :
  let thrown : Result Value :=
    Throw (TypeError
             "Failed to execute 'clone' on 'Response': Response body is already used") in
  Api.checkSyntax (Ok MoreSamples.missingSite) = thrown /\
  Api.getProblematicOffers (Ok MoreSamples.missingSite) = thrown /\
  Api.checkFeedAsync (Ok MoreSamples.missingSite) = thrown /\
  Api.getJobStatus (Ok MoreSamples.missingSite) = thrown.
Proof.
  destruct (server_detail_never_reported MoreSamples.missingSite eq_refl eq_refl)
    as (H1 & H2 & H3 & H4 & _).
  split; [exact H1|]. split; [exact H2|]. split; [exact H3|].
  apply H4. discriminate.
Defined.

Lemma untyped_json_body_returned_witness :
  Api.checkSyntax (Ok MoreSamples.textAnswer) = Ok (Obj [("detail", Str "boom")]) /\
  Api.getJobStatus (Ok MoreSamples.textAnswer) = Ok (Obj [("detail", Str "boom")]).
Proof.
  destruct (untyped_json_body_returned MoreSamples.textAnswer
              (Obj [("detail", Str "boom")]) eq_refl eq_refl eq_refl)
    as (H1 & _ & _ & H4 & _).
  split; [exact H1|exact H4].
Defined.

Lemma checkFeed_not_ok_throws_witness :
  exists e : Exn, Api.checkFeed (Ok MoreSamples.missingSite) = Throw e.
Proof.
  apply (checkFeed_not_ok_throws MoreSamples.missingSite). reflexivity.
Defined.

Lemma checkFeed_error_detail_witness :
  exists e : Exn,
    Api.checkFeed (Ok MoreSamples.missingSite) = Throw e /\
    message e = "site_id is required".
Proof.
  destruct (checkFeed_error_detail MoreSamples.missingSite
              (Obj [("detail", Str "site_id is required")]) (Str "site_id is required")
              (Samples.pageWith 300) eq_refl eq_refl eq_refl eq_refl)
    as (e & He & _ & _ & Hm).
  exists e. split; [exact He|]. apply Hm. reflexivity.
Defined.

Lemma transport_error_rejects_witness :
  let s := Stream.checkFeedWithProgress
             (Samples.scenario ++ Stream.ConnectionError
                :: [Stream.Message (textOf Samples.completeData)]) in
  Stream.closed s = true /\
  Stream.settled s = Some (Throw (Error Stream.msgConnection)) /\
  Stream.calls s = Stream.calls (Stream.checkFeedWithProgress Samples.scenario).
Proof.
  apply (transport_error_rejects Samples.scenario
           [Stream.Message (textOf Samples.completeData)]).
  left. reflexivity.
Defined.

Lemma settled_is_final_witness :
  Stream.checkFeedWithProgress
    ((Samples.scenario ++ [Stream.ConnectionError])
       ++ [Stream.Message (textOf Samples.completeData)])
  = Stream.checkFeedWithProgress (Samples.scenario ++ [Stream.ConnectionError]).
Proof.
  apply (settled_is_final (Samples.scenario ++ [Stream.ConnectionError])
           [Stream.Message (textOf Samples.completeData)]).
  vm_compute. discriminate.
Defined.

Lemma unknown_event_ignored_witness :
  exec (Stream.onmessage (textOf MoreSamples.heartbeat)) Stream.initial = Stream.initial.
Proof.
  destruct (unknown_event_ignored (textOf MoreSamples.heartbeat) MoreSamples.heartbeat
              Stream.initial eq_refl) as [H _].
  apply (H (Str "ping") eq_refl).
  intros t Hin. simpl in Hin.
  destruct Hin as [<-|[<-|[<-|[<-|[<-|[<-|[]]]]]]]; discriminate.
Defined.

Lemma one_callback_per_progress_event_witness :
  let s := Stream.checkFeedWithProgress
             (List.map (fun x => Stream.Message (fst (fst x))) MoreSamples.progressEvents) in
  Stream.calls s
    = List.map (fun x => StreamNotions.callbackOf (snd x) (snd (fst x)))
        MoreSamples.progressEvents /\
  Stream.closed s = false /\
  Stream.settled s = None.
Proof.
  apply (one_callback_per_progress_event MoreSamples.progressEvents).
  repeat constructor; simpl; tauto.
Defined.

Lemma unfinished_job_keeps_polling_witness :
  let s' := Poller.fire Samples.base (Str "job-1") Samples.polling
              (Ok (Samples.jsonResponse MoreSamples.processingStatus),
               Ok Samples.resultResponse) in
  Poller.timerActive s' = true /\
  Poller.settled s' = None /\
  Poller.trace s' =
    [Poller.Request (Poller.statusUrl Samples.base (Str "job-1"));
     Poller.ProgressCall (Num 40) (Str "working")].
Proof.
  apply (unfinished_job_keeps_polling Samples.base (Str "job-1")
           (Ok (Samples.jsonResponse MoreSamples.processingStatus))
           (Ok Samples.resultResponse)
           MoreSamples.processingStatus (Str "processing") Samples.polling);
    first [reflexivity | discriminate].
Defined.

Lemma failed_poll_ends_the_wait_witness :
  let s' := Poller.fire Samples.base (Str "job-1") Samples.polling
              (Throw MoreSamples.failedToFetch, Ok Samples.resultResponse) in
  Poller.timerActive s' = false /\
  Poller.settled s' =
    Some (Throw (Error "Не удалось подключиться к серверу. Проверьте, что бэкенд запущен.")).
Proof.
  destruct (failed_poll_ends_the_wait Samples.base (Str "job-1")
              (Throw MoreSamples.failedToFetch) (Ok Samples.resultResponse)
              (Error "Не удалось подключиться к серверу. Проверьте, что бэкенд запущен.")
              Samples.polling eq_refl eq_refl eq_refl) as (H1 & H2 & _).
  split; [exact H1|exact H2].
Defined.

Lemma upload_and_checkFeed_on_error_detail_witness :
  let r := MoreSamples.errorAnswer MoreSamples.codedDetail in
  exists e1 e2 : Exn,
    Upload.settled
      (Upload.finish
         (Upload.Load 400 "Bad Request"
            (textOf (Obj [("detail", MoreSamples.codedDetail)])))
         (Upload.mkState None None)) = Some (Throw e1) /\
    Api.checkFeed (Ok r) = Throw e2 /\
    JS.downloadError e1 = Undefined /\
    JS.downloadError e2 = MoreSamples.codedDetail.
Proof.
  destruct (upload_and_checkFeed_on_error_detail
              (MoreSamples.errorAnswer MoreSamples.codedDetail)
              (textOf (Obj [("detail", MoreSamples.codedDetail)]))
              (Obj [("detail", MoreSamples.codedDetail)]) MoreSamples.codedDetail None
              eq_refl eq_refl eq_refl eq_refl eq_refl) as (_ & _ & H).
  exact (H eq_refl eq_refl eq_refl).
Defined.

Lemma backend_url_asked_once_witness :
  exists u : string,
    u <> EmptyString /\
    u = "http://127.0.0.1:8000" /\
    Backend.getBaseUrl MoreSamples.electron None MoreSamples.fresh
      = (Ok u, Backend.mkState (Some u) 1) /\
    (forall s', Backend.cachedBackendUrl s' = Some u ->
                Backend.getBaseUrl MoreSamples.electron None s' = (Ok u, s')).
Proof.
  apply (backend_url_asked_once MoreSamples.electron (Ok "http://127.0.0.1:8000")
           MoreSamples.fresh); reflexivity.
Defined.

Lemma upload_address_is_relative_witness :
  exists base : string,
    base <> EmptyString /\
    fst (Backend.url MoreSamples.electron None "/api/check-feed" MoreSamples.fresh)
      = Ok (base +:+ "/api/check-feed") /\
    Backend.uploadUrl MoreSamples.electron = "/api/check-feed" /\
    Backend.uploadUrl MoreSamples.electron <> base +:+ "/api/check-feed".
Proof.
  apply (upload_address_is_relative MoreSamples.electron MoreSamples.fresh); reflexivity.
Defined.

Lemma formatTime_adds_up_witness :
  exists m s : Z,
    0 <= m /\ 0 <= s /\ s <= 60 /\
    60 * m + s = Format.roundZ MoreSamples.twoMinutes /\
    (m = 0 <-> (MoreSamples.twoMinutes < Qc_of_Z 60)%Qc) /\
    Format.formatTime (JsNumber.Finite MoreSamples.twoMinutes) =
      if m =? 0 then JsString.ofZ s +:+ "с"
      else JsString.ofZ m +:+ "м " +:+ JsString.ofZ s +:+ "с".
Proof.
  apply (formatTime_adds_up MoreSamples.twoMinutes). vm_compute. discriminate.
Defined.

Lemma remaining_time_is_shown_witness :
  Forall (fun r => Format.formatTime (Home.timeRemaining r) <> Format.dash)
    (Home.uploadReports Samples.uploadStart
       [Samples.firstEvent; Samples.secondEvent; Samples.stalledEvent]).
Proof.
  apply (remaining_time_is_shown Samples.uploadStart
           [Samples.firstEvent; Samples.secondEvent; Samples.stalledEvent]).
  repeat constructor; simpl; lia.
Defined.

Lemma getLogs_reports_server_detail_witness :
  ApiLogs.getLogs (Ok MoreSamples.logsUnavailable) = Throw (Error "Log file not found") /\
  ApiLogs.getLogs (Ok MoreSamples.nullAnswer) =
    Throw (TypeError "Cannot read properties of null (reading 'detail')").
Proof.
  destruct (getLogs_reports_server_detail MoreSamples.logsUnavailable eq_refl) as [H _].
  destruct (getLogs_reports_server_detail MoreSamples.nullAnswer eq_refl)
    as (_ & _ & Hnull & _).
  split.
  - apply (H (Obj [("detail", Str "Log file not found")]) (Str "Log file not found"));
      reflexivity.
  - apply Hnull. reflexivity.
Defined.

Lemma results_page_shows_the_checked_result_witness :
  let home := Home.finish Samples.urlForm Samples.bigResult (Samples.pageWith 300) in
  let opened :=
    Results.load MoreSamples.parseStored
      (Home.fullState Samples.urlForm Samples.bigResult)
      (Home.items (Home.storage home)) Results.initial in
  fst opened = Ok tt /\
  Results.result (snd opened) = Samples.bigResult /\
  Results.navigation (snd opened) = None.
Proof.
  destruct (results_page_shows_the_checked_result MoreSamples.parseStored
              Samples.urlForm
              [("site_id", Num 12345);
               ("syntax", Obj [("valid", Bool true)]);
               ("mandatory", Obj [("total_offers", Num 3); ("duplicate_ids", Arr [])]);
               ("problematic_offers",
                 Obj [("missing_id",
                        Arr [Obj [("id", Str "offer-1"); ("name", Str "First offer")];
                             Obj [("id", Str "offer-2"); ("name", Str "Second offer")];
                             Obj [("id", Str "offer-3"); ("name", Str "Third offer")]])]);
               ("categories", Obj [("empty_categories", Arr [])])]
              (Home.feedSource Samples.urlForm) (Samples.pageWith 300)
              (Home.mkNavigation "/results"
                 (Home.fullState Samples.urlForm Samples.bigResult))
              ltac:(vm_compute; reflexivity) ltac:(vm_compute; reflexivity)
              eq_refl ltac:(vm_compute; reflexivity)) as (_ & H).
  exact H.
Defined.

Lemma results_load_edge_cases_witness :
  Results.load MoreSamples.parseStored Null ∅ Results.initial
    = (Ok tt, Results.mkState Null Null (Some "/")) /\
  Results.load MoreSamples.parseStored Null MoreSamples.brokenStore Results.initial
    = (Throw (SyntaxError "Unexpected token"), Results.initial).
Proof.
  destruct (results_load_edge_cases MoreSamples.parseStored Null ∅) as (_ & H2 & _).
  destruct (results_load_edge_cases MoreSamples.parseStored Null MoreSamples.brokenStore)
    as (_ & _ & H3).
  split.
  - apply H2; [reflexivity|]. left. reflexivity.
  - apply (H3 "{" "Unexpected token"); [reflexivity|reflexivity|reflexivity|discriminate].
Defined.

Lemma validation_error_never_proceeds_witness :
  Checks.xmlCheck Samples.urlForm MoreSamples.paramErrors <> Ok Checks.Proceed.
Proof.
  destruct (validation_error_never_proceeds Samples.urlForm MoreSamples.paramErrors
              (Bool true) eq_refl eq_refl) as [H _].
  exact H.
Defined.

Lemma xml_result_proceeds_iff_witness :
  exists message : Value,
    Checks.xmlCheck Samples.urlForm MoreSamples.brokenSyntax
      = Ok (Checks.Stop message Null) /\
    truthy message = true.
Proof.
  destruct (xml_result_proceeds_iff Samples.urlForm MoreSamples.brokenSyntax Undefined
              eq_refl eq_refl) as [_ H].
  apply H. discriminate.
Defined.

Lemma toggle_twice_restores_witness :
  Recommendations.isOn "yml-general" (Recommendations.toggle "yml-general" ∅) = true /\
  Recommendations.toggle "yml-general" ∅ !! "yml-offers" = None.
Proof.
  destruct (toggle_twice_restores "yml-general" ∅) as (H1 & _ & H3).
  split; [exact H1|]. apply H3. discriminate.
Defined.

Lemma param_card_lists_first_twenty_witness :
  exists items : list Value,
    getOpt MoreSamples.paramErrors "errors" = Arr items /\
    getOpt (getOpt MoreSamples.shownCard "details") "errors" = Arr (firstn 20 items) /\
    getOpt (getOpt MoreSamples.shownCard "details") "errors_count" = Num 1.
Proof.
  destruct (param_card_lists_first_twenty Samples.urlForm MoreSamples.paramErrors Null
              MoreSamples.shownCard ltac:(vm_compute; reflexivity) eq_refl)
    as (items & H1 & H2 & _ & H4 & _).
  exists items. split; [exact H1|]. split; [exact H2|].
  rewrite H4. assert (E : items = [Obj [("message", Str "param without name"); ("line", Num 12)]]).
  { simpl in H1. injection H1 as <-. reflexivity. }
  rewrite E. reflexivity.
Defined.

Lemma overlapping_runs_keep_order_witness :
  let s := Overlap.run Samples.base (Str "job-1")
             (Overlap.mkState Samples.polling []) MoreSamples.overlapping in
  Poller.timerActive (Overlap.poller s) = false /\
  (forall o, Poller.settled (Overlap.poller s) = Some o ->
             Poller.settled
               (Overlap.poller
                  (Overlap.run Samples.base (Str "job-1") s
                     [Overlap.ResultArrives 1 (Ok Samples.result500)])) = Some o) /\
  (PollerCount.resultRequests Samples.base (Str "job-1")
     (Poller.trace (Overlap.poller s)) <= 2)%nat.
Proof.
  destruct (overlapping_runs_keep_order Samples.base (Str "job-1")
              MoreSamples.overlapping [Overlap.ResultArrives 1 (Ok Samples.result500)]
              Samples.polling eq_refl eq_refl) as (H1 & _ & H3 & H4).
  split; [|split; [exact H3|exact H4]].
  apply H1. vm_compute. discriminate.
Defined.

(** Two runs that overlap: the second starts before the status answer of
    the first has come, both see [completed], and both ask for the result;
    the second run reports its progress after the timer was stopped. The
    promise is resolved once, by the answer that comes first. *)
Example overlapping_runs_ask_twice :
  let s := Overlap.run Samples.base (Str "job-1")
             (Overlap.mkState Samples.polling []) MoreSamples.overlapping in
  PollerCount.resultRequests Samples.base (Str "job-1")
    (Poller.trace (Overlap.poller s)) = 2%nat /\
  Poller.settled (Overlap.poller s) = Some (Ok Samples.result) /\
  Poller.trace (Overlap.poller s) =
    [Poller.Request "http://localhost:8000/api/job/job-1";
     Poller.Request "http://localhost:8000/api/job/job-1";
     Poller.ProgressCall (Num 100) (Str "done");
     Poller.ClearInterval;
     Poller.ProgressCall (Num 100) (Str "Получение результата...");
     Poller.Request "http://localhost:8000/api/job/job-1?include_result=true";
     Poller.ProgressCall (Num 100) (Str "done");
     Poller.ClearInterval;
     Poller.ProgressCall (Num 100) (Str "Получение результата...");
     Poller.Request "http://localhost:8000/api/job/job-1?include_result=true"].
Proof. vm_compute. repeat split. Qed.

End MoreExamples.
